(** * VisionGrade ML service: prediction, training and persistence

    A shallow embedding of the Python sources
    [ml-service/services/prediction_service.py],
    [ml-service/services/database_service.py],
    [ml-service/utils/error_handler.py] and the training, prediction,
    batch and toggle routes of [ml-service/app.py], together with the
    properties of the prediction / training pipeline that are checked
    against them.

    Conventions of the embedding.
    - Python floats are idealised as rationals ([Q]); equalities between
      computed numbers are therefore stated with [==].
    - Python exceptions are values of type [exn]; a computation that may
      raise has type [res A].
    - Python dictionaries are insertion-ordered association lists
      ([dict K V]); dynamically typed payloads are values of type [pyval].
    - Time stamps ([datetime.now()]) and log output are left out of the
      result dictionaries.
    - The decorators and routes distinguish the [MLServiceError] classes
      from other exceptions ([raised]) and act on an explicit state
      ([callable S A]); the clock, [str] of arguments and tracebacks are
      taken from a [runtime] record.
    - SQL queries are represented by their result rows; the Python code
      that follows a query is embedded from that point on.  Whether the
      database driver raises on a statement is given by a [driver], and
      whether [jsonify] raises on a response by a [json_error]: numbers
      being rationals, a numpy scalar that neither accepts is not told
      from a Python float by its value. *)

From Stdlib Require Import QArith Qminmax Qround Qabs ZArith List String Ascii Bool Lia Lqa.
From Stdlib Require Import DecimalString Qpower.
Import ListNotations.
Set Warnings "-register-all".
Open Scope string_scope.
Open Scope Q_scope.

(** ** Python runtime: exceptions, values, dictionaries *)

Module Py.

Inductive exn : Type :=
| ValueError (msg : string)
| TypeError (msg : string)
| KeyError (msg : string)
| AttributeError (msg : string)
| ZeroDivisionError (msg : string).

(** [str(e)] *)
Definition str_exn (e : exn) : string :=
  match e with
  | ValueError m | TypeError m | KeyError m
  | AttributeError m | ZeroDivisionError m => m
  end.

Inductive res (A : Type) : Type :=
| Ok (a : A)
| Raise (e : exn).
Arguments Ok {A} a.
Arguments Raise {A} e.

Definition bind {A B} (c : res A) (k : A -> res B) : res B :=
  match c with
  | Ok a => k a
  | Raise e => Raise e
  end.

Notation "x <- c ;; k" := (bind c (fun x => k))
  (at level 61, c at next level, right associativity).

(** [try: c  except Exception as e: h e] *)
Definition try_except {A} (c : res A) (h : exn -> A) : A :=
  match c with
  | Ok a => a
  | Raise e => h e
  end.

(** Insertion-ordered dictionaries. *)
Section Dict.
Context {K V : Type} (eqb : K -> K -> bool).

Definition dict := list (K * V).

Fixpoint dict_get (k : K) (d : dict) : option V :=
  match d with
  | [] => None
  | (k', v) :: d' => if eqb k k' then Some v else dict_get k d'
  end.

Definition dict_in (k : K) (d : dict) : bool :=
  match dict_get k d with Some _ => true | None => false end.

(** [d[k] = v]: an existing key keeps its position, a new key goes last. *)
Fixpoint dict_set (k : K) (v : V) (d : dict) : dict :=
  match d with
  | [] => [(k, v)]
  | (k', v') :: d' =>
      if eqb k k' then (k, v) :: d' else (k', v') :: dict_set k v d'
  end.

Definition dict_keys (d : dict) : list K := map fst d.
Definition dict_values (d : dict) : list V := map snd d.
End Dict.

Inductive pyval : Type :=
| PNone
| PBool (b : bool)
| PNum (q : Q)
| PStr (s : string)
| PList (l : list pyval)
| PDict (d : list (string * pyval)).

Definition sdict (V : Type) := list (string * V).
Definition sget {V} := @dict_get string V String.eqb.
Definition sset {V} := @dict_set string V String.eqb.
Definition sin {V} := @dict_in string V String.eqb.

(** [d.get(k, default)] on a dictionary. *)
Definition get_or {V} (k : string) (d : sdict V) (default : V) : V :=
  match sget k d with Some v => v | None => default end.

(** [d.get(k, default)]; the receiver must be a dictionary. *)
Definition py_get (d : pyval) (k : string) (default : pyval) : res pyval :=
  match d with
  | PDict kv => Ok (match sget k kv with Some v => v | None => default end)
  | _ => Raise (AttributeError "object has no attribute 'get'")
  end.

(** Numbers as Python arithmetic sees them ([bool] is a subtype of [int]). *)
Definition num_of (v : pyval) : option Q :=
  match v with
  | PNum q => Some q
  | PBool true => Some 1
  | PBool false => Some 0
  | _ => None
  end.

Definition Qltb (x y : Q) : bool := negb (Qle_bool y x).

(** [v > 0] *)
Definition py_gt0 (v : pyval) : res bool :=
  match num_of v with
  | Some q => Ok (Qltb 0 q)
  | None => Raise (TypeError "'>' not supported between instances")
  end.

(** [v == 0] never raises. *)
Definition py_eq0 (v : pyval) : bool :=
  match num_of v with
  | Some q => Qeq_bool q 0
  | None => false
  end.

(** Truth value of an object. *)
Definition truthy (v : pyval) : bool :=
  match v with
  | PNone => false
  | PBool b => b
  | PNum q => negb (Qeq_bool q 0)
  | PStr s => negb (String.eqb s "")
  | PList l => match l with [] => false | _ => true end
  | PDict d => match d with [] => false | _ => true end
  end.

(** [max(a, b)] and [min(a, b)] on numbers: the first argument wins ties. *)
Definition py_max (a b : Q) : Q := if Qltb a b then b else a.
Definition py_min (a b : Q) : Q := if Qltb b a then b else a.

Definition Qsum (l : list Q) : Q := fold_right Qplus 0 l.
Definition Qlen {A} (l : list A) : Q := inject_Z (Z.of_nat (List.length l)).

(** [np.mean] and [np.var] (population variance) of a list of numbers. *)
Definition np_mean (l : list Q) : Q := Qsum l / Qlen l.
Definition np_var (l : list Q) : Q :=
  let mu := np_mean l in np_mean (map (fun x => (x - mu) * (x - mu)) l).

(** [round(x, ndigits)]: nearest multiple of [10^-ndigits], ties to even. *)
Definition round_half_even (x : Q) : Z :=
  let f := Qfloor x in
  let d := x - inject_Z f in
  if Qltb d (1 # 2) then f
  else if Qltb (1 # 2) d then (f + 1)%Z
  else if Z.even f then f else (f + 1)%Z.

Definition py_round (x : Q) (ndigits : nat) : Q :=
  let s := inject_Z (10 ^ Z.of_nat ndigits) in
  inject_Z (round_half_even (x * s)) / s.

(** [[m for m in l if m > 0]] *)
Fixpoint positive_marks (l : list pyval) : res (list Q) :=
  match l with
  | [] => Ok []
  | m :: l' =>
      b <- py_gt0 m ;;
      rest <- positive_marks l' ;;
      Ok (match num_of m with
          | Some q => if b then q :: rest else rest
          | None => rest
          end)
  end.

(** [str(n)] for an integer. *)
Definition str_int (n : Z) : string := NilZero.string_of_int (Z.to_int n).

End Py.
Import Py.

(** ** The prediction service ([services/prediction_service.py]) *)

Module PredictionService.

(** A trained regressor, seen through [model.predict([features])[0]]. *)
Record model : Type := {
  predict : list pyval -> res Q;
  feature_importances_ : option (list Q)
}.

(** The model directory: what [os.path.exists] / [joblib.load] give for a
    file path ([None]: no such file). *)
Definition filesystem := string -> option (res model).

Record t : Type := {
  model_path : string;
  models : sdict model;
  model_version : string;
  feature_columns : list string
}.

Definition default_feature_columns : list string :=
  [ "series_test_1_percentage";
    "series_test_2_percentage";
    "lab_internal_percentage";
    "average_internal_percentage";
    "subject_type_encoded";
    "semester";
    "attendance_percentage" ].

(** State set up by [__init__] before any model file is loaded. *)
Definition init (path : string) : t :=
  {| model_path := path;
     models := [];
     model_version := "2.0.0";
     feature_columns := default_feature_columns |}.

Definition set_models (self : t) (m : sdict model) : t :=
  {| model_path := model_path self;
     models := m;
     model_version := model_version self;
     feature_columns := feature_columns self |}.

Definition os_path_join (a b : string) : string :=
  if String.eqb a "" then b
  else if String.eqb (substring (String.length a - 1) 1 a) "/" then a ++ b
  else a ++ "/" ++ b.

Definition startswith (p s : string) : bool := String.prefix p s.

(** [f"subject_{subject_id}" if subject_id else "general"] *)
Definition subject_key_of (subject_id : option Z) : string :=
  match subject_id with
  | Some n => if Z.eqb n 0 then "general" else "subject_" ++ str_int n
  | None => "general"
  end.

Definition internal_exams : list string :=
  ["series_test_1"; "series_test_2"; "lab_internal"].

(** [np.mean] of a list of Python values. *)
Fixpoint nums_of (l : list pyval) : res (list Q) :=
  match l with
  | [] => Ok []
  | v :: l' =>
      match num_of v with
      | Some q => rest <- nums_of l' ;; Ok (q :: rest)
      | None => Raise (TypeError "unsupported operand type(s) for +")
      end
  end.

(** [if x == 0 and avg_internal > 0: x = avg_internal] *)
Definition fill_missing (x : pyval) (avg_internal : Q) : pyval :=
  if py_eq0 x && Qltb 0 avg_internal then PNum avg_internal else x.

Definition _prepare_prediction_features (self : t) (student_data : pyval)
  : res (list pyval) :=
  marks <- py_get student_data "marks" (PDict []) ;;
  series_1 <- py_get marks "series_test_1" (PNum 0) ;;
  series_2 <- py_get marks "series_test_2" (PNum 0) ;;
  lab_internal <- py_get marks "lab_internal" (PNum 0) ;;
  available_marks <- positive_marks [series_1; series_2; lab_internal] ;;
  let avg_internal :=
    match available_marks with [] => 0 | _ => np_mean available_marks end in
  let series_1 := fill_missing series_1 avg_internal in
  let series_2 := fill_missing series_2 avg_internal in
  let lab_internal := fill_missing lab_internal avg_internal in
  filled <- nums_of [series_1; series_2; lab_internal] ;;
  let avg_internal := np_mean filled in
  subject_type <- py_get student_data "subject_type" PNone ;;
  semester <- py_get student_data "semester" (PNum 1) ;;
  let features :=
    [ series_1; series_2; lab_internal; PNum avg_internal;
      PNum (match subject_type with
            | PStr s => if String.eqb s "lab" then 1 else 0
            | _ => 0
            end);
      semester ] in
  if existsb (String.eqb "attendance_percentage") (feature_columns self)
  then
    attendance <- py_get student_data "attendance_percentage" (PNum 80) ;;
    Ok (features ++ [attendance])%list
  else Ok features.

(** [sum(1 for exam in exams if marks.get(exam, 0) > 0)] *)
Fixpoint count_present (marks : pyval) (exams : list string) : res nat :=
  match exams with
  | [] => Ok O
  | exam :: exams' =>
      v <- py_get marks exam (PNum 0) ;;
      b <- py_gt0 v ;;
      rest <- count_present marks exams' ;;
      Ok (if b then S rest else rest)
  end.

(** [[marks.get(exam, 0) for exam in exams if marks.get(exam, 0) > 0]] *)
Fixpoint present_internals (marks : pyval) (exams : list string)
  : res (list Q) :=
  match exams with
  | [] => Ok []
  | exam :: exams' =>
      v <- py_get marks exam (PNum 0) ;;
      b <- py_gt0 v ;;
      rest <- present_internals marks exams' ;;
      Ok (match num_of v with
          | Some q => if b then q :: rest else rest
          | None => rest
          end)
  end.

Definition _calculate_confidence (self : t) (student_data : pyval)
  (features : list pyval) : res Q :=
  marks <- py_get student_data "marks" (PDict []) ;;
  let confidence := 5 # 10 in
  available_internals <- count_present marks internal_exams ;;
  let confidence :=
    confidence + (inject_Z (Z.of_nat available_internals) / 3) * (3 # 10) in
  internal_marks <- present_internals marks internal_exams ;;
  let confidence :=
    if (2 <=? List.length internal_marks)%nat then
      let variance := np_var internal_marks in
      let consistency_bonus := py_max 0 ((100 - variance) / 100) * (2 # 10) in
      confidence + consistency_bonus
    else confidence in
  Ok (py_max 0 (py_min 1 confidence)).

Definition no_model_found : string :=
  "No trained model found. Please train a model first.".

(** Lines 243-271 of [predict_university_marks]: which model serves the
    request.  Returns the (possibly extended) registry, the key and the
    model. *)
Definition resolve_model (self : t) (fs : filesystem) (subject_id : option Z)
  : res (t * string * model) :=
  match sget "production_best" (models self) with
  | Some m => Ok (self, "production_best", m)
  | None =>
      match filter (startswith "production_") (dict_keys (models self)) with
      | model_key :: _ =>
          match sget model_key (models self) with
          | Some m => Ok (self, model_key, m)
          | None => Raise (KeyError model_key)
          end
      | [] =>
          let subject_key := subject_key_of subject_id in
          match sget subject_key (models self) with
          | Some m => Ok (self, subject_key, m)
          | None =>
              let model_filename :=
                subject_key ++ "_model_" ++ model_version self ++ ".joblib" in
              let model_filepath :=
                os_path_join (model_path self) model_filename in
              match fs model_filepath with
              | Some loaded =>
                  m <- loaded ;;
                  Ok (set_models self (sset subject_key m (models self)),
                      subject_key, m)
              | None =>
                  Raise (ValueError no_model_found)
              end
          end
      end
  end.

(** [dict(zip(keys, values))] *)
Definition dict_zip (keys : list string) (values : list pyval) : sdict pyval :=
  fold_left (fun d kv => sset (fst kv) (snd kv) d) (combine keys values) [].

Definition failure (e : exn) : sdict pyval :=
  [ ("success", PBool false); ("error", PStr (str_exn e)) ].

Definition predict_university_marks (self : t) (fs : filesystem)
  (student_data : pyval) (subject_id : option Z) : t * sdict pyval :=
  match resolve_model self fs subject_id with
  | Raise e => (self, failure e)
  | Ok (self', model_key, m) =>
      (self',
       try_except
         (features <- _prepare_prediction_features self' student_data ;;
          prediction <- predict m features ;;
          confidence <- _calculate_confidence self' student_data features ;;
          let prediction := py_max 0 (py_min 100 prediction) in
          _ <- py_get student_data "student_id" PNone ;;
          Ok [ ("success", PBool true);
               ("predicted_marks", PNum (py_round prediction 2));
               ("confidence_score", PNum (py_round confidence 2));
               ("input_features",
                 PDict (dict_zip (feature_columns self') features));
               ("model_version", PStr (model_version self'));
               ("model_used", PStr model_key) ])
         failure)
  end.

(** One iteration of the loop of [batch_predict]. *)
Definition batch_predict_item (self : t) (fs : filesystem)
  (student_data : pyval) (subject_id : option Z)
  : t * res (sdict pyval) :=
  let (self', prediction) :=
    predict_university_marks self fs student_data subject_id in
  (self',
   match (sid <- py_get student_data "student_id" PNone ;;
          sub <- py_get student_data "subject_id" PNone ;;
          Ok (sset "subject_id" sub (sset "student_id" sid prediction))) with
   | Ok r => Ok r
   | Raise e =>
       sid <- py_get student_data "student_id" PNone ;;
       sub <- py_get student_data "subject_id" PNone ;;
       Ok [ ("success", PBool false); ("error", PStr (str_exn e));
            ("student_id", sid); ("subject_id", sub) ]
   end).

Fixpoint batch_predict (self : t) (fs : filesystem)
  (students_data : list pyval) (subject_id : option Z)
  : t * res (list (sdict pyval)) :=
  match students_data with
  | [] => (self, Ok [])
  | student_data :: rest =>
      match batch_predict_item self fs student_data subject_id with
      | (self', Raise e) => (self', Raise e)
      | (self', Ok r) =>
          match batch_predict self' fs rest subject_id with
          | (self'', Ok results) => (self'', Ok (r :: results))
          | (self'', Raise e) => (self'', Raise e)
          end
      end
  end.

(** *** Training *)

(** One row of [marks_data], as [DatabaseService.get_training_data]
    returns it. *)
Record mark : Type := {
  m_student_id : Z;
  m_subject_id : Z;
  m_exam_type : string;
  m_marks_obtained : Q;
  m_max_marks : Q;
  m_subject_type : option string;
  m_semester : option Z
}.

(** An entry of [student_subject_marks]. *)
Record group : Type := {
  g_student_id : Z;
  g_subject_id : Z;
  g_subject_type : string;
  g_semester : Z;
  g_marks : sdict Q
}.

Definition key_eqb (a b : Z * Z) : bool :=
  Z.eqb (fst a) (fst b) && Z.eqb (snd a) (snd b).

Definition with_marks (g : group) (marks : sdict Q) : group :=
  {| g_student_id := g_student_id g;
     g_subject_id := g_subject_id g;
     g_subject_type := g_subject_type g;
     g_semester := g_semester g;
     g_marks := marks |}.

(** [(mark['marks_obtained'] / mark['max_marks']) * 100] *)
Definition percentage_of (mk : mark) : res Q :=
  if Qeq_bool (m_max_marks mk) 0
  then Raise (ZeroDivisionError "division by zero")
  else Ok ((m_marks_obtained mk / m_max_marks mk) * 100).

(** The grouping loop, lines 60-74. *)
Fixpoint group_marks (marks_data : list mark)
  (student_subject_marks : dict (K:=Z * Z) (V:=group))
  : res (dict (K:=Z * Z) (V:=group)) :=
  match marks_data with
  | [] => Ok student_subject_marks
  | mk :: rest =>
      let key := (m_student_id mk, m_subject_id mk) in
      let data :=
        match dict_get key_eqb key student_subject_marks with
        | Some g => g
        | None =>
            {| g_student_id := m_student_id mk;
               g_subject_id := m_subject_id mk;
               g_subject_type :=
                 match m_subject_type mk with Some s => s | None => "theory" end;
               g_semester :=
                 match m_semester mk with Some n => n | None => 1%Z end;
               g_marks := [] |}
        end in
      percentage <- percentage_of mk ;;
      group_marks rest
        (dict_set key_eqb key
           (with_marks data (sset (m_exam_type mk) percentage (g_marks data)))
           student_subject_marks)
  end.

(** The body of the loop of lines 77-107: the training record of one
    (student, subject) group, if the group qualifies. *)
Definition training_record (data : group) : option (sdict Q) :=
  let marks := g_marks data in
  if sin "university" marks then
    let internal_count :=
      List.length (filter (fun exam => sin exam marks) internal_exams) in
    if (2 <=? internal_count)%nat then
      let internal_marks := map (fun exam => get_or exam marks 0) internal_exams in
      let available_internals := filter (Qltb 0) internal_marks in
      let avg_internal :=
        match available_internals with
        | [] => 0
        | _ => np_mean available_internals
        end in
      let series_1 := get_or "series_test_1" marks avg_internal in
      let series_2 := get_or "series_test_2" marks avg_internal in
      let lab_internal := get_or "lab_internal" marks avg_internal in
      Some [ ("student_id", inject_Z (g_student_id data));
             ("subject_id", inject_Z (g_subject_id data));
             ("series_test_1_percentage", series_1);
             ("series_test_2_percentage", series_2);
             ("lab_internal_percentage", lab_internal);
             ("average_internal_percentage",
               np_mean [series_1; series_2; lab_internal]);
             ("subject_type_encoded",
               if String.eqb (g_subject_type data) "lab" then 1 else 0);
             ("semester", inject_Z (g_semester data));
             ("university_percentage", get_or "university" marks 0) ]
    else None
  else None.

Fixpoint training_records (groups : list group) : list (sdict Q) :=
  match groups with
  | [] => []
  | data :: rest =>
      match training_record data with
      | Some record => record :: training_records rest
      | None => training_records rest
      end
  end.

(** Column names of the data frame built from a list of records. *)
Definition frame_columns (records : list (sdict Q)) : list string :=
  match records with
  | [] => []
  | r :: _ => dict_keys r
  end.

Definition join_quoted (l : list string) : string :=
  String.concat ", " (map (fun c => "'" ++ c ++ "'") l).

(** [df[columns]]: a [KeyError] names the labels that are not columns of
    the frame (the outer quotes of [str(KeyError(..))] are dropped). *)
Definition select_columns (columns : list string) (records : list (sdict Q))
  : res (list (list Q)) :=
  match filter (fun c => negb (existsb (String.eqb c) (frame_columns records)))
               columns with
  | [] => Ok (map (fun r => map (fun c => get_or c r 0) columns) records)
  | missing => Raise (KeyError ("[" ++ join_quoted missing ++ "] not in index"))
  end.

Definition prepare_training_data (self : t) (marks_data : list mark)
  : res (list (list Q) * list Q) :=
  student_subject_marks <- group_marks marks_data [] ;;
  let records := training_records (dict_values student_subject_marks) in
  match records with
  | [] =>
      Raise (ValueError
        "No valid training data found. Need students with university marks and internal assessments.")
  | _ =>
      X <- select_columns (feature_columns self) records ;;
      y <- select_columns ["university_percentage"] records ;;
      Ok (X, map (fun row => hd 0 row) y)
  end.

(** Values that reach the training entry points. *)
Inductive tval : Type :=
| TMarks (marks_data : list mark)
| TFrame (rows : list (list Q))
| TSeries (values : list Q)
| TInt (n : Z)
| TNone.

(** The estimators the source instantiates, with their hyper-parameters. *)
Inductive estimator : Type :=
| RandomForest_100_depth10   (* line 146 *)
| XGB_100_depth6             (* line 153 *)
| RandomForest_100.          (* line 578 *)

(** scikit-learn / xgboost / numpy, as a supplied capability. *)
Record sklearn : Type := {
  train_test_split : tval -> tval -> res (tval * tval * tval * tval);
  fit : estimator -> tval -> tval -> res model;
  np_sqrt : Q -> Q;
  r2_score : list Q -> list Q -> res Q
}.

Definition tval_len (v : tval) : res nat :=
  match v with
  | TMarks l => Ok (List.length l)
  | TFrame rows => Ok (List.length rows)
  | TSeries l => Ok (List.length l)
  | _ => Raise (TypeError "object has no len()")
  end.

Definition series_of (v : tval) : res (list Q) :=
  match v with
  | TSeries l => Ok l
  | _ => Raise (ValueError "could not convert target to a float array")
  end.

Fixpoint predict_rows (m : model) (rows : list (list Q)) : res (list Q) :=
  match rows with
  | [] => Ok []
  | row :: rows' =>
      p <- predict m (map PNum row) ;;
      ps <- predict_rows m rows' ;;
      Ok (p :: ps)
  end.

(** [model.predict(X_test)] *)
Definition model_predict (m : model) (X : tval) : res (list Q) :=
  match X with
  | TFrame rows => predict_rows m rows
  | _ => Raise (ValueError "could not convert input to a float array")
  end.

Definition checked_metric (f : Q * Q -> Q) (y_true y_pred : list Q) : res Q :=
  if negb (List.length y_true =? List.length y_pred)%nat
  then Raise (ValueError "Found input variables with inconsistent numbers of samples")
  else match y_true with
       | [] => Raise (ValueError "Found array with 0 sample(s)")
       | _ => Ok (np_mean (map f (combine y_true y_pred)))
       end.

Definition mean_absolute_error : list Q -> list Q -> res Q :=
  checked_metric (fun p => Qabs (fst p - snd p)).
Definition mean_squared_error : list Q -> list Q -> res Q :=
  checked_metric (fun p => (fst p - snd p) * (fst p - snd p)).

Definition metrics_entry (mae mse rmse r2 : Q) : pyval :=
  PDict [ ("mae", PNum mae); ("mse", PNum mse);
          ("rmse", PNum rmse); ("r2", PNum r2) ].

(** Loop state of lines 163-166; [best_score = None] stands for
    [float('inf')]. *)
Record selection : Type := {
  best_model : option model;
  best_score : option Q;
  best_model_name : option string;
  model_results : sdict pyval
}.

Definition selection0 : selection :=
  {| best_model := None; best_score := None;
     best_model_name := None; model_results := [] |}.

(** [mae < best_score] *)
Definition improves (mae : Q) (best_score : option Q) : bool :=
  match best_score with
  | None => true
  | Some b => Qltb mae b
  end.

(** The body of the loop, lines 169-183: fit, predict on the held-out
    split, compute the metrics. *)
Definition evaluate (sk : sklearn) (unfitted : estimator)
  (X_train y_train X_test y_test : tval) : res (model * Q * pyval) :=
  m <- fit sk unfitted X_train y_train ;;
  y_pred <- model_predict m X_test ;;
  y_true <- series_of y_test ;;
  mae <- mean_absolute_error y_true y_pred ;;
  mse <- mean_squared_error y_true y_pred ;;
  r2 <- r2_score sk y_true y_pred ;;
  Ok (m, mae, metrics_entry mae mse (np_sqrt sk mse) r2).

(** Lines 178-189: record the metrics, keep the model if it improves. *)
Definition update_selection (st : selection) (model_name : string)
  (ev : model * Q * pyval) : selection :=
  let '(m, mae, entry) := ev in
  let results := sset model_name entry (model_results st) in
  if improves mae (best_score st)
  then {| best_model := Some m; best_score := Some mae;
          best_model_name := Some model_name;
          model_results := results |}
  else {| best_model := best_model st; best_score := best_score st;
          best_model_name := best_model_name st;
          model_results := results |}.

(** The loop of lines 168-189 over [models_to_try]. *)
Fixpoint try_models (sk : sklearn) (models_to_try : sdict estimator)
  (X_train y_train X_test y_test : tval) (st : selection) : res selection :=
  match models_to_try with
  | [] => Ok st
  | (model_name, unfitted) :: rest =>
      ev <- evaluate sk unfitted X_train y_train X_test y_test ;;
      try_models sk rest X_train y_train X_test y_test
        (update_selection st model_name ev)
  end.

Definition models_to_try : sdict estimator :=
  [ ("random_forest", RandomForest_100_depth10);
    ("xgboost", XGB_100_depth6) ].

Definition fs_write (path : string) (m : model) (fs : filesystem) : filesystem :=
  fun p => if String.eqb p path then Some (Ok m) else fs p.

Definition pynat (n : nat) : pyval := PNum (inject_Z (Z.of_nat n)).

(** What a call of a training method gives back: the result dictionary of
    the definition at line 121, or the [(model, metrics)] tuple of the
    definition at line 560. *)
Inductive train_return : Type :=
| RetDict (d : sdict pyval)
| RetTuple (m : model) (metrics : sdict pyval).

Definition method : Type :=
  sklearn -> t -> filesystem -> tval -> tval ->
  t * filesystem * res train_return.

(** [def train_model(self, marks_data, subject_id=None)], line 121. *)
Definition train_model_L121 : method :=
  fun sk self fs marks_data subject_id =>
  let selected : res (tval * tval * selection) :=
    marks <- match marks_data with
             | TMarks l => Ok l
             | _ => Raise (TypeError "object is not iterable")
             end ;;
    Xy <- prepare_training_data self marks ;;
    let (X, y) := Xy in
    if (List.length X <? 10)%nat
    then Raise (ValueError
           ("Insufficient training data: " ++ str_int (Z.of_nat (List.length X))
            ++ " records. Need at least 10 records."))
    else
      split <- train_test_split sk (TFrame X) (TSeries y) ;;
      let '(X_train, X_test, y_train, y_test) := split in
      st <- try_models sk models_to_try X_train y_train X_test y_test
              selection0 ;;
      Ok (X_train, X_test, st) in
  match selected with
  | Raise e => (self, fs, Ok (RetDict (failure e)))
  | Ok (X_train, X_test, st) =>
      match best_model st, best_model_name st with
      | Some best, Some best_name =>
          let model_key :=
            subject_key_of
              (match subject_id with TInt n => Some n | _ => None end) in
          let model_filename :=
            model_key ++ "_model_" ++ model_version self ++ ".joblib" in
          let model_filepath := os_path_join (model_path self) model_filename in
          let feature_importance :=
            match feature_importances_ best with
            | Some imp => dict_zip (feature_columns self) (map PNum imp)
            | None => []
            end in
          (set_models self (sset model_key best (models self)),
           fs_write model_filepath best fs,
           Ok (RetDict
                 (try_except
                    (n_train <- tval_len X_train ;;
                     n_test <- tval_len X_test ;;
                     performance <-
                       match sget best_name (model_results st) with
                       | Some p => Ok p
                       | None => Raise (KeyError best_name)
                       end ;;
                     Ok [ ("success", PBool true);
                          ("model_version", PStr (model_version self));
                          ("best_model", PStr best_name);
                          ("training_samples", pynat n_train);
                          ("test_samples", pynat n_test);
                          ("model_performance", performance);
                          ("all_models_performance",
                            PDict (model_results st));
                          ("feature_importance", PDict feature_importance);
                          ("model_path", PStr model_filepath) ])
                    failure)))
      | _, _ =>
          (* no candidate was kept: [model_results[None]] *)
          (self, fs, Ok (RetDict (failure (KeyError "None"))))
      end
  end.

(** [abs((y_pred - y_true) / y_true) * 100 <= threshold], averaged; a zero
    [y_true] gives an infinite or undefined error, which is not within
    the threshold. *)
Definition _calculate_accuracy_within_threshold (y_true y_pred : list Q)
  (threshold_percent : Q) : Q :=
  np_mean (map (fun p =>
                  if Qeq_bool (fst p) 0 then 0
                  else if Qle_bool (Qabs ((snd p - fst p) / fst p) * 100)
                                   threshold_percent
                       then 1 else 0)
               (combine y_true y_pred)).

(** [def train_model(self, X, y)], line 560. *)
Definition train_model_L560 : method :=
  fun sk self fs X y =>
  (self, fs,
   split <- train_test_split sk X y ;;
   let '(X_train, X_test, y_train, y_test) := split in
   m <- fit sk RandomForest_100 X_train y_train ;;
   y_pred <- model_predict m X_test ;;
   y_true <- series_of y_test ;;
   mse <- mean_squared_error y_true y_pred ;;
   mae <- mean_absolute_error y_true y_pred ;;
   r2 <- r2_score sk y_true y_pred ;;
   Ok (RetTuple m
         [ ("mse", PNum mse); ("mae", PNum mae); ("r2_score", PNum r2);
           ("accuracy_within_10_percent",
             PNum (_calculate_accuracy_within_threshold y_true y_pred 10)) ])).

(** The [def] statements that bind [train_model], in the order in which the
    class body executes them; each binding is an assignment in the class
    namespace. *)
Definition class_body : list (string * method) :=
  [ ("train_model", train_model_L121);
    ("train_model", train_model_L560) ].

Definition class_namespace : sdict method :=
  fold_left (fun ns d => sset (fst d) (snd d) ns) class_body [].

(** [prediction_service.train_model(a, b)]: attribute lookup on the class,
    then the call with two positional arguments. *)
Definition train_model : method :=
  fun sk self fs a b =>
  match sget "train_model" class_namespace with
  | Some f => f sk self fs a b
  | None =>
      (self, fs, Raise (AttributeError "object has no attribute 'train_model'"))
  end.

End PredictionService.

(** ** Fallback predictions ([utils/error_handler.py]) *)

Module ErrorHandler.

Definition emergency_fallback : sdict pyval :=
  [ ("predicted_marks", PNum 60);
    ("confidence_score", PNum (2 # 10));
    ("prediction_method", PStr "emergency_fallback");
    ("warning",
      PStr "Emergency fallback prediction - please try again later");
    ("error", PStr "Both primary and fallback predictions failed") ].

(** [get_fallback_prediction] with its positional and keyword arguments;
    the positional ones are not looked at. *)
Definition get_fallback_prediction (args : list pyval) (kwargs : sdict pyval)
  : sdict pyval :=
  try_except
    (let student_data := get_or "student_data" kwargs (PDict []) in
     let fallback_marks := 65 in
     let confidence := 3 # 10 in
     estimate <-
       (if truthy student_data then
          series_test_1 <- py_get student_data "series_test_1_marks" (PNum 0) ;;
          series_test_2 <- py_get student_data "series_test_2_marks" (PNum 0) ;;
          lab_internal <- py_get student_data "lab_internal_marks" (PNum 0) ;;
          available_marks <-
            positive_marks [series_test_1; series_test_2; lab_internal] ;;
          match available_marks with
          | [] => Ok (fallback_marks, confidence)
          | _ =>
              let avg_percentage :=
                Qsum available_marks / Qlen available_marks / 50 * 100 in
              Ok (py_min (py_max avg_percentage 35) 85, 5 # 10)
          end
        else Ok (fallback_marks, confidence)) ;;
     Ok [ ("predicted_marks", PNum (py_round (fst estimate) 1));
          ("confidence_score", PNum (snd estimate));
          ("prediction_method", PStr "fallback");
          ("warning",
            PStr "This is a fallback prediction due to model unavailability");
          ("fallback_reason", PStr "Primary prediction model failed");
          ("data_quality",
            PStr (if truthy student_data then "partial" else "limited")) ])
    (fun _ => emergency_fallback).

End ErrorHandler.

(** ** Persistence of predictions ([services/database_service.py]) *)

Module DatabaseService.

(** A row of [ml_predictions]. *)
Record prediction_row : Type := {
  id : Z;
  student_id : Z;
  subject_id : Z;
  predicted_marks : Q;
  confidence_score : Q;
  input_features : pyval;
  model_version : string;
  is_visible_to_student : bool;
  created_at : Z
}.

(** The connection: the committed table, the table as the open transaction
    sees it, the id sequence, the clock and the [faculty_subjects] rows
    [(faculty_id, subject_id, academic_year)]. *)
Record t : Type := {
  committed : list prediction_row;
  ml_predictions : list prediction_row;
  next_id : Z;
  current_timestamp : Z;
  current_year : Z;
  faculty_subjects : list (Z * Z * Z)
}.

Definition with_rows (db : t) (rows : list prediction_row) (next : Z) : t :=
  {| committed := committed db;
     ml_predictions := rows;
     next_id := next;
     current_timestamp := current_timestamp db;
     current_year := current_year db;
     faculty_subjects := faculty_subjects db |}.

(** [self.connection.commit()] *)
Definition commit (db : t) : t :=
  {| committed := ml_predictions db;
     ml_predictions := ml_predictions db;
     next_id := next_id db;
     current_timestamp := current_timestamp db;
     current_year := current_year db;
     faculty_subjects := faculty_subjects db |}.

(** [WHERE student_id = %s AND subject_id = %s] *)
Definition same_pair (s j : Z) (r : prediction_row) : bool :=
  Z.eqb (student_id r) s && Z.eqb (subject_id r) j.

(** The [SET] clause of [update_query]. *)
Definition updated (db : t) (pm cs : Q) (feats : pyval) (ver : string)
  (r : prediction_row) : prediction_row :=
  {| id := id r;
     student_id := student_id r;
     subject_id := subject_id r;
     predicted_marks := pm;
     confidence_score := cs;
     input_features := feats;
     model_version := ver;
     is_visible_to_student := is_visible_to_student r;
     created_at := current_timestamp db |}.

Definition save_prediction (db : t) (s j : Z) (pm cs : Q) (feats : pyval)
  (ver : string) : t * res Z :=
  let existing := map id (filter (same_pair s j) (ml_predictions db)) in
  match existing with
  | _ :: _ =>
      let rows :=
        map (fun r => if same_pair s j r then updated db pm cs feats ver r else r)
            (ml_predictions db) in
      let result := map id (filter (same_pair s j) rows) in
      (with_rows db rows (next_id db),
       match result with
       | i :: _ => Ok i
       | [] => Raise (KeyError "list index out of range")
       end)
  | [] =>
      let row :=
        {| id := next_id db;
           student_id := s;
           subject_id := j;
           predicted_marks := pm;
           confidence_score := cs;
           input_features := feats;
           model_version := ver;
           is_visible_to_student := false;
           created_at := current_timestamp db |} in
      (with_rows db (ml_predictions db ++ [row])%list (next_id db + 1)%Z,
       Ok (next_id db))
  end.

Definition set_visible (v : bool) (r : prediction_row) : prediction_row :=
  {| id := id r;
     student_id := student_id r;
     subject_id := subject_id r;
     predicted_marks := predicted_marks r;
     confidence_score := confidence_score r;
     input_features := input_features r;
     model_version := model_version r;
     is_visible_to_student := v;
     created_at := created_at r |}.

Definition toggle_prediction_visibility (db : t) (subject : Z)
  (is_visible : bool) (faculty_id : option Z) : t * res Z :=
  let authorised :=
    match faculty_id with
    | Some f =>
        if Z.eqb f 0 then true
        else
          let count :=
            List.length
              (filter (fun a =>
                         match a with
                         | (fac, sub, year) =>
                             Z.eqb fac f && Z.eqb sub subject
                             && Z.eqb year (current_year db)
                         end)
                      (faculty_subjects db)) in
          negb (count =? 0)%nat
    | None => true
    end in
  if authorised then
    let rows :=
      map (fun r => if Z.eqb (subject_id r) subject
                    then set_visible is_visible r else r)
          (ml_predictions db) in
    let rowcount :=
      List.length (filter (fun r => Z.eqb (subject_id r) subject)
                          (ml_predictions db)) in
    (commit (with_rows db rows (next_id db)), Ok (Z.of_nat rowcount))
  else (db, Raise (ValueError "Faculty does not have access to this subject")).

End DatabaseService.

(** ** Statements that fail ([execute_query] and [execute_update]) *)

Module Connection.
Import DatabaseService.

(** The statements that the methods execute, with their parameters. *)
Inductive statement : Type :=
| CheckStatement (student_id subject_id : Z)
| UpdateStatement (predicted_marks confidence_score : Q)
    (input_features : pyval) (model_version : string)
    (student_id subject_id : Z)
| InsertStatement (student_id subject_id : Z)
    (predicted_marks confidence_score : Q) (input_features : pyval)
    (model_version : string)
| AuthorizationStatement (faculty_id subject_id current_year : Z)
| VisibilityStatement (is_visible : bool) (subject_id : Z)
| MarksStatement (student_id subject_id : Z) (academic_year : pyval).

(** The driver: the message of the error that it raises for a statement
    in a state of the database (a lost connection, a parameter it cannot
    adapt, as a numpy scalar), if it raises.  Such an error is an
    [Exception] and no [ValueError]. *)
Definition driver : Type := statement -> t -> option string.

(** The first error that the driver raises on the statements of a call.
    Every statement but the last of a call is a [SELECT], so all of them
    see the database as the call found it. *)
Fixpoint first_error (drv : driver) (statements : list statement) (db : t)
  : option string :=
  match statements with
  | [] => None
  | stmt :: rest =>
      match drv stmt db with
      | Some message => Some message
      | None => first_error drv rest db
      end
  end.

(** The statements of [save_prediction], lines 262-301: the check, then
    the update or the insert. *)
Definition save_statements (db : t) (s j : Z) (pm cs : Q) (feats : pyval)
  (ver : string) : list statement :=
  [ CheckStatement s j;
    match filter (same_pair s j) (ml_predictions db) with
    | _ :: _ => UpdateStatement pm cs feats ver s j
    | [] => InsertStatement s j pm cs feats ver
    end ].

(** The statements of [toggle_prediction_visibility], lines 316-336: the
    check for a truthy [faculty_id], and the update unless the method
    raised after the check. *)
Definition toggle_statements (db : t) (subject : Z) (is_visible : bool)
  (faculty_id : option Z) : list statement :=
  let check :=
    match faculty_id with
    | Some f =>
        if Z.eqb f 0 then []
        else [AuthorizationStatement f subject (current_year db)]
    | None => []
    end in
  let update :=
    match snd (DatabaseService.toggle_prediction_visibility db subject
                 is_visible faculty_id) with
    | Ok _ => [VisibilityStatement is_visible subject]
    | Raise _ => []
    end in
  (check ++ update)%list.

(** [self.connection.rollback()], lines 66 and 91: the changes of the
    open transaction are discarded; the id sequence is not set back. *)
Definition rollback (db : t) : t :=
  {| committed := committed db;
     ml_predictions := committed db;
     next_id := next_id db;
     current_timestamp := current_timestamp db;
     current_year := current_year db;
     faculty_subjects := faculty_subjects db |}.

(** What a call of a database method gives: its result, the exception
    that the method raises itself, or the error of the driver. *)
Inductive outcome (A : Type) : Type :=
| Result (a : A)
| Raised (e : exn)
| DriverError (message : string).
Arguments Result {A} a.
Arguments Raised {A} e.
Arguments DriverError {A} message.

(** [str(e)] of what a call raised. *)
Definition error_text {A} (o : outcome A) : string :=
  match o with
  | Result _ => ""
  | Raised e => str_exn e
  | DriverError message => message
  end.

(** A method whose statements go through [execute_query] or
    [execute_update]: on an error of the driver the transaction is rolled
    back and the error raised again. *)
Definition guarded {A} (drv : driver) (statements : list statement) (db : t)
  (run : t * res A) : t * outcome A :=
  match first_error drv statements db with
  | Some message => (rollback db, DriverError message)
  | None =>
      (fst run,
       match snd run with
       | Ok a => Result a
       | Raise e => Raised e
       end)
  end.

Definition save_prediction (drv : driver) (db : t) (s j : Z) (pm cs : Q)
  (feats : pyval) (ver : string) : t * outcome Z :=
  guarded drv (save_statements db s j pm cs feats ver) db
    (DatabaseService.save_prediction db s j pm cs feats ver).

Definition toggle_prediction_visibility (drv : driver) (db : t)
  (subject : Z) (is_visible : bool) (faculty_id : option Z)
  : t * outcome Z :=
  guarded drv (toggle_statements db subject is_visible faculty_id) db
    (DatabaseService.toggle_prediction_visibility db subject is_visible
       faculty_id).

End Connection.

(** ** The routes ([app.py], [/predict/batch] and [/train]) *)

Module App.

(** [d[k]] *)
Definition item (k : string) (d : sdict pyval) : res pyval :=
  match sget k d with
  | Some v => Ok v
  | None => Raise (KeyError k)
  end.

(** An integer parameter of a query (the id columns are integers). *)
Definition int_of (v : pyval) : res Z :=
  match num_of v with
  | Some q =>
      if Qeq_bool q (inject_Z (Qfloor q)) then Ok (Qfloor q)
      else Raise (TypeError "integer expected")
  | None => Raise (TypeError "integer expected")
  end.

Definition number_of (v : pyval) : res Q :=
  match num_of v with
  | Some q => Ok q
  | None => Raise (TypeError "number expected")
  end.

Definition string_of (v : pyval) : res string :=
  match v with
  | PStr s => Ok s
  | _ => Raise (TypeError "string expected")
  end.

(** The call of [database_service.save_prediction] of lines 271-278. *)
Definition save_one (drv : Connection.driver) (db : DatabaseService.t)
  (prediction : sdict pyval) : DatabaseService.t * Connection.outcome Z :=
  let args :=
    s <- item "student_id" prediction ;;
    j <- item "subject_id" prediction ;;
    pm <- item "predicted_marks" prediction ;;
    cs <- item "confidence_score" prediction ;;
    feats <- item "input_features" prediction ;;
    ver <- item "model_version" prediction ;;
    s <- int_of s ;;
    j <- int_of j ;;
    pm <- number_of pm ;;
    cs <- number_of cs ;;
    ver <- string_of ver ;;
    Ok (s, j, pm, cs, feats, ver) in
  match args with
  | Ok (s, j, pm, cs, feats, ver) =>
      Connection.save_prediction drv db s j pm cs feats ver
  | Raise e => (db, Connection.Raised e)
  end.

(** The loop of lines 267-283: the predictions as the loop leaves them and
    the list [saved_predictions]. *)
Fixpoint save_predictions (drv : Connection.driver) (db : DatabaseService.t)
  (predictions : list (sdict pyval))
  : DatabaseService.t * list (sdict pyval) * list (sdict pyval) :=
  match predictions with
  | [] => (db, [], [])
  | prediction :: rest =>
      if truthy (get_or "success" prediction PNone) then
        match save_one drv db prediction with
        | (db', Connection.Result prediction_id) =>
            let prediction :=
              sset "prediction_id" (PNum (inject_Z prediction_id)) prediction in
            let '(db'', predictions', saved) :=
              save_predictions drv db' rest in
            (db'', prediction :: predictions', prediction :: saved)
        | (db', failed) =>
            let prediction :=
              sset "save_error" (PStr (Connection.error_text failed))
                prediction in
            let '(db'', predictions', saved) :=
              save_predictions drv db' rest in
            (db'', prediction :: predictions', saved)
        end
      else
        let '(db', predictions', saved) := save_predictions drv db rest in
        (db', prediction :: predictions', saved)
  end.

(** [len([p for p in predictions if p.get('success')])] *)
Definition count_successes (predictions : list (sdict pyval)) : nat :=
  List.length
    (filter (fun p => truthy (get_or "success" p PNone)) predictions).

(** [batch_predict()] from the point where [subject_id] and
    [students_data] are known: the response body and the HTTP status.
    [json_error] is what [jsonify] raises for the summary, if it raises
    (a [TypeError] for a value that is no JSON value, as a
    [numpy.float32]). *)
Definition batch_predict (ps : PredictionService.t)
  (fs : PredictionService.filesystem) (drv : Connection.driver)
  (json_error : sdict pyval -> option exn) (db : DatabaseService.t)
  (subject_id : Z) (students_data : list pyval)
  : PredictionService.t * DatabaseService.t * (sdict pyval * Z) :=
  if Z.eqb subject_id 0 then
    (ps, db,
     ([ ("success", PBool false); ("error", PStr "subject_id is required") ],
      400%Z))
  else
    match students_data with
    | [] =>
        (ps, db,
         ([ ("success", PBool false);
            ("error", PStr "No students found for the subject") ], 404%Z))
    | _ =>
        match PredictionService.batch_predict ps fs students_data
                (Some subject_id) with
        | (ps', Raise e) =>
            (ps', db,
             ([ ("success", PBool false); ("error", PStr (str_exn e)) ],
              500%Z))
        | (ps', Ok predictions) =>
            let '(db', predictions', saved_predictions) :=
              save_predictions drv db predictions in
            let summary :=
              [ ("success", PBool true);
                ("total_students", PredictionService.pynat
                                     (List.length students_data));
                ("successful_predictions",
                  PredictionService.pynat (count_successes predictions'));
                ("saved_predictions",
                  PredictionService.pynat (List.length saved_predictions));
                ("predictions", PList (map PDict predictions')) ] in
            (ps', db',
             match json_error summary with
             | None => (summary, 200%Z)
             | Some e =>
                 ([ ("success", PBool false); ("error", PStr (str_exn e)) ],
                  500%Z)
             end)
        end
    end.

(** [train_model()] ([/train]) from the point where [subject_id] and
    [training_data] are known: the response body and the HTTP status. *)
Definition train_model (sk : PredictionService.sklearn)
  (ps : PredictionService.t) (fs : PredictionService.filesystem)
  (subject_id : option Z) (training_data : list PredictionService.mark)
  : PredictionService.t * PredictionService.filesystem * (sdict pyval * Z) :=
  match training_data with
  | [] =>
      (ps, fs,
       ([ ("success", PBool false);
          ("error", PStr "No training data available") ], 400%Z))
  | _ =>
      match PredictionService.train_model sk ps fs
              (PredictionService.TMarks training_data)
              (match subject_id with
               | Some n => PredictionService.TInt n
               | None => PredictionService.TNone
               end) with
      | (ps', fs', Ok (PredictionService.RetDict results)) =>
          (ps', fs',
           (results,
            if truthy (get_or "success" results PNone)
            then 200%Z else 400%Z))
      | (ps', fs', Ok (PredictionService.RetTuple _ _)) =>
          (* [jsonify] of a tuple that holds a model *)
          (ps', fs',
           ([ ("success", PBool false);
              ("error", PStr "Object of type model is not JSON serializable") ],
            500%Z))
      | (ps', fs', Raise e) =>
          (ps', fs',
           ([ ("success", PBool false); ("error", PStr (str_exn e)) ], 500%Z))
      end
  end.

End App.

(** ** Vocabulary of the specification *)

Module Spec.

(** An internal mark is missing when it is absent or zero; otherwise it is
    present. *)
Definition present_values (ms : list (option Q)) : list Q :=
  flat_map (fun m => match m with
                     | Some q => if Qeq_bool q 0 then [] else [q]
                     | None => []
                     end) ms.

(** A missing mark is replaced by [mu]; a present one is kept. *)
Definition filled (m : option Q) (mu : Q) : Q :=
  match m with
  | Some q => if Qeq_bool q 0 then mu else q
  | None => mu
  end.

(** The marks dictionary holds [m] (a number, or nothing) for [exam]. *)
Definition holds (marks : sdict pyval) (exam : string) (m : option Q) : Prop :=
  sget exam marks = option_map PNum m.

Definition nonnegative (ms : list (option Q)) : Prop :=
  forall q, In (Some q) ms -> 0 <= q.

(** What [marks.get(exam, 0)] gives for a mark that is a number or absent. *)
Definition got (m : option Q) : Q :=
  match m with Some q => q | None => 0 end.

(** The confidence heuristic, in the words of the specification: base 0.5,
    plus (count of present marks / 3) * 0.3, plus, with at least two
    present marks, max(0, (100 - variance) / 100) * 0.2; clipped to
    [0, 1]. *)
Definition confidence_formula (present : list Q) : Q :=
  let score :=
    (5 # 10) + (Qlen present / 3) * (3 # 10)
    + (if (2 <=? List.length present)%nat
       then Qmax 0 ((100 - np_var present) / 100) * (2 # 10)
       else 0) in
  Qmin 1 (Qmax 0 score).

(** The shape of a first-tier fallback result. *)
Definition fallback_result (marks confidence : Q) (quality : string)
  : sdict pyval :=
  [ ("predicted_marks", PNum marks);
    ("confidence_score", PNum confidence);
    ("prediction_method", PStr "fallback");
    ("warning",
      PStr "This is a fallback prediction due to model unavailability");
    ("fallback_reason", PStr "Primary prediction model failed");
    ("data_quality", PStr quality) ].

(** The registry after a prediction for subject [sid]. *)
Definition registry_after (self : PredictionService.t)
  (fs : PredictionService.filesystem) (sid : option Z) : PredictionService.t :=
  match PredictionService.resolve_model self fs sid with
  | Ok (self', _, _) => self'
  | Raise _ => self
  end.

(** Training-table vocabulary: the number of internal exam keys that are in
    the group, the imputation value and the imputed mark. *)
Definition keys_present (ms : list (option Q)) : nat :=
  List.length (filter (fun m => match m with Some _ => true | None => false end)
                      ms).

Definition mean_or_zero (l : list Q) : Q :=
  match l with [] => 0 | _ => np_mean l end.

Definition imputed (m : option Q) (mu : Q) : Q :=
  match m with Some q => q | None => mu end.

(** The call gave back a result dictionary (rather than a tuple or an
    exception). *)
Definition is_result_dict (r : res PredictionService.train_return) : bool :=
  match r with
  | Ok (PredictionService.RetDict _) => true
  | _ => false
  end.

(** A batch item: the prediction with the student's ids written into it. *)
Definition annotated (d r : sdict pyval) : sdict pyval :=
  sset "subject_id" (get_or "subject_id" d PNone)
    (sset "student_id" (get_or "student_id" d PNone) r).

(** [p.get('success')] as a truth value. *)
Definition success_of (r : sdict pyval) : bool :=
  truthy (get_or "success" r PNone).

End Spec.

(** ** Concrete services, models and records used in examples *)

Module Samples.
Import PredictionService.

(** A regressor that answers [q] whatever the features. *)
Definition constant_model (q : Q) : model :=
  {| predict := fun _ => Ok q; feature_importances_ := None |}.

Definition no_files : filesystem := fun _ => None.

Definition production_model : model := constant_model 70.
Definition subject_model : model := constant_model 50.
Definition general_model : model := constant_model 60.

(** Registry with a production-best and a [subject_1] model. *)
Definition both_registered : t :=
  set_models (init "./models/")
    [ ("production_best", production_model); ("subject_1", subject_model) ].

(** Registry with the general model only. *)
Definition general_only : t :=
  set_models (init "./models/") [ ("general", general_model) ].

(** Marks [{series_test_1: 80}] only. *)
Definition series_1_only : sdict pyval :=
  [ ("student_id", PNum 3); ("subject_id", PNum 1);
    ("subject_type", PStr "theory"); ("semester", PNum 3);
    ("marks", PDict [ ("series_test_1", PNum 80) ]) ].

(** All three internal marks. *)
Definition complete_student : sdict pyval :=
  [ ("student_id", PNum 3); ("subject_id", PNum 1);
    ("subject_type", PStr "theory"); ("semester", PNum 3);
    ("marks", PDict [ ("series_test_1", PNum 80);
                      ("series_test_2", PNum 82);
                      ("lab_internal", PNum 81) ]) ].

(** Marks [{series_test_1: 40, series_test_2: 45}]. *)
Definition two_marks_student : sdict pyval :=
  [ ("student_id", PNum 1); ("subject_id", PNum 1);
    ("marks", PDict [ ("series_test_1", PNum 40);
                      ("series_test_2", PNum 45) ]) ].

(** The marks of one student in subject 1: three internals out of 50 and
    the university exam out of 100. *)
Definition student_marks (i : nat) : list mark :=
  let mk exam obtained max :=
    {| m_student_id := Z.of_nat i; m_subject_id := 1;
       m_exam_type := exam;
       m_marks_obtained := inject_Z obtained; m_max_marks := inject_Z max;
       m_subject_type := Some "theory"; m_semester := Some 3%Z |} in
  [ mk "series_test_1" (30 + Z.of_nat i)%Z 50%Z;
    mk "series_test_2" (32 + Z.of_nat i)%Z 50%Z;
    mk "lab_internal" (31 + Z.of_nat i)%Z 50%Z;
    mk "university" (60 + 2 * Z.of_nat i)%Z 100%Z ].

(** Fifteen students with complete marks: fifteen valid training rows. *)
Definition fifteen_students : list mark := flat_map student_marks (seq 1 15).

(** A single internal mark: no valid training row. *)
Definition one_mark : list mark := firstn 1 (student_marks 1).

(** A [train_test_split] that, like scikit-learn's, accepts a table with a
    target column of the same length and rejects anything else; the
    estimators are constant regressors. *)
Definition strict_sklearn : sklearn :=
  {| train_test_split := fun X y =>
       match X, y with
       | TFrame rows, TSeries values =>
           if (List.length rows =? List.length values)%nat
           then Ok (TFrame (skipn 1 rows), TFrame (firstn 1 rows),
                    TSeries (skipn 1 values), TSeries (firstn 1 values))
           else Raise (ValueError
                  "Found input variables with inconsistent numbers of samples")
       | _, TInt _ =>
           Raise (TypeError
             "Singleton array cannot be considered a valid collection.")
       | _, _ => Raise (ValueError "could not convert input to a float array")
       end;
     fit := fun _ _ _ => Ok (constant_model 70);
     np_sqrt := fun q => q;
     r2_score := fun _ _ => Ok 0 |}.

(** A production-best regressor whose raw output is out of range. *)
Definition overshooting : t :=
  set_models (init "./models/") [ ("production_best", constant_model 150) ].

(** A record with nothing but a student id. *)
Definition bare_student : sdict pyval := [ ("student_id", PNum 2) ].

Definition empty_database : DatabaseService.t :=
  {| DatabaseService.committed := [];
     DatabaseService.ml_predictions := [];
     DatabaseService.next_id := 1;
     DatabaseService.current_timestamp := 0;
     DatabaseService.current_year := 2025;
     DatabaseService.faculty_subjects := [] |}.

(** A database whose only prediction has been made visible. *)
Definition visible_database : DatabaseService.t :=
  fst (DatabaseService.toggle_prediction_visibility
         (fst (DatabaseService.save_prediction empty_database 1 1 70 (8 # 10)
                 (PDict []) "2.0.0"))
         1 true None).

(** A database with one prediction saved and not committed. *)
Definition pending_database : DatabaseService.t :=
  fst (DatabaseService.save_prediction empty_database 1 1 70 (8 # 10)
         (PDict []) "2.0.0").

(** A connection that is lost: every statement fails. *)
Definition lost_connection : Connection.driver :=
  fun _ _ => Some "server closed the connection unexpectedly".

(** A working database driver and a response without numpy values. *)
Definition no_driver_error : Connection.driver := fun _ _ => None.
Definition plain_response : sdict pyval -> option exn := fun _ => None.

(** The predictions of an XGBoost regressor are [numpy.float32] values:
    [round(prediction, 2)] is one too, the driver cannot adapt it as a
    parameter of the save and [jsonify] cannot serialise a response that
    holds it. *)
Definition float32_driver : Connection.driver :=
  fun stmt _ =>
    match stmt with
    | Connection.UpdateStatement _ _ _ _ _ _
    | Connection.InsertStatement _ _ _ _ _ _ =>
        Some "can't adapt type 'numpy.float32'"
    | _ => None
    end.
Definition holds_predicted_marks (body : sdict pyval) : bool :=
  let predicted p :=
    match p with
    | PDict d => sin "predicted_marks" d
    | _ => false
    end in
  predicted (PDict body)
  || match sget "predictions" body with
     | Some (PList predictions) => existsb predicted predictions
     | _ => false
     end.
Definition float32_response : sdict pyval -> option exn :=
  fun body =>
    if holds_predicted_marks body
    then Some (TypeError "Object of type float32 is not JSON serializable")
    else None.

(** A record whose first series test is not a number. *)
Definition unmarked_student : sdict pyval :=
  [ ("student_id", PNum 4); ("subject_id", PNum 1);
    ("marks", PDict [ ("series_test_1", PNone) ]) ].

(** A group whose first series test was marked 0. *)
Definition zero_mark_group : group :=
  {| g_student_id := 1; g_subject_id := 1;
     g_subject_type := "theory"; g_semester := 3;
     g_marks := [ ("series_test_1", 0); ("series_test_2", 80);
                  ("university", 70) ] |}.

End Samples.

(** ** Exceptions and decorators ([utils/error_handler.py]) *)

Module Errors.

(** The classes of the [MLServiceError] hierarchy; the five subclasses
    derive directly from [MLServiceError]. *)
Inductive error_class : Type :=
| cMLServiceError
| cPredictionError
| cModelError
| cDataError
| cDatabaseError
| cExternalServiceError.

Definition error_class_eqb (a b : error_class) : bool :=
  match a, b with
  | cMLServiceError, cMLServiceError
  | cPredictionError, cPredictionError
  | cModelError, cModelError
  | cDataError, cDataError
  | cDatabaseError, cDatabaseError
  | cExternalServiceError, cExternalServiceError => true
  | _, _ => false
  end.

(** An instance of [MLServiceError] or of a subclass. *)
Record service_error : Type := {
  class_of : error_class;
  message : string;
  error_code : string;
  details : sdict pyval;
  timestamp : string
}.

(** What a call raises: a service error, or any other exception. *)
Inductive raised : Type :=
| Service (e : service_error)
| Builtin (e : exn).

(** [str(e)]; [MLServiceError.__init__] passes the message on to
    [Exception]. *)
Definition str_raised (e : raised) : string :=
  match e with
  | Service se => message se
  | Builtin x => str_exn x
  end.

(** [isinstance(e, (c1, c2, ...))] for classes of the hierarchy. *)
Definition isinstance (e : raised) (classes : list error_class) : bool :=
  match e with
  | Service se =>
      existsb (fun c => error_class_eqb c cMLServiceError
                        || error_class_eqb c (class_of se)) classes
  | Builtin _ => false
  end.

(** The constructors; [utcnow] is the reading of the clock. *)
Definition MLServiceError (utcnow message error_code : string)
  (details : sdict pyval) : service_error :=
  {| class_of := cMLServiceError; message := message;
     error_code := error_code; details := details; timestamp := utcnow |}.

Definition PredictionError (utcnow message : string) (details : sdict pyval)
  : service_error :=
  {| class_of := cPredictionError; message := message;
     error_code := "PREDICTION_ERROR"; details := details;
     timestamp := utcnow |}.

Definition DataError (utcnow message : string) (details : sdict pyval)
  : service_error :=
  {| class_of := cDataError; message := message;
     error_code := "DATA_ERROR"; details := details; timestamp := utcnow |}.

Definition DatabaseError (utcnow message : string) (details : sdict pyval)
  : service_error :=
  {| class_of := cDatabaseError; message := message;
     error_code := "DATABASE_ERROR"; details := details;
     timestamp := utcnow |}.

Inductive outcome (A : Type) : Type :=
| Returns (a : A)
| Raises (e : raised).
Arguments Returns {A} a.
Arguments Raises {A} e.

(** A Python callable with positional and keyword arguments, acting on a
    state [S]. *)
Definition callable (S A : Type) : Type :=
  list pyval -> sdict pyval -> S -> S * outcome A.

(** What the decorators take from the interpreter: the clock, [str] of
    the argument tuple and dictionary, and [traceback.format_exc()]. *)
Record runtime : Type := {
  utcnow : string;
  str_args : list pyval -> string;
  str_kwargs : sdict pyval -> string;
  format_exc : raised -> string
}.

(** [handle_ml_errors(func)]; [name] is [func.__name__], which [wraps]
    also gives to the wrapper. *)
Definition handle_ml_errors {S A} (rt : runtime) (name : string)
  (func : callable S A) : callable S A :=
  fun args kwargs s =>
    match func args kwargs s with
    | (s', Returns a) => (s', Returns a)
    | (s', Raises e) =>
        if isinstance e [cMLServiceError] then (s', Raises e)
        else
          let error_details :=
            [ ("function", PStr name);
              ("args", PStr (substring 0 200 (str_args rt args)));
              ("kwargs", PStr (substring 0 200 (str_kwargs rt kwargs)));
              ("traceback", PStr (format_exc rt e)) ] in
          (s', Raises (Service
                 (MLServiceError (utcnow rt)
                    ("Unexpected error in " ++ name ++ ": " ++ str_raised e)
                    "UNEXPECTED_ERROR" error_details)))
    end.

(** [handle_prediction_errors(func)].  The wrapper gives back what [func]
    returned ([inl]) or the fallback dictionary ([inr]). *)
Definition handle_prediction_errors {S A} (rt : runtime) (name : string)
  (func : callable S A) : callable S (A + sdict pyval) :=
  fun args kwargs s =>
    match func args kwargs s with
    | (s', Returns a) => (s', Returns (inl a))
    | (s', Raises e) =>
        if isinstance e [cPredictionError; cModelError] then (s', Raises e)
        else
          (* [get_fallback_prediction] returns a dictionary on every path *)
          let fallback_result : option (sdict pyval) :=
            Some (ErrorHandler.get_fallback_prediction args kwargs) in
          match fallback_result with
          | Some d => (s', Returns (inr d))
          | None =>
              (s', Raises (Service
                     (PredictionError (utcnow rt)
                        ("Prediction failed: " ++ str_raised e)
                        [ ("function", PStr name);
                          ("original_error", PStr (str_raised e));
                          ("fallback_attempted", PBool true) ])))
          end
    end.

(** [str.lower] and [needle in s] on ASCII strings. *)
Definition lower_ascii (c : ascii) : ascii :=
  let n := nat_of_ascii c in
  if ((65 <=? n) && (n <=? 90))%nat then ascii_of_nat (n + 32) else c.

Fixpoint lower (s : string) : string :=
  match s with
  | EmptyString => EmptyString
  | String c s' => String (lower_ascii c) (lower s')
  end.

Fixpoint contains (needle s : string) : bool :=
  String.prefix needle s
  || match s with
     | EmptyString => false
     | String _ s' => contains needle s'
     end.

(** [handle_database_errors(func)] *)
Definition handle_database_errors {S A} (rt : runtime)
  (func : callable S A) : callable S A :=
  fun args kwargs s =>
    match func args kwargs s with
    | (s', Returns a) => (s', Returns a)
    | (s', Raises e) =>
        let error_message := lower (str_raised e) in
        let database_error message category :=
          Service (DatabaseError (utcnow rt) message
                     [ ("original_error", PStr (str_raised e));
                       ("category", PStr category) ]) in
        (s', Raises
           (if contains "connection" error_message
               || contains "connect" error_message
            then database_error "Database connection failed" "connection"
            else if contains "timeout" error_message
            then database_error "Database operation timed out" "timeout"
            else if contains "syntax" error_message
                    || contains "sql" error_message
            then database_error "Database query error" "query"
            else database_error ("Database error: " ++ str_raised e)
                                "unknown"))
    end.

(** [range(n)] *)
Definition range (n : Z) : list Z := map Z.of_nat (seq 0 (Z.to_nat n)).

(** The [for] loop of [retry_with_backoff], lines 362-373.  The result is
    what left the wrapper from inside the loop ([inl]: the value returned
    by [func], or the [ValueError] of a negative [time.sleep]), or the
    value of [last_exception] when the loop is over ([inr]).  [sleep] is
    the passing of time; delays are rationals. *)
Fixpoint retry_attempts {S A} (sleep : Q -> S -> S) (func : S -> S * outcome A)
  (max_retries : Z) (base_delay backoff_factor : Q) (attempts : list Z)
  (s : S) (last_exception : option raised)
  : S * (outcome A + option raised) :=
  match attempts with
  | [] => (s, inr last_exception)
  | attempt :: rest =>
      match func s with
      | (s', Returns a) => (s', inl (Returns a))
      | (s', Raises e) =>
          if Z.eqb attempt max_retries then (s', inr (Some e))
          else
            let delay := base_delay * backoff_factor ^ attempt in
            if Qltb delay 0
            then (s', inl (Raises (Builtin
                    (ValueError "sleep length must be non-negative"))))
            else retry_attempts sleep func max_retries base_delay
                   backoff_factor rest (sleep delay s') (Some e)
      end
  end.

(** [retry_with_backoff(func, max_retries, base_delay, backoff_factor)]
    (defaults 3, 1.0 and 2.0). *)
Definition retry_with_backoff {S A} (rt : runtime) (sleep : Q -> S -> S)
  (name : string) (func : callable S A) (max_retries : Z)
  (base_delay backoff_factor : Q) : callable S A :=
  fun args kwargs s =>
    match retry_attempts sleep (func args kwargs) max_retries base_delay
            backoff_factor (range (max_retries + 1)) s None with
    | (s', inl out) => (s', out)
    | (s', inr last_exception) =>
        (s', Raises (Service
               (MLServiceError (utcnow rt)
                  ("Function " ++ name ++ " failed after "
                   ++ str_int (max_retries + 1) ++ " attempts")
                  "RETRY_EXHAUSTED"
                  [ ("max_retries", PNum (inject_Z max_retries));
                    ("last_error",
                      PStr (match last_exception with
                            | Some e => str_raised e
                            | None => "None"
                            end)) ])))
    end.

End Errors.

(** ** Reading marks for prediction ([services/database_service.py]) *)

Module DatabaseQueries.

(** A row of the join of [get_student_marks_for_prediction], as the
    cursor returns it; the header columns are kept as the database has
    them. *)
Record marks_row : Type := {
  exam_type : string;
  marks_obtained : Q;
  max_marks : Q;
  subject_type : pyval;
  semester : pyval;
  subject_name : pyval;
  subject_code : pyval;
  student_name : pyval
}.

(** The loop of lines 192-195 on [student_data['marks']]. *)
Fixpoint marks_of (results : list marks_row) (marks : sdict pyval)
  : res (sdict pyval) :=
  match results with
  | [] => Ok marks
  | result :: rest =>
      if Qeq_bool (max_marks result) 0
      then Raise (ZeroDivisionError "division by zero")
      else
        let percentage := marks_obtained result / max_marks result * 100 in
        marks_of rest (sset (exam_type result) (PNum percentage) marks)
  end.

(** [get_student_marks_for_prediction] from the point where the rows of
    the query are known. *)
Definition get_student_marks_for_prediction (student_id subject_id : Z)
  (results : list marks_row) : res (option (sdict pyval)) :=
  match results with
  | [] => Ok None
  | first :: _ =>
      marks <- marks_of results [] ;;
      Ok (Some [ ("student_id", PNum (inject_Z student_id));
                 ("subject_id", PNum (inject_Z subject_id));
                 ("student_name", student_name first);
                 ("subject_name", subject_name first);
                 ("subject_code", subject_code first);
                 ("subject_type", subject_type first);
                 ("semester", semester first);
                 ("marks", PDict marks) ])
  end.

(** [get_students_for_prediction] from the point where the enrolled
    students are known, each with the rows of its marks query. *)
Fixpoint get_students_for_prediction (subject_id : Z)
  (students : list (Z * list marks_row)) : res (list (sdict pyval)) :=
  match students with
  | [] => Ok []
  | (student_id, results) :: rest =>
      student_data <-
        get_student_marks_for_prediction student_id subject_id results ;;
      student_data_list <- get_students_for_prediction subject_id rest ;;
      Ok (match student_data with
          | Some d => d :: student_data_list
          | None => student_data_list
          end)
  end.

End DatabaseQueries.

(** ** The routes [/predict] and [/predictions/toggle] ([app.py]) *)

Module Routes.
Import Errors.

(** What a request meets: whether the services were initialised, what
    [request.get_json()] gives (the parsed body, or an exception for a
    body that is not JSON), the model directory, the errors of the
    database driver, the rows that the marks query gives for a student,
    subject and year when it does not fail, what [jsonify] raises for a
    response (a [TypeError] for a value that is no JSON value, as a
    [numpy.float32]), [int] on strings, and the request id drawn from the
    clock and [os.urandom]. *)
Record environment : Type := {
  services_available : bool;
  get_json : res pyval;
  model_files : PredictionService.filesystem;
  driver : Connection.driver;
  marks_rows : Z -> Z -> pyval -> list DatabaseQueries.marks_row;
  json_error : sdict pyval -> option exn;
  parse_int : string -> option Z;
  request_id : string
}.

Definition state : Type := PredictionService.t * DatabaseService.t.

(** Truncation towards zero. *)
Definition trunc (q : Q) : Z :=
  if Qle_bool 0 q then Qfloor q else Qceiling q.

(** [int(v)] *)
Definition py_int (env : environment) (v : pyval) : res Z :=
  match v with
  | PNum q => Ok (trunc q)
  | PBool b => Ok (if b then 1%Z else 0%Z)
  | PStr text =>
      match parse_int env text with
      | Some n => Ok n
      | None => Raise (ValueError "invalid literal for int() with base 10")
      end
  | _ =>
      Raise (TypeError
        "int() argument must be a string, a bytes-like object or a real number")
  end.

(** [data.get(k)], once [data.get] has been called with success. *)
Definition get_or_none (data : pyval) (k : string) : pyval :=
  match data with
  | PDict d => get_or k d PNone
  | _ => PNone
  end.

(** Lines 197-212: save a successful prediction; a save that fails is
    answered with a warning in the result. *)
Definition save_result (env : environment) (db : DatabaseService.t)
  (student_id subject_id : Z) (prediction_result : sdict pyval)
  : DatabaseService.t * sdict pyval :=
  if truthy (get_or "success" prediction_result PNone) then
    let args :=
      pm <- App.item "predicted_marks" prediction_result ;;
      cs <- App.item "confidence_score" prediction_result ;;
      feats <- App.item "input_features" prediction_result ;;
      ver <- App.item "model_version" prediction_result ;;
      pm <- App.number_of pm ;;
      cs <- App.number_of cs ;;
      ver <- App.string_of ver ;;
      Ok (pm, cs, feats, ver) in
    let not_saved :=
      sset "save_warning" (PStr "Prediction not saved to database")
        prediction_result in
    match args with
    | Ok (pm, cs, feats, ver) =>
        match Connection.save_prediction (driver env) db student_id
                subject_id pm cs feats ver with
        | (db', Connection.Result prediction_id) =>
            (db',
             sset "request_id" (PStr (request_id env))
               (sset "prediction_id" (PNum (inject_Z prediction_id))
                  prediction_result))
        | (db', _) => (db', not_saved)
        end
    | Raise _ => (db, not_saved)
    end
  else (db, prediction_result).

(** The body of the [try] of [predict_marks], lines 149-214. *)
Definition predict_marks_body (rt : runtime) (env : environment)
  (st : state) : state * outcome (sdict pyval * Z) :=
  let (ps, db) := st in
  let data_error message :=
    (st, Raises (Service (DataError (utcnow rt) message []))) in
  match get_json env with
  | Raise e => (st, Raises (Builtin e))
  | Ok data =>
  if negb (truthy data) then data_error "Request body is required"
  else
    match (student_id <- py_get data "student_id" PNone ;;
           subject_id <- py_get data "subject_id" PNone ;;
           Ok (student_id, subject_id)) with
    | Raise e => (st, Raises (Builtin e))
    | Ok (student_id, subject_id) =>
        if negb (truthy student_id) || negb (truthy subject_id)
        then data_error "student_id and subject_id are required"
        else
          match (s <- py_int env student_id ;;
                 j <- py_int env subject_id ;;
                 Ok (s, j)) with
          | Raise _ =>
              data_error "student_id and subject_id must be valid integers"
          | Ok (student_id, subject_id) =>
              let database_error st' text :=
                (st', Raises (Service
                        (DatabaseError (utcnow rt)
                           ("Failed to retrieve student data: " ++ text)
                           []))) in
              let academic_year := get_or_none data "academic_year" in
              match driver env
                      (Connection.MarksStatement student_id subject_id
                         academic_year) db with
              | Some message =>
                  (* [execute_query] rolls back and raises again *)
                  database_error (ps, Connection.rollback db) message
              | None =>
                  match DatabaseQueries.get_student_marks_for_prediction
                          student_id subject_id
                          (marks_rows env student_id subject_id
                             academic_year) with
                  | Raise e => database_error st (str_exn e)
                  | Ok None =>
                      data_error "No marks data found for student and subject"
                  | Ok (Some student_data) =>
                      let (ps', prediction_result) :=
                        PredictionService.predict_university_marks ps
                          (model_files env) (PDict student_data)
                          (Some subject_id) in
                      let (db', prediction_result) :=
                        save_result env db student_id subject_id
                          prediction_result in
                      match json_error env prediction_result with
                      | Some e => ((ps', db'), Raises (Builtin e))
                      | None =>
                          ((ps', db'),
                           Returns
                             (prediction_result,
                              if truthy
                                   (get_or "success" prediction_result PNone)
                              then 200%Z else 400%Z))
                      end
                  end
              end
          end
    end
  end.

(** [predict_marks], the view function before decoration. *)
Definition predict_marks (rt : runtime) (env : environment)
  : callable state (sdict pyval * Z) :=
  fun _ _ st =>
    if negb (services_available env) then
      (st, Raises (Service
             (MLServiceError (utcnow rt)
                "Prediction or database service not available"
                "SERVICE_UNAVAILABLE" [])))
    else
      match predict_marks_body rt env st with
      | (st', Returns r) => (st', Returns r)
      | (st', Raises e) =>
          if isinstance e [cMLServiceError] then (st', Raises e)
          else
            (st', Raises (Service
                    (MLServiceError (utcnow rt)
                       ("Unexpected error during prediction: "
                        ++ str_raised e)
                       "PREDICTION_ERROR" [])))
      end.

(** The view that [@app.route('/predict')] registers; Flask calls it
    without arguments. *)
Definition predict_route (rt : runtime) (env : environment) (st : state)
  : state * outcome (sdict pyval * Z + sdict pyval) :=
  handle_prediction_errors rt "predict_marks" (predict_marks rt env) [] [] st.

(** The body of a toggle request: [None] stands for a missing or empty
    JSON object; [is_visible] is a JSON boolean or absent, [faculty_id] a
    JSON integer or absent. *)
Record toggle_request : Type := {
  is_visible : option bool;
  faculty_id : option Z
}.

Definition error_body (message : string) : sdict pyval :=
  [ ("success", PBool false); ("error", PStr message) ].

(** [toggle_prediction_visibility(subject_id)], with the database service
    available. *)
Definition toggle_prediction_visibility (drv : Connection.driver)
  (db : DatabaseService.t) (subject_id : Z) (data : option toggle_request)
  : DatabaseService.t * (sdict pyval * Z) :=
  match data with
  | None => (db, (error_body "Request body is required", 400%Z))
  | Some data =>
      match is_visible data with
      | None => (db, (error_body "is_visible field is required", 400%Z))
      | Some visible =>
          match Connection.toggle_prediction_visibility drv db subject_id
                  visible (faculty_id data) with
          | (db', Connection.Result updated_count) =>
              (db',
               ([ ("success", PBool true);
                  ("subject_id", PNum (inject_Z subject_id));
                  ("is_visible", PBool visible);
                  ("updated_predictions", PNum (inject_Z updated_count));
                  ("message",
                    PStr ("Predictions "
                          ++ (if visible then "enabled" else "disabled")
                          ++ " for students")) ], 200%Z))
          | (db', Connection.Raised (ValueError msg)) =>
              (db', (error_body msg, 403%Z))
          | (db', failed) =>
              (db', (error_body (Connection.error_text failed), 500%Z))
          end
      end
  end.

End Routes.

(** ** Notions used to state further properties *)

Module Notions.
Import PredictionService.

(** The keys of a training record (lines 96-106). *)
Definition record_keys : list string :=
  [ "student_id"; "subject_id"; "series_test_1_percentage";
    "series_test_2_percentage"; "lab_internal_percentage";
    "average_internal_percentage"; "subject_type_encoded"; "semester";
    "university_percentage" ].

(** A group gives a training row: it has a university mark and at least
    two of the three internal exams. *)
Definition qualifies (g : group) : bool :=
  sin "university" (g_marks g)
  && (2 <=? List.length (filter (fun exam => sin exam (g_marks g))
                                internal_exams))%nat.

(** The mark is one of student [s] in subject [j] for [exam]. *)
Definition same_exam (s j : Z) (exam : string) (mk : mark) : bool :=
  Z.eqb (m_student_id mk) s && Z.eqb (m_subject_id mk) j
  && String.eqb (m_exam_type mk) exam.

(** The percentage that the grouped marks hold for an exam of a pair. *)
Definition group_percentage (groups : dict (K:=Z * Z) (V:=group))
  (s j : Z) (exam : string) : option Q :=
  match dict_get key_eqb (s, j) groups with
  | Some g => sget exam (g_marks g)
  | None => None
  end.

(** A service whose production package declared the six features of the
    training table. *)
Definition six_features (self : t) : t :=
  {| model_path := model_path self;
     models := models self;
     model_version := model_version self;
     feature_columns := firstn 6 default_feature_columns |}.

(** The state in which attempt number [n] of a retried call starts when
    all attempts before it fail: each failed attempt [k] is followed by a
    sleep of [base_delay * backoff_factor ^ k]. *)
Fixpoint attempt_state {S A} (sleep : Q -> S -> S)
  (func : S -> S * Errors.outcome A) (base_delay backoff_factor : Q)
  (n : nat) (s0 : S) : S :=
  match n with
  | O => s0
  | Datatypes.S k =>
      sleep (base_delay * backoff_factor ^ Z.of_nat k)
        (fst (func (attempt_state sleep func base_delay backoff_factor k s0)))
  end.

(** The entry of a marks dictionary is a percentage. *)
Definition is_percentage (kv : string * pyval) : Prop :=
  exists q, snd kv = PNum q /\ 0 <= q <= 100.

(** The call failed. *)
Definition fails {A} (o : Errors.outcome A) : bool :=
  match o with
  | Errors.Raises _ => true
  | Errors.Returns _ => false
  end.

End Notions.

(** * Properties *)

(** ** Arithmetic of the runtime *)

Lemma Qltb_lt (x y : Q) : Qltb x y = true <-> x < y.
Proof.
  unfold Qltb. rewrite negb_true_iff. split; intro H.
  - apply Qnot_le_lt. intro Hle. apply Qle_bool_iff in Hle. congruence.
  - destruct (Qle_bool y x) eqn:E; [|reflexivity].
    apply Qle_bool_iff in E. exfalso. apply (Qlt_not_le _ _ H E).
Qed.

Lemma Qltb_ge (x y : Q) : Qltb x y = false <-> y <= x.
Proof.
  unfold Qltb. rewrite negb_false_iff. apply Qle_bool_iff.
Qed.

Lemma py_max_cases (a b : Q) :
  (a < b /\ py_max a b = b) \/ (b <= a /\ py_max a b = a).
Proof.
  unfold py_max. destruct (Qltb a b) eqn:E.
  - left. split; [now apply Qltb_lt | reflexivity].
  - right. split; [now apply Qltb_ge | reflexivity].
Qed.

Lemma py_min_cases (a b : Q) :
  (b < a /\ py_min a b = b) \/ (a <= b /\ py_min a b = a).
Proof.
  unfold py_min. destruct (Qltb b a) eqn:E.
  - left. split; [now apply Qltb_lt | reflexivity].
  - right. split; [now apply Qltb_ge | reflexivity].
Qed.

(** [max(lo, min(hi, x))] is the clip of [x] to [[lo, hi]]. *)
Lemma clip_range (lo hi x : Q) :
  lo <= hi ->
  lo <= py_max lo (py_min hi x) <= hi.
Proof.
  intro H.
  destruct (py_min_cases hi x) as [[H1 ->] | [H1 ->]];
    [destruct (py_max_cases lo x) as [[H2 ->] | [H2 ->]]
    |destruct (py_max_cases lo hi) as [[H2 ->] | [H2 ->]]];
    split; lra.
Qed.

Lemma clip_above (lo hi x : Q) :
  lo <= hi -> hi < x -> py_max lo (py_min hi x) == hi.
Proof.
  intros H Hx.
  destruct (py_min_cases hi x) as [[H1 ->] | [H1 ->]]; [lra|].
  destruct (py_max_cases lo hi) as [[H2 ->] | [H2 ->]]; lra.
Qed.

Lemma clip_below (lo hi x : Q) :
  lo <= hi -> x < lo -> py_max lo (py_min hi x) = lo.
Proof.
  intros H Hx.
  destruct (py_min_cases hi x) as [[H1 ->] | [H1 ->]].
  - destruct (py_max_cases lo x) as [[H2 ->] | [H2 ->]]; [lra | reflexivity].
  - lra.
Qed.

Lemma clip_inside (lo hi x : Q) :
  lo <= x <= hi -> py_max lo (py_min hi x) == x.
Proof.
  intros [H1 H2].
  destruct (py_min_cases hi x) as [[H3 ->] | [H3 ->]];
    [destruct (py_max_cases lo x) as [[H4 ->] | [H4 ->]]
    |destruct (py_max_cases lo hi) as [[H4 ->] | [H4 ->]]]; lra.
Qed.

Lemma round_half_even_floor (x : Q) :
  (round_half_even x = Qfloor x /\ x - inject_Z (Qfloor x) <= 1 # 2)
  \/ (round_half_even x = (Qfloor x + 1)%Z /\ 1 # 2 <= x - inject_Z (Qfloor x)).
Proof.
  unfold round_half_even.
  destruct (Qltb (x - inject_Z (Qfloor x)) (1 # 2)) eqn:E1.
  { apply Qltb_lt in E1. left. split; [reflexivity | lra]. }
  apply Qltb_ge in E1.
  destruct (Qltb (1 # 2) (x - inject_Z (Qfloor x))) eqn:E2; [now right|].
  apply Qltb_ge in E2.
  destruct (Z.even (Qfloor x)); [left | right]; split; auto.
Qed.

Lemma round_half_even_lower (a : Z) (x : Q) :
  inject_Z a <= x -> (a <= round_half_even x)%Z.
Proof.
  intro H. apply Qfloor_resp_le in H. rewrite Qfloor_Z in H.
  destruct (round_half_even_floor x) as [[-> _] | [-> _]]; lia.
Qed.

Lemma round_half_even_upper (b : Z) (x : Q) :
  x <= inject_Z b -> (round_half_even x <= b)%Z.
Proof.
  intro H. pose proof (Qfloor_resp_le _ _ H) as Hf. rewrite Qfloor_Z in Hf.
  destruct (round_half_even_floor x) as [[-> _] | [-> Hd]]; [lia|].
  destruct (Z.eq_dec (Qfloor x) b) as [E | E]; [|lia].
  rewrite E in Hd. lra.
Qed.

Lemma round_half_even_near (x : Q) :
  Qabs (inject_Z (round_half_even x) - x) <= 1 # 2.
Proof.
  pose proof (Qfloor_le x) as Hlo. pose proof (Qlt_floor x) as Hhi.
  rewrite inject_Z_plus in Hhi. change (inject_Z 1) with 1 in Hhi.
  destruct (round_half_even_floor x) as [[-> Hd] | [-> Hd]];
    try rewrite inject_Z_plus; try change (inject_Z 1) with 1;
    apply Qabs_case; intro; lra.
Qed.

(** Rounding to [n] decimals keeps a value between integer bounds and moves
    it by at most half a unit of the last place. *)
Lemma py_round_range (a b : Z) (x : Q) (n : nat) :
  inject_Z a <= x <= inject_Z b ->
  inject_Z a <= py_round x n <= inject_Z b.
Proof.
  intros [Ha Hb]. unfold py_round.
  set (s := (10 ^ Z.of_nat n)%Z).
  assert (Hs : (0 < s)%Z) by (apply Z.pow_pos_nonneg; lia).
  assert (HsQ : 0 < inject_Z s) by (change 0 with (inject_Z 0); now rewrite <- Zlt_Qlt).
  split.
  - apply Qle_shift_div_l; [exact HsQ|].
    rewrite <- inject_Z_mult, <- Zle_Qle.
    apply round_half_even_lower. rewrite inject_Z_mult.
    apply Qmult_le_compat_r; lra.
  - apply Qle_shift_div_r; [exact HsQ|].
    rewrite <- inject_Z_mult, <- Zle_Qle.
    apply round_half_even_upper. rewrite inject_Z_mult.
    apply Qmult_le_compat_r; lra.
Qed.

Lemma py_round_int (a : Z) (n : nat) : py_round (inject_Z a) n == inject_Z a.
Proof.
  apply Qle_antisym; apply (py_round_range a a); split; apply Qle_refl.
Qed.

Lemma py_round_near (x : Q) :
  Qabs (py_round x 2 - x) <= 1 # 200.
Proof.
  unfold py_round. change (inject_Z (10 ^ Z.of_nat 2)) with 100.
  pose proof (round_half_even_near (x * 100)) as H.
  revert H. generalize (inject_Z (round_half_even (x * 100))). intros r H.
  revert H. apply Qabs_case; intros H1 H2; apply Qabs_case; intro H3;
    unfold Qdiv in *; change (/ 100) with (1 # 100) in *; lra.
Qed.

#[global] Instance Qltb_comp : Proper (Qeq ==> Qeq ==> eq) Qltb.
Proof.
  intros x x' Hx y y' Hy. unfold Qltb. now rewrite (Qleb_comp _ _ Hy _ _ Hx).
Qed.

#[global] Instance round_half_even_comp : Proper (Qeq ==> eq) round_half_even.
Proof.
  intros x y H. unfold round_half_even.
  rewrite (Qfloor_comp _ _ H).
  assert (E : x - inject_Z (Qfloor y) == y - inject_Z (Qfloor y))
    by (rewrite H; reflexivity).
  rewrite (Qltb_comp _ _ E _ _ (Qeq_refl _)).
  now rewrite (Qltb_comp _ _ (Qeq_refl _) _ _ E).
Qed.

#[global] Instance py_round_comp : Proper (Qeq ==> eq ==> eq) py_round.
Proof.
  intros x y H n ? <-. unfold py_round.
  assert (E : x * inject_Z (10 ^ Z.of_nat n) == y * inject_Z (10 ^ Z.of_nat n))
    by (rewrite H; reflexivity).
  now rewrite (round_half_even_comp _ _ E).
Qed.

(** ** Dictionaries *)

Lemma sget_sset_same {V} (k : string) (v : V) (d : sdict V) :
  sget k (sset k v d) = Some v.
Proof.
  induction d as [|[k' v'] d IH]; cbn.
  - now rewrite String.eqb_refl.
  - destruct (String.eqb k k') eqn:E; cbn.
    + now rewrite String.eqb_refl.
    + now rewrite E.
Qed.

Lemma sget_sset_other {V} (k k' : string) (v : V) (d : sdict V) :
  k' <> k -> sget k' (sset k v d) = sget k' d.
Proof.
  intro Hne. induction d as [|[k0 v0] d IH]; cbn.
  - apply String.eqb_neq in Hne. now rewrite Hne.
  - destruct (String.eqb k k0) eqn:E; cbn.
    + apply String.eqb_eq in E. subst k0.
      apply String.eqb_neq in Hne. now rewrite Hne.
    + destruct (String.eqb k' k0); [reflexivity | exact IH].
Qed.

Lemma filter_keys_sset {V} (p : string -> bool) (k : string) (v : V)
  (d : sdict V) :
  p k = false ->
  filter p (dict_keys (sset k v d)) = filter p (dict_keys d).
Proof.
  intro Hp. induction d as [|[k0 v0] d IH]; cbn.
  - now rewrite Hp.
  - destruct (String.eqb k k0) eqn:E; cbn.
    + apply String.eqb_eq in E. now subst k0.
    + destruct (p k0); [f_equal|]; exact IH.
Qed.

(** ** The predictor *)

Module PredictorFacts.
Import PredictionService.

(** A successful result comes from the model path, and only from it. *)
Lemma predict_success_inv (self : t) (fs : filesystem) (sd : pyval)
  (sid : option Z) :
  sget "success" (snd (predict_university_marks self fs sd sid))
    = Some (PBool true) ->
  exists self' key m feats raw conf,
    resolve_model self fs sid = Ok (self', key, m)
    /\ _prepare_prediction_features self' sd = Ok feats
    /\ predict m feats = Ok raw
    /\ _calculate_confidence self' sd feats = Ok conf
    /\ predict_university_marks self fs sd sid =
         (self',
          [ ("success", PBool true);
            ("predicted_marks", PNum (py_round (py_max 0 (py_min 100 raw)) 2));
            ("confidence_score", PNum (py_round conf 2));
            ("input_features", PDict (dict_zip (feature_columns self') feats));
            ("model_version", PStr (model_version self'));
            ("model_used", PStr key) ]).
Proof.
  unfold predict_university_marks.
  destruct (resolve_model self fs sid) as [[[self' key] m] | e] eqn:Hr;
    [|cbn; discriminate].
  destruct (_prepare_prediction_features self' sd) as [feats | e] eqn:Hf;
    [|cbn; discriminate].
  cbn [bind try_except snd].
  destruct (predict m feats) as [raw | e] eqn:Hp; [|cbn; discriminate].
  destruct (_calculate_confidence self' sd feats) as [conf | e] eqn:Hc;
    [|cbn; discriminate].
  cbn [bind try_except snd].
  destruct (py_get sd "student_id" PNone) as [v | e]; [|cbn; discriminate].
  intros _. now exists self', key, m, feats, raw, conf.
Qed.

(** C5: the marks of a successful prediction are the raw model output
    clipped to [0, 100] (and rounded to two decimals): an output above 100
    gives 100, an output below 0 gives 0, an output in range is returned
    up to rounding, and the marks always lie in [0, 100]. *)
Theorem predicted_marks_clipped (self : t) (fs : filesystem) (sd : pyval)
  (sid : option Z) :
  sget "success" (snd (predict_university_marks self fs sd sid))
    = Some (PBool true) ->
  exists self' key m feats raw pm,
    resolve_model self fs sid = Ok (self', key, m)
    /\ _prepare_prediction_features self' sd = Ok feats
    /\ predict m feats = Ok raw
    /\ sget "predicted_marks" (snd (predict_university_marks self fs sd sid))
         = Some (PNum pm)
    /\ pm = py_round (py_max 0 (py_min 100 raw)) 2
    /\ 0 <= pm <= 100
    /\ (100 < raw -> pm == 100)
    /\ (raw < 0 -> pm == 0)
    /\ (0 <= raw <= 100 -> pm == py_round raw 2 /\ Qabs (pm - raw) <= 1 # 200).
Proof.
  intro Hs.
  destruct (predict_success_inv _ _ _ _ Hs)
    as (self' & key & m & feats & raw & conf & Hr & Hf & Hp & _ & E).
  exists self', key, m, feats, raw, (py_round (py_max 0 (py_min 100 raw)) 2).
  rewrite E. cbn [snd].
  repeat split; auto.
  - apply (py_round_range 0 100). apply (clip_range 0 100). lra.
  - apply (py_round_range 0 100). apply (clip_range 0 100). lra.
  - intro H. rewrite (clip_above 0 100 raw) by lra. apply (py_round_int 100).
  - intro H. rewrite (clip_below 0 100 raw) by lra. apply (py_round_int 0).
  - now rewrite (clip_inside 0 100 raw H).
  - rewrite (clip_inside 0 100 raw H) at 1.
    destruct H as [_ _]. apply py_round_near.
Qed.

Lemma predicted_marks_clipped_witness :
  exists pm,
    sget "predicted_marks"
      (snd (predict_university_marks Samples.overshooting Samples.no_files
              (PDict Samples.complete_student) (Some 1%Z)))
      = Some (PNum pm)
    /\ pm == 100.
Proof.
  destruct (predicted_marks_clipped Samples.overshooting Samples.no_files
              (PDict Samples.complete_student) (Some 1%Z))
    as (self' & key & m & feats & raw & pm & Hr & Hf & Hp & Hpm & _ & _
        & Habove & _); [vm_compute; reflexivity|].
  exists pm. split; [exact Hpm|]. apply Habove.
  vm_compute in Hr. injection Hr as <- <- <-.
  cbn in Hp. injection Hp as <-. reflexivity.
Defined.

(** *** Feature construction *)

Lemma Qsum_pos (l : list Q) :
  l <> [] -> (forall q, In q l -> 0 < q) -> 0 < Qsum l.
Proof.
  induction l as [|a l IH]; [congruence|]. intros _ H.
  assert (Ha : 0 < a) by (apply H; now left).
  change (Qsum (a :: l)) with (a + Qsum l).
  destruct l as [|b l]; [cbn; lra|].
  assert (0 < Qsum (b :: l))
    by (apply IH; [discriminate | intros; apply H; now right]).
  lra.
Qed.

Lemma Qlen_pos {A} (l : list A) : l <> [] -> 0 < Qlen l.
Proof.
  intro H. unfold Qlen. change 0 with (inject_Z 0). rewrite <- Zlt_Qlt.
  destruct l; [congruence | cbn; lia].
Qed.

Lemma np_mean_pos (l : list Q) :
  l <> [] -> (forall q, In q l -> 0 < q) -> 0 < np_mean l.
Proof.
  intros Hne H. unfold np_mean.
  apply Qlt_shift_div_l; [now apply Qlen_pos|].
  rewrite Qmult_0_l. now apply Qsum_pos.
Qed.

Lemma np_mean_3 (a b c : Q) : np_mean [a; b; c] == (a + b + c) / 3.
Proof. unfold np_mean, Qlen. cbn. field. Qed.

Lemma py_get_holds (marks : sdict pyval) (exam : string) (m : option Q) :
  Spec.holds marks exam m ->
  py_get (PDict marks) exam (PNum 0) = Ok (PNum (Spec.got m)).
Proof. unfold Spec.holds, py_get. intros ->. now destruct m. Qed.

(** For non-negative marks, "positive" and "present" select the same marks. *)
Lemma positive_is_present (ms : list (option Q)) :
  Spec.nonnegative ms ->
  positive_marks (map (fun m => PNum (Spec.got m)) ms) = Ok (Spec.present_values ms).
Proof.
  induction ms as [|m ms IH]; intro H; [reflexivity|].
  cbn. rewrite IH by (intros q Hq; apply H; now right). cbn.
  destruct m as [q|]; cbn.
  - assert (Hq : 0 <= q) by (apply H; now left).
    destruct (Qeq_bool q 0) eqn:E.
    + apply Qeq_bool_iff in E.
      assert (F : Qltb 0 q = false) by (apply Qltb_ge; lra). now rewrite F.
    + apply Qeq_bool_neq in E.
      assert (T : Qltb 0 q = true) by (apply Qltb_lt; lra). now rewrite T.
  - reflexivity.
Qed.

Lemma present_values_pos (ms : list (option Q)) :
  Spec.nonnegative ms -> forall q, In q (Spec.present_values ms) -> 0 < q.
Proof.
  intros H q Hq. unfold Spec.present_values in Hq.
  apply in_flat_map in Hq. destruct Hq as ([x|] & Hin & Hx); [|contradiction].
  destruct (Qeq_bool x 0) eqn:E; [contradiction|].
  destruct Hx as [<-|[]]. apply Qeq_bool_neq in E.
  specialize (H x Hin). lra.
Qed.

Lemma fill_missing_filled (m : option Q) (mu : Q) :
  0 < mu -> fill_missing (PNum (Spec.got m)) mu = PNum (Spec.filled m mu).
Proof.
  intro H. unfold fill_missing, py_eq0. cbn.
  apply Qltb_lt in H. rewrite H, andb_true_r.
  destruct m as [q|]; cbn; [now destruct (Qeq_bool q 0) | reflexivity].
Qed.

(** C4: when at least one internal mark is present, every missing internal
    (absent or zero) is replaced by the mean of the present ones and the
    average feature is the mean of the three values after filling; the
    vector ends with the subject encoding, the semester and (when the
    feature schema has it) the attendance. *)
Theorem features_fill_missing_with_mean (self : t) (d marks : sdict pyval)
  (m1 m2 m3 : option Q) :
  sget "marks" d = Some (PDict marks) ->
  Spec.holds marks "series_test_1" m1 ->
  Spec.holds marks "series_test_2" m2 ->
  Spec.holds marks "lab_internal" m3 ->
  Spec.nonnegative [m1; m2; m3] ->
  Spec.present_values [m1; m2; m3] <> [] ->
  let mu := np_mean (Spec.present_values [m1; m2; m3]) in
  let f1 := Spec.filled m1 mu in
  let f2 := Spec.filled m2 mu in
  let f3 := Spec.filled m3 mu in
  exists avg,
    _prepare_prediction_features self (PDict d) =
      Ok ([ PNum f1; PNum f2; PNum f3; PNum avg;
            PNum (match get_or "subject_type" d PNone with
                  | PStr s => if String.eqb s "lab" then 1 else 0
                  | _ => 0
                  end);
            get_or "semester" d (PNum 1) ]
          ++ (if existsb (String.eqb "attendance_percentage")
                         (feature_columns self)
              then [get_or "attendance_percentage" d (PNum 80)]
              else []))%list
    /\ avg == (f1 + f2 + f3) / 3.
Proof.
  intros Hm H1 H2 H3 Hnn Hne mu f1 f2 f3.
  exists (np_mean [f1; f2; f3]). split; [|apply np_mean_3].
  assert (Hmu : 0 < mu).
  { apply np_mean_pos; [exact Hne | now apply present_values_pos]. }
  unfold _prepare_prediction_features.
  unfold py_get at 1. unfold get_or at 1. rewrite Hm. cbn [bind].
  rewrite (py_get_holds _ _ _ H1), (py_get_holds _ _ _ H2),
    (py_get_holds _ _ _ H3). cbn [bind].
  pose proof (positive_is_present [m1; m2; m3] Hnn) as Hp. cbn [map] in Hp.
  rewrite Hp. cbn [bind].
  destruct (Spec.present_values [m1; m2; m3]) as [|p ps] eqn:E; [congruence|].
  fold mu. rewrite !fill_missing_filled by exact Hmu.
  fold f1 f2 f3. cbn [nums_of num_of bind].
  unfold py_get, get_or. cbn [bind].
  now destruct (existsb _ (feature_columns self)).
Qed.

Lemma features_fill_missing_witness :
  exists avg,
    _prepare_prediction_features (init "./models/")
      (PDict Samples.series_1_only)
      = Ok [ PNum 80; PNum 80; PNum 80; PNum avg; PNum 0; PNum 3; PNum 80 ]
    /\ avg == 80.
Proof.
  destruct (features_fill_missing_with_mean (init "./models/")
              Samples.series_1_only [ ("series_test_1", PNum 80) ]
              (Some 80) None None)
    as (avg & H & Havg); try reflexivity.
  - intros q [E | [E | [E | []]]]; inversion E; subst; lra.
  - cbn. discriminate.
  - exists avg. split; [exact H|]. rewrite Havg. reflexivity.
Defined.

(** *** Confidence *)

Lemma py_max_Qmax (a b : Q) : py_max a b == Qmax a b.
Proof.
  destruct (py_max_cases a b) as [[H ->] | [H ->]].
  - symmetry. apply Q.max_r. lra.
  - symmetry. apply Q.max_l. lra.
Qed.

Lemma clip_unit (x : Q) : py_max 0 (py_min 1 x) == Qmin 1 (Qmax 0 x).
Proof.
  destruct (Qlt_le_dec x 0) as [H | H].
  - rewrite (clip_below 0 1 x) by lra.
    rewrite (Q.max_l 0 x) by lra. rewrite Q.min_r; lra.
  - rewrite (Q.max_r 0 x) by lra.
    destruct (Qlt_le_dec 1 x) as [H1 | H1].
    + rewrite (clip_above 0 1 x) by lra. rewrite Q.min_l; lra.
    + rewrite (clip_inside 0 1 x) by lra. rewrite Q.min_r; lra.
Qed.

(** The two comprehensions of [_calculate_confidence] over the marks. *)
Lemma present_internals_spec (marks : sdict pyval) (exams : list string)
  (ms : list (option Q)) :
  Forall2 (Spec.holds marks) exams ms ->
  Spec.nonnegative ms ->
  present_internals (PDict marks) exams = Ok (Spec.present_values ms)
  /\ count_present (PDict marks) exams
       = Ok (List.length (Spec.present_values ms)).
Proof.
  induction 1 as [|exam m exams ms Hh _ IH]; intro Hnn; [now split|].
  destruct IH as [IH1 IH2]; [intros q Hq; apply Hnn; now right|].
  cbn [present_internals count_present].
  rewrite (py_get_holds _ _ _ Hh), IH1, IH2. cbn.
  destruct m as [q|]; cbn; [|now split].
  assert (Hq : 0 <= q) by (apply Hnn; now left).
  destruct (Qeq_bool q 0) eqn:E.
  - apply Qeq_bool_iff in E.
    assert (F : Qltb 0 q = false) by (apply Qltb_ge; lra). now rewrite F.
  - apply Qeq_bool_neq in E.
    assert (T : Qltb 0 q = true) by (apply Qltb_lt; lra). now rewrite T.
Qed.

Lemma confidence_value (self : t) (d marks : sdict pyval)
  (m1 m2 m3 : option Q) (feats : list pyval) :
  get_or "marks" d (PDict []) = PDict marks ->
  Spec.holds marks "series_test_1" m1 ->
  Spec.holds marks "series_test_2" m2 ->
  Spec.holds marks "lab_internal" m3 ->
  Spec.nonnegative [m1; m2; m3] ->
  let present := Spec.present_values [m1; m2; m3] in
  _calculate_confidence self (PDict d) feats =
    Ok (py_max 0 (py_min 1
          ((5 # 10) + (Qlen present / 3) * (3 # 10)
           + (if (2 <=? List.length present)%nat
              then py_max 0 ((100 - np_var present) / 100) * (2 # 10)
              else 0)))).
Proof.
  intros Hm H1 H2 H3 Hnn present.
  destruct (present_internals_spec marks internal_exams [m1; m2; m3])
    as [Hp Hc]; [repeat constructor; assumption | exact Hnn |].
  unfold _calculate_confidence. unfold py_get at 1.
  unfold get_or in Hm. rewrite Hm. cbn [bind].
  rewrite Hc, Hp. cbn [bind]. fold present. f_equal.
  destruct (2 <=? List.length present)%nat; [reflexivity|].
  unfold Qlen. f_equal. f_equal.
  generalize ((5 # 10) + inject_Z (Z.of_nat (Datatypes.length present)) / 3 * (3 # 10)).
  intro q. destruct q as [n dn]. unfold Qplus. cbn.
  now rewrite Z.mul_1_r, Z.add_0_r, Pos.mul_1_r.
Qed.

(** The score of the formula before clipping is never negative. *)
Lemma bonus_nonneg (present : list Q) :
  0 <= (if (2 <=? List.length present)%nat
        then py_max 0 ((100 - np_var present) / 100) * (2 # 10)
        else 0).
Proof.
  destruct (2 <=? List.length present)%nat; [|lra].
  destruct (py_max_cases 0 ((100 - np_var present) / 100))
    as [[H ->] | [H ->]]; lra.
Qed.

(** C6: the confidence score is 0.5 + (present marks / 3) * 0.3, plus, with
    at least two present marks, max(0, (100 - variance) / 100) * 0.2,
    clipped to [0, 1]; it lies in [0, 1]; and a record with all three
    internal marks present scores at least as high as a record with only
    one mark present. *)
Theorem confidence_score_formula (self : t) (d marks : sdict pyval)
  (m1 m2 m3 : option Q) (feats : list pyval) :
  get_or "marks" d (PDict []) = PDict marks ->
  Spec.holds marks "series_test_1" m1 ->
  Spec.holds marks "series_test_2" m2 ->
  Spec.holds marks "lab_internal" m3 ->
  Spec.nonnegative [m1; m2; m3] ->
  exists c,
    _calculate_confidence self (PDict d) feats = Ok c
    /\ c == Spec.confidence_formula (Spec.present_values [m1; m2; m3])
    /\ 0 <= c <= 1
    /\ forall (d' marks' : sdict pyval) (m1' m2' m3' : option Q)
          (feats' : list pyval),
        get_or "marks" d' (PDict []) = PDict marks' ->
        Spec.holds marks' "series_test_1" m1' ->
        Spec.holds marks' "series_test_2" m2' ->
        Spec.holds marks' "lab_internal" m3' ->
        Spec.nonnegative [m1'; m2'; m3'] ->
        List.length (Spec.present_values [m1; m2; m3]) = 3%nat ->
        List.length (Spec.present_values [m1'; m2'; m3']) = 1%nat ->
        exists c',
          _calculate_confidence self (PDict d') feats' = Ok c' /\ c' <= c.
Proof.
  intros Hm H1 H2 H3 Hnn.
  pose proof (confidence_value self d marks m1 m2 m3 feats Hm H1 H2 H3 Hnn)
    as Hc. cbv zeta in Hc.
  set (present := Spec.present_values [m1; m2; m3]) in *.
  eexists. split; [exact Hc|]. split; [|split].
  - rewrite clip_unit. unfold Spec.confidence_formula. fold present.
    destruct (2 <=? List.length present)%nat; [|reflexivity].
    now rewrite py_max_Qmax.
  - apply clip_range. lra.
  - intros d' marks' m1' m2' m3' feats' Hm' H1' H2' H3' Hnn' L3 L1.
    pose proof (confidence_value self d' marks' m1' m2' m3' feats'
                  Hm' H1' H2' H3' Hnn') as Hc'. cbv zeta in Hc'.
    set (present' := Spec.present_values [m1'; m2'; m3']) in *.
    eexists. split; [exact Hc'|].
    pose proof (bonus_nonneg present) as Hb.
    unfold Qlen. rewrite L1, L3. rewrite L3 in Hb.
    cbn [Nat.leb Z.of_nat Pos.of_succ_nat Pos.succ inject_Z] in *.
    revert Hb. generalize (py_max 0 ((100 - np_var present) / 100) * (2 # 10)).
    intros b Hb.
    assert (E1 : (5 # 10) + inject_Z 1 / 3 * (3 # 10) + 0 == 6 # 10)
      by reflexivity.
    assert (E3 : (5 # 10) + inject_Z 3 / 3 * (3 # 10) + b == (8 # 10) + b)
      by (change (inject_Z 3 / 3 * (3 # 10)) with (9 # 30); lra).
    rewrite (clip_inside 0 1 _) by (rewrite E1; split; lra). rewrite E1.
    destruct (Qlt_le_dec 1 ((8 # 10) + b)) as [Hgt | Hle].
    + rewrite (clip_above 0 1) by (rewrite ?E3; lra). lra.
    + rewrite (clip_inside 0 1) by (rewrite E3; split; lra). rewrite E3. lra.
Qed.

Lemma confidence_score_witness :
  exists c,
    _calculate_confidence (init "./models/") (PDict Samples.complete_student) []
      = Ok c
    /\ 0 <= c <= 1.
Proof.
  destruct (confidence_score_formula (init "./models/")
              Samples.complete_student
              [ ("series_test_1", PNum 80); ("series_test_2", PNum 82);
                ("lab_internal", PNum 81) ]
              (Some 80) (Some 82) (Some 81) [])
    as (c & H & _ & Hrange & _); try reflexivity.
  - intros q [E | [E | [E | []]]]; inversion E; subst; lra.
  - exists c. split; assumption.
Defined.

(** *** Model resolution *)

Lemma sget_of_key {V} (k : string) (d : sdict V) :
  In k (dict_keys d) -> exists v, sget k d = Some v.
Proof.
  induction d as [|[k' v'] d IH]; [contradiction|].
  cbn. intros [-> | H].
  - exists v'. now rewrite String.eqb_refl.
  - destruct (String.eqb k k'); [now exists v' | now apply IH].
Qed.

(** C2, as the code has it: production-best first, then the first
    registered production model, then the model of the key chosen by the
    request ([subject_<id>] when a subject is named, [general] when none
    is), from the registry or else from its file; a request that names a
    subject never uses the general model, and when the chosen key is
    neither registered nor on disk the prediction is reported as failed. *)
Theorem resolution_priority (self : t) (fs : filesystem) (sid : option Z) :
  let key := subject_key_of sid in
  let path :=
    os_path_join (model_path self)
      (key ++ "_model_" ++ model_version self ++ ".joblib") in
  let production :=
    filter (startswith "production_") (dict_keys (models self)) in
  (forall m, sget "production_best" (models self) = Some m ->
     resolve_model self fs sid = Ok (self, "production_best", m))
  /\ (sget "production_best" (models self) = None ->
      forall k rest, production = k :: rest ->
      exists m, sget k (models self) = Some m
                /\ resolve_model self fs sid = Ok (self, k, m))
  /\ (sget "production_best" (models self) = None -> production = [] ->
      (forall m, sget key (models self) = Some m ->
         resolve_model self fs sid = Ok (self, key, m))
      /\ (sget key (models self) = None ->
          forall m, fs path = Some (Ok m) ->
          resolve_model self fs sid =
            Ok (set_models self (sset key m (models self)), key, m))
      /\ (sget key (models self) = None -> fs path = None ->
          resolve_model self fs sid = Raise (ValueError no_model_found)
          /\ forall sd,
               predict_university_marks self fs sd sid =
                 (self, [ ("success", PBool false);
                          ("error", PStr no_model_found) ])))
  /\ (forall n, n <> 0%Z ->
        subject_key_of (Some n) = "subject_" ++ str_int n
        /\ subject_key_of (Some n) <> "general")
  /\ subject_key_of None = "general"
  /\ subject_key_of (Some 0%Z) = "general".
Proof.
  intros key path production. repeat split.
  - intros m H. unfold resolve_model. now rewrite H.
  - intros Hb k rest Hk.
    destruct (sget_of_key k (models self)) as [m Hm].
    { assert (Hin : In k production) by (rewrite Hk; now left).
      apply filter_In in Hin. tauto. }
    exists m. split; [exact Hm|].
    unfold resolve_model. rewrite Hb. fold production. rewrite Hk.
    now rewrite Hm.
  - intros m Hm. unfold resolve_model. rewrite H. fold production.
    rewrite H0. fold key. now rewrite Hm.
  - intros Hn m Hf. unfold resolve_model. rewrite H. fold production.
    rewrite H0. fold key. rewrite Hn. fold path. now rewrite Hf.
  - unfold resolve_model. rewrite H. fold production.
    rewrite H0. fold key. rewrite H1. fold path. now rewrite H2.
  - intro sd. unfold predict_university_marks, resolve_model.
    rewrite H. fold production. rewrite H0. fold key. rewrite H1.
    fold path. now rewrite H2.
  - unfold subject_key_of. destruct (Z.eqb_spec n 0); [contradiction|reflexivity].
  - unfold subject_key_of. destruct (Z.eqb_spec n 0); [contradiction|].
    cbn. discriminate.
Qed.

Lemma resolution_priority_witness :
  resolve_model Samples.both_registered Samples.no_files (Some 1%Z)
    = Ok (Samples.both_registered, "production_best", Samples.production_model)
  /\ resolve_model Samples.general_only Samples.no_files None
    = Ok (Samples.general_only, "general", Samples.general_model).
Proof.
  split.
  - apply (proj1 (resolution_priority Samples.both_registered
                    Samples.no_files (Some 1%Z))).
    reflexivity.
  - destruct (resolution_priority Samples.general_only Samples.no_files None)
      as (_ & _ & H & _).
    destruct H as [H _]; [reflexivity | reflexivity | apply H; reflexivity].
Defined.

(** C2 as stated fails: with only a general model registered, a request
    for subject 1 is not served by the general model; it fails. *)
Lemma general_model_not_used_for_subject :
  resolve_model Samples.general_only Samples.no_files (Some 1%Z)
    = Raise (ValueError no_model_found)
  /\ ~ (exists self' m,
          resolve_model Samples.general_only Samples.no_files (Some 1%Z)
            = Ok (self', "general", m)).
Proof.
  assert (E : resolve_model Samples.general_only Samples.no_files (Some 1%Z)
              = Raise (ValueError no_model_found)) by reflexivity.
  split; [exact E|]. intros (self' & m & H). rewrite E in H. discriminate.
Qed.

(** *** Batch prediction *)

Lemma predict_state (self : t) (fs : filesystem) (sd : pyval) (sid : option Z) :
  fst (predict_university_marks self fs sd sid) = Spec.registry_after self fs sid.
Proof.
  unfold predict_university_marks, Spec.registry_after.
  now destruct (resolve_model self fs sid) as [[[self' key] m] | e].
Qed.

Lemma subject_key_not_production (sid : option Z) :
  subject_key_of sid <> "production_best"
  /\ startswith "production_" (subject_key_of sid) = false.
Proof.
  unfold subject_key_of.
  destruct sid as [n|]; [destruct (Z.eqb n 0)|]; split;
    try discriminate; reflexivity.
Qed.

(** Resolving again after a resolution gives the same model and leaves the
    registry as it is: the only change a prediction makes is to cache the
    model it loaded under the key it asked for. *)
Lemma resolve_stable (self self' : t) (fs : filesystem) (sid : option Z)
  (key : string) (m : model) :
  resolve_model self fs sid = Ok (self', key, m) ->
  resolve_model self' fs sid = Ok (self', key, m)
  /\ feature_columns self' = feature_columns self
  /\ model_version self' = model_version self.
Proof.
  unfold resolve_model.
  destruct (sget "production_best" (models self)) as [mb|] eqn:Hb.
  { intro E. injection E as <- <- <-. now rewrite Hb. }
  destruct (filter (startswith "production_") (dict_keys (models self)))
    as [|k ks] eqn:Hk.
  2:{ destruct (sget k (models self)) as [mk|] eqn:Hm; [|discriminate].
      intro E. injection E as <- <- <-. now rewrite Hb, Hk, Hm. }
  destruct (sget (subject_key_of sid) (models self)) as [ms|] eqn:Hs.
  { intro E. injection E as <- <- <-. now rewrite Hb, Hk, Hs. }
  destruct (fs _) as [[ml | e] |] eqn:Hf; cbn [bind]; try discriminate.
  intro E. injection E as <- <- <-. cbn [models set_models model_version
    model_path feature_columns].
  destruct (subject_key_not_production sid) as [Hne Hp].
  rewrite sget_sset_other by (intro E; now symmetry in E).
  rewrite Hb, (filter_keys_sset _ _ _ _ Hp), Hk, sget_sset_same.
  repeat split.
Qed.

Lemma registry_after_idem (self : t) (fs : filesystem) (sid : option Z) :
  Spec.registry_after (Spec.registry_after self fs sid) fs sid
  = Spec.registry_after self fs sid.
Proof.
  unfold Spec.registry_after at 2 3.
  destruct (resolve_model self fs sid) as [[[self' key] m] | e] eqn:E.
  - unfold Spec.registry_after.
    now rewrite (proj1 (resolve_stable _ _ _ _ _ _ E)).
  - unfold Spec.registry_after. now rewrite E.
Qed.

Lemma predict_after (self : t) (fs : filesystem) (sd : pyval)
  (sid : option Z) :
  snd (predict_university_marks (Spec.registry_after self fs sid) fs sd sid)
  = snd (predict_university_marks self fs sd sid).
Proof.
  unfold Spec.registry_after.
  destruct (resolve_model self fs sid) as [[[self' key] m] | e] eqn:E;
    [|reflexivity].
  destruct (resolve_stable _ _ _ _ _ _ E) as (E' & _ & _).
  unfold predict_university_marks. now rewrite E, E'.
Qed.

Lemma batch_item_dict (self : t) (fs : filesystem) (d : sdict pyval)
  (sid : option Z) :
  batch_predict_item self fs (PDict d) sid =
    (Spec.registry_after self fs sid,
     Ok (Spec.annotated d (snd (predict_university_marks self fs (PDict d) sid)))).
Proof.
  unfold batch_predict_item.
  rewrite (surjective_pairing (predict_university_marks self fs (PDict d) sid)).
  now rewrite predict_state.
Qed.

Lemma batch_predict_dicts (fs : filesystem) (sid : option Z)
  (ds : list (sdict pyval)) :
  forall self,
    batch_predict self fs (map PDict ds) sid =
      (match ds with [] => self | _ => Spec.registry_after self fs sid end,
       Ok (map (fun d =>
                  Spec.annotated d
                    (snd (predict_university_marks self fs (PDict d) sid)))
               ds)).
Proof.
  induction ds as [|d ds IH]; intro self; [reflexivity|].
  cbn [map batch_predict]. rewrite batch_item_dict, IH.
  f_equal.
  - destruct ds; [reflexivity | apply registry_after_idem].
  - f_equal. f_equal. apply map_ext. intro d'. now rewrite predict_after.
Qed.

(** A prediction is a success dictionary or a failure dictionary. *)
Lemma predict_outcome (self : t) (fs : filesystem) (sd : pyval)
  (sid : option Z) :
  let r := snd (predict_university_marks self fs sd sid) in
  sget "success" r = Some (PBool true)
  \/ exists e, r = failure e.
Proof.
  unfold predict_university_marks.
  destruct (resolve_model self fs sid) as [[[self' key] m] | e];
    [|right; now exists e].
  cbn [snd].
  match goal with
  | |- context [try_except ?c _] => destruct c as [r | e] eqn:E
  end; [left | right; now exists e].
  destruct (_prepare_prediction_features self' sd) as [feats|];
    [|discriminate]. cbn [bind] in E.
  destruct (predict m feats); [|discriminate]. cbn [bind] in E.
  destruct (_calculate_confidence self' sd feats); [|discriminate].
  cbn [bind] in E.
  destruct (py_get sd "student_id" PNone); [|discriminate].
  cbn [bind] in E. injection E as <-. reflexivity.
Qed.

End PredictorFacts.

(** ** The training table *)

Module TrainingFacts.
Import PredictionService PredictorFacts.

Lemma filter_positive_present (ms : list (option Q)) :
  Spec.nonnegative ms ->
  filter (Qltb 0) (map Spec.got ms) = Spec.present_values ms.
Proof.
  induction ms as [|m ms IH]; intro H; [reflexivity|].
  cbn [map filter]. rewrite IH by (intros q Hq; apply H; now right).
  destruct m as [q|]; cbn; [|reflexivity].
  assert (Hq : 0 <= q) by (apply H; now left).
  destruct (Qeq_bool q 0) eqn:E.
  - apply Qeq_bool_iff in E.
    assert (F : Qltb 0 q = false) by (apply Qltb_ge; lra). now rewrite F.
  - apply Qeq_bool_neq in E.
    assert (T : Qltb 0 q = true) by (apply Qltb_lt; lra). now rewrite T.
Qed.

Lemma sin_sget {V} (k : string) (d : sdict V) :
  sin k d = match sget k d with Some _ => true | None => false end.
Proof. reflexivity. Qed.

(** C9: in the training table an internal mark counts as present when its
    key is in the group, also at percentage 0; only an absent key is
    imputed (with the mean of the strictly positive marks); a
    present-but-zero mark enters the record as it is and is averaged in as
    0.  The prediction-time feature builder instead replaces a zero mark
    by the mean. *)
Theorem training_keeps_zero_marks (data : group) (u : Q)
  (m1 m2 m3 : option Q) :
  sget "university" (g_marks data) = Some u ->
  sget "series_test_1" (g_marks data) = m1 ->
  sget "series_test_2" (g_marks data) = m2 ->
  sget "lab_internal" (g_marks data) = m3 ->
  Spec.nonnegative [m1; m2; m3] ->
  let mu := Spec.mean_or_zero (Spec.present_values [m1; m2; m3]) in
  let s1 := Spec.imputed m1 mu in
  let s2 := Spec.imputed m2 mu in
  let s3 := Spec.imputed m3 mu in
  training_record data =
    (if (2 <=? Spec.keys_present [m1; m2; m3])%nat
     then Some [ ("student_id", inject_Z (g_student_id data));
                 ("subject_id", inject_Z (g_subject_id data));
                 ("series_test_1_percentage", s1);
                 ("series_test_2_percentage", s2);
                 ("lab_internal_percentage", s3);
                 ("average_internal_percentage", np_mean [s1; s2; s3]);
                 ("subject_type_encoded",
                   if String.eqb (g_subject_type data) "lab" then 1 else 0);
                 ("semester", inject_Z (g_semester data));
                 ("university_percentage", u) ]
     else None)
  /\ np_mean [s1; s2; s3] == (s1 + s2 + s3) / 3
  /\ (forall m z, In m [m1; m2; m3] -> m = Some z -> z == 0 ->
        Spec.imputed m mu = z
        /\ (1 <= Spec.keys_present [m1; m2; m3])%nat
        /\ (Spec.present_values [m1; m2; m3] <> [] ->
            Spec.filled m mu = mu /\ 0 < mu))
  /\ (Spec.present_values [m1; m2; m3] <> [] ->
      forall (self : t) (d marks : sdict pyval),
        sget "marks" d = Some (PDict marks) ->
        Spec.holds marks "series_test_1" m1 ->
        Spec.holds marks "series_test_2" m2 ->
        Spec.holds marks "lab_internal" m3 ->
        exists rest,
          _prepare_prediction_features self (PDict d) =
            Ok (PNum (Spec.filled m1 mu) :: PNum (Spec.filled m2 mu)
                  :: PNum (Spec.filled m3 mu) :: rest)).
Proof.
  intros Hu H1 H2 H3 Hnn mu s1 s2 s3.
  split; [|split; [apply np_mean_3 | split]].
  - assert (Ha : filter (Qltb 0)
                   (map (fun exam => get_or exam (g_marks data) 0)
                        internal_exams)
                 = Spec.present_values [m1; m2; m3]).
    { rewrite <- filter_positive_present by exact Hnn.
      unfold internal_exams, get_or. cbn [map]. now rewrite H1, H2, H3. }
    unfold training_record. rewrite Ha, sin_sget, Hu.
    change (match Spec.present_values [m1; m2; m3] with
            | [] => 0
            | _ :: _ => np_mean (Spec.present_values [m1; m2; m3])
            end) with mu.
    unfold internal_exams. cbn [filter]. rewrite !sin_sget.
    unfold get_or. rewrite H1, H2, H3, Hu.
    unfold Spec.keys_present, s1, s2, s3.
    destruct m1, m2, m3; reflexivity.
  - intros m z Hin -> Hz. split; [reflexivity|]. split.
    + unfold Spec.keys_present.
      destruct Hin as [E | [E | [E | []]]]; rewrite E; cbn;
        repeat match goal with
               | |- context [match ?m with Some _ => _ | None => _ end] =>
                   destruct m
               end; cbn; lia.
    + intro Hne. split.
      * cbn. apply Qeq_bool_iff in Hz. now rewrite Hz.
      * unfold mu, Spec.mean_or_zero.
        destruct (Spec.present_values [m1; m2; m3]) eqn:E; [congruence|].
        rewrite <- E. apply np_mean_pos; [congruence|].
        now apply present_values_pos.
  - intros Hne self d marks Hm G1 G2 G3.
    assert (Emu : mu = np_mean (Spec.present_values [m1; m2; m3])).
    { unfold mu, Spec.mean_or_zero.
      destruct (Spec.present_values [m1; m2; m3]); [congruence | reflexivity]. }
    assert (Hmu : 0 < mu).
    { rewrite Emu. apply np_mean_pos; [exact Hne | now apply present_values_pos]. }
    unfold _prepare_prediction_features.
    unfold py_get at 1. rewrite Hm. cbn [bind].
    rewrite (py_get_holds _ _ _ G1), (py_get_holds _ _ _ G2),
      (py_get_holds _ _ _ G3). cbn [bind].
    pose proof (positive_is_present [m1; m2; m3] Hnn) as Hp. cbn [map] in Hp.
    rewrite Hp. cbn [bind].
    destruct (Spec.present_values [m1; m2; m3]) as [|p l] eqn:E; [congruence|].
    rewrite <- Emu.
    rewrite !fill_missing_filled by exact Hmu.
    cbn [nums_of num_of bind]. unfold py_get, get_or. cbn [bind].
    destruct (existsb _ (feature_columns self)); eexists; reflexivity.
Qed.

Lemma training_keeps_zero_marks_witness :
  training_record Samples.zero_mark_group =
    Some [ ("student_id", 1); ("subject_id", 1);
           ("series_test_1_percentage", 0);
           ("series_test_2_percentage", 80);
           ("lab_internal_percentage", np_mean [80]);
           ("average_internal_percentage", np_mean [0; 80; np_mean [80]]);
           ("subject_type_encoded", 0); ("semester", 3);
           ("university_percentage", 70) ].
Proof.
  destruct (training_keeps_zero_marks Samples.zero_mark_group 70
              (Some 0) (Some 80) None) as [H _];
    [reflexivity | reflexivity | reflexivity | reflexivity | | exact H].
  intros q [E | [E | [E | []]]]; inversion E; subst; lra.
Defined.

(** *** The training entry point *)

(** The keys of a training record: there is no attendance column. *)
Lemma training_record_keys (data : group) (record : sdict Q) :
  training_record data = Some record ->
  dict_keys record =
    [ "student_id"; "subject_id"; "series_test_1_percentage";
      "series_test_2_percentage"; "lab_internal_percentage";
      "average_internal_percentage"; "subject_type_encoded"; "semester";
      "university_percentage" ].
Proof.
  unfold training_record.
  destruct (sin "university" (g_marks data)); [|discriminate].
  destruct (2 <=? _)%nat; [|discriminate].
  intro E. injection E as <-. reflexivity.
Qed.

Lemma training_records_keys (groups : list group) (record : sdict Q)
  (rest : list (sdict Q)) :
  training_records groups = record :: rest ->
  exists data, training_record data = Some record.
Proof.
  induction groups as [|g gs IH]; [discriminate|]. cbn.
  destruct (training_record g) as [r|] eqn:E; [|exact IH].
  intro H. injection H as -> _. now exists g.
Qed.

Lemma group_marks_error (marks_data : list mark) :
  forall acc e,
    group_marks marks_data acc = Raise e ->
    e = ZeroDivisionError "division by zero".
Proof.
  induction marks_data as [|mk rest IH]; intros acc e; [discriminate|].
  cbn [group_marks]. unfold percentage_of.
  destruct (Qeq_bool (m_max_marks mk) 0); cbn [bind].
  - intro H. now injection H as <-.
  - apply IH.
Qed.

(** With the feature schema that [__init__] sets, the table cannot be
    built: the records have no [attendance_percentage] column. *)
Lemma prepare_training_data_default_schema (path : string)
  (marks_data : list mark) :
  exists e,
    prepare_training_data (init path) marks_data = Raise e
    /\ (e = ZeroDivisionError "division by zero"
        \/ e = ValueError
                 "No valid training data found. Need students with university marks and internal assessments."
        \/ e = KeyError "['attendance_percentage'] not in index").
Proof.
  unfold prepare_training_data.
  destruct (group_marks marks_data []) as [groups | e] eqn:G.
  2:{ exists e. split; [reflexivity|]. left. exact (group_marks_error _ _ _ G). }
  cbn [bind].
  destruct (training_records (dict_values groups)) as [|r rs] eqn:E.
  { eexists. split; [reflexivity|]. right. now left. }
  destruct (training_records_keys _ _ _ E) as [data Hd].
  unfold select_columns at 1. unfold frame_columns.
  rewrite (training_record_keys _ _ Hd). cbn.
  eexists. split; [reflexivity|]. right. now right.
Qed.

(** The definition at line 121 reports every failure as a result
    dictionary. *)
Lemma train_model_L121_reports (sk : sklearn) (self : t) (fs : filesystem)
  (a b : tval) :
  Spec.is_result_dict (snd (train_model_L121 sk self fs a b)) = true.
Proof.
  unfold train_model_L121.
  match goal with
  | |- context [match ?body with Ok _ => _ | Raise _ => _ end] =>
      destruct body as [[[X_train X_test] st] | e]
  end; [|reflexivity].
  destruct (best_model st), (best_model_name st); reflexivity.
Qed.

(** ... and reports fewer than ten rows as insufficient training data. *)
Lemma train_model_L121_insufficient (sk : sklearn) (self : t)
  (fs : filesystem) (marks_data : list mark) (subject_id : tval)
  (X : list (list Q)) (y : list Q) :
  prepare_training_data self marks_data = Ok (X, y) ->
  (List.length X < 10)%nat ->
  train_model_L121 sk self fs (TMarks marks_data) subject_id =
    (self, fs,
     Ok (RetDict
           [ ("success", PBool false);
             ("error",
               PStr ("Insufficient training data: "
                     ++ str_int (Z.of_nat (List.length X))
                     ++ " records. Need at least 10 records.")) ])).
Proof.
  intros Hp Hlt. unfold train_model_L121. cbn [bind]. rewrite Hp. cbn [bind].
  apply Nat.ltb_lt in Hlt. now rewrite Hlt.
Qed.

(** *** The selection loop of the definition at line 121 *)

Section Selection.
Variables (sk : sklearn) (X_train y_train X_test y_test : tval).

Let eval (c : string * estimator) : res (model * Q * pyval) :=
  evaluate sk (snd c) X_train y_train X_test y_test.

Let run (cands : sdict estimator) (st : selection) : res selection :=
  try_models sk cands X_train y_train X_test y_test st.

(** [b] is no worse than the running best. *)
Let beats (mae : Q) (best : option Q) : Prop :=
  match best with Some b => mae < b | None => True end.

Lemma improves_beats (mae : Q) (best : option Q) :
  improves mae best = true <-> beats mae best.
Proof.
  destruct best as [b|]; cbn; [apply Qltb_lt | tauto].
Qed.

(** Either the running best survives the loop, with no candidate strictly
    better, or the loop ends on a candidate that is strictly better than
    the running best and than every candidate before it, and no worse
    than every candidate after it. *)
Lemma try_models_invariant (cands : sdict estimator) :
  forall st0 st,
    run cands st0 = Ok st ->
    (best_model st = best_model st0 /\ best_score st = best_score st0
     /\ best_model_name st = best_model_name st0
     /\ forall c m mae e, In c cands -> eval c = Ok (m, mae, e) ->
          ~ beats mae (best_score st0))
    \/ exists before name est after m mae e,
         cands = (before ++ (name, est) :: after)%list
         /\ eval (name, est) = Ok (m, mae, e)
         /\ best_model st = Some m /\ best_score st = Some mae
         /\ best_model_name st = Some name
         /\ beats mae (best_score st0)
         /\ (forall c m' mae' e', In c before ->
               eval c = Ok (m', mae', e') -> mae < mae')
         /\ (forall c m' mae' e', In c after ->
               eval c = Ok (m', mae', e') -> mae <= mae').
Proof.
  induction cands as [|[n0 e0] rest IH]; intros st0 st H.
  { left. unfold run in H. cbn in H. assert (st = st0) by congruence.
    subst st. repeat split. intros c ? ? ? []. }
  unfold run in H. cbn [try_models] in H. change (evaluate sk e0 X_train y_train X_test y_test)
    with (eval (n0, e0)) in H.
  destruct (eval (n0, e0)) as [[[m0 mae0] en0] | ex] eqn:E0;
    cbn [bind] in H; [|discriminate].
  fold (run rest) in H.
  unfold update_selection in H.
  destruct (improves mae0 (best_score st0)) eqn:I.
  - apply improves_beats in I.
    destruct (IH _ _ H) as [(Hm & Hs & Hn & Hall) | Hex]; cbn in *.
    + right. exists [], n0, e0, rest, m0, mae0, en0.
      repeat split; auto; try (intros ? ? ? ? []).
      intros c m' mae' e' Hin Hc.
      apply Qnot_lt_le. exact (Hall c m' mae' e' Hin Hc).
    + destruct Hex as (before & name & est & after & m & mae & e & -> & He
                       & Hm & Hs & Hn & Hb & Hbefore & Hafter).
      right. exists ((n0, e0) :: before), name, est, after, m, mae, e.
      repeat split; auto.
      * destruct (best_score st0); cbn in *; [lra | exact Logic.I].
      * intros c m' mae' e' [<- | Hin] Hc; [|eauto].
        rewrite E0 in Hc. injection Hc as _ <- _. exact Hb.
  - assert (Hno : ~ beats mae0 (best_score st0)).
    { intro Hb. apply improves_beats in Hb. congruence. }
    destruct (IH _ _ H) as [(Hm & Hs & Hn & Hall) | Hex]; cbn in *.
    + left. repeat split; auto.
      intros c m' mae' e' [<- | Hin] Hc; [|eauto].
      rewrite E0 in Hc. injection Hc as _ <- _. exact Hno.
    + destruct Hex as (before & name & est & after & m & mae & e & -> & He
                       & Hm & Hs & Hn & Hb & Hbefore & Hafter).
      right. exists ((n0, e0) :: before), name, est, after, m, mae, e.
      repeat split; auto.
      intros c m' mae' e' [<- | Hin] Hc; [|eauto].
      rewrite E0 in Hc. injection Hc as _ <- _.
      destruct (best_score st0) as [b|]; cbn in *; [|tauto].
      apply Qnot_lt_le in Hno. lra.
Qed.

(** Every candidate that was tried has its metrics in the results. *)
Lemma try_models_results (cands : sdict estimator) :
  forall st0 st,
    run cands st0 = Ok st ->
    (forall k, sin k (model_results st0) = true ->
               sin k (model_results st) = true)
    /\ forall c, In c cands -> sin (fst c) (model_results st) = true.
Proof.
  induction cands as [|[n0 e0] rest IH]; intros st0 st H.
  { unfold run in H. cbn in H. assert (st = st0) by congruence.
    subst st. split; [auto | intros c []]. }
  unfold run in H. cbn [try_models] in H. change (evaluate sk e0 X_train y_train X_test y_test)
    with (eval (n0, e0)) in H.
  destruct (eval (n0, e0)) as [[[m0 mae0] en0] | ex];
    cbn [bind] in H; [|discriminate].
  fold (run rest) in H.
  destruct (IH _ _ H) as [Hkeep _].
  assert (Hset : forall k,
            sin k (sset n0 en0 (model_results st0)) = true ->
            sin k (model_results st) = true).
  { intros k Hk. apply Hkeep. unfold update_selection.
    destruct (improves mae0 (best_score st0)); exact Hk. }
  split.
  - intros k Hk. apply Hset. unfold sin, dict_in in *.
    destruct (String.eqb_spec k n0) as [-> | Hne].
    + fold (@sget pyval). now rewrite sget_sset_same.
    + fold (@sget pyval) in *. now rewrite sget_sset_other.
  - intros c [<- | Hin]; [|now apply (IH _ _ H)].
    apply Hset. unfold sin, dict_in. fold (@sget pyval).
    now rewrite sget_sset_same.
Qed.

(** Had the loop run, it would keep the first candidate of lowest MAE. *)
Lemma try_models_first_minimum (cands : sdict estimator) (st : selection) :
  cands <> [] ->
  run cands selection0 = Ok st ->
  exists before name est after m mae e,
    cands = (before ++ (name, est) :: after)%list
    /\ eval (name, est) = Ok (m, mae, e)
    /\ best_model st = Some m /\ best_score st = Some mae
    /\ best_model_name st = Some name
    /\ (forall c m' mae' e', In c before ->
          eval c = Ok (m', mae', e') -> mae < mae')
    /\ (forall c m' mae' e', In c after ->
          eval c = Ok (m', mae', e') -> mae <= mae')
    /\ (forall c, In c cands -> sin (fst c) (model_results st) = true).
Proof.
  intros Hne H.
  destruct (try_models_results _ _ _ H) as [_ Hres].
  destruct (try_models_invariant _ _ _ H) as [(_ & _ & _ & Hall) | Hex].
  - exfalso. destruct cands as [|c0 rest]; [congruence|].
    unfold run in H. cbn [try_models] in H. destruct c0 as [n0 e0].
    change (evaluate sk e0 X_train y_train X_test y_test)
    with (eval (n0, e0)) in H.
    destruct (eval (n0, e0)) as [[[m0 mae0] en0] | ex] eqn:E0;
      cbn [bind] in H; [|discriminate].
    apply (Hall (n0, e0) m0 mae0 en0); [now left | exact E0 | exact Logic.I].
  - destruct Hex as (before & name & est & after & m & mae & e & Hc & He
                     & Hm & Hs & Hn & _ & Hbefore & Hafter).
    exists before, name, est, after, m, mae, e. repeat split; auto.
Qed.

End Selection.

(** With a feature schema whose columns the records have, the definition
    at line 121 would persist the first candidate of lowest MAE and return
    the metrics of every candidate. *)
Lemma train_model_L121_success (sk : sklearn) (self : t) (fs : filesystem)
  (marks_data : list mark) (subject_id : tval)
  (X : list (list Q)) (y : list Q) (X_train X_test y_train y_test : tval)
  (st : selection) (n_train n_test : nat) :
  prepare_training_data self marks_data = Ok (X, y) ->
  (10 <= List.length X)%nat ->
  train_test_split sk (TFrame X) (TSeries y)
    = Ok (X_train, X_test, y_train, y_test) ->
  try_models sk models_to_try X_train y_train X_test y_test selection0
    = Ok st ->
  tval_len X_train = Ok n_train -> tval_len X_test = Ok n_test ->
  let model_key :=
    subject_key_of (match subject_id with TInt n => Some n | _ => None end) in
  let model_filepath :=
    os_path_join (model_path self)
      (model_key ++ "_model_" ++ model_version self ++ ".joblib") in
  exists best best_name performance,
    best_model st = Some best /\ best_model_name st = Some best_name
    /\ sget best_name (model_results st) = Some performance
    /\ train_model_L121 sk self fs (TMarks marks_data) subject_id =
         (set_models self (sset model_key best (models self)),
          fs_write model_filepath best fs,
          Ok (RetDict
                [ ("success", PBool true);
                  ("model_version", PStr (model_version self));
                  ("best_model", PStr best_name);
                  ("training_samples", pynat n_train);
                  ("test_samples", pynat n_test);
                  ("model_performance", performance);
                  ("all_models_performance", PDict (model_results st));
                  ("feature_importance",
                    PDict (match feature_importances_ best with
                           | Some imp =>
                               dict_zip (feature_columns self) (map PNum imp)
                           | None => []
                           end));
                  ("model_path", PStr model_filepath) ])).
Proof.
  intros Hp Hlen Hsplit Hrun Htr Hte model_key model_filepath.
  destruct (try_models_first_minimum sk X_train y_train X_test y_test
              models_to_try st) as
    (before & name & est & after & m & mae & e & Hc & _ & Hm & _ & Hn & _ & _
     & Hres); [discriminate | exact Hrun |].
  assert (Hin : In (name, est) models_to_try)
    by (rewrite Hc; apply in_or_app; right; now left).
  specialize (Hres _ Hin). cbn [fst] in Hres.
  unfold sin, dict_in in Hres. fold (@sget pyval) in Hres.
  destruct (sget name (model_results st)) as [performance|] eqn:Hperf;
    [|discriminate].
  exists m, name, performance. repeat split; auto.
  unfold train_model_L121. cbn [bind]. rewrite Hp. cbn [bind].
  assert (L : (List.length X <? 10)%nat = false) by (apply Nat.ltb_ge; lia).
  rewrite L, Hsplit. cbn [bind]. rewrite Hrun. cbn [bind].
  rewrite Hm, Hn, Htr, Hte. cbn [bind]. now rewrite Hperf.
Qed.

(** The definition at line 560 gives back a tuple or raises. *)
Lemma train_model_L560_no_dict (sk : sklearn) (self : t) (fs : filesystem)
  (a b : tval) :
  Spec.is_result_dict (snd (train_model_L560 sk self fs a b)) = false.
Proof.
  unfold train_model_L560. cbn [snd].
  destruct (train_test_split sk a b) as [[[[X_train X_test] y_train] y_test] | e];
    [|reflexivity]. cbn [bind].
  destruct (fit sk RandomForest_100 X_train y_train) as [m|]; [|reflexivity].
  cbn [bind].
  destruct (model_predict m X_test) as [y_pred|]; [|reflexivity].
  cbn [bind].
  destruct (series_of y_test) as [y_true|]; [|reflexivity]. cbn [bind].
  destruct (mean_squared_error y_true y_pred); [|reflexivity]. cbn [bind].
  destruct (mean_absolute_error y_true y_pred); [|reflexivity]. cbn [bind].
  destruct (r2_score sk y_true y_pred); reflexivity.
Qed.

(** C1 (defect): [train_model] is defined twice in the class; the call
    reaches the later definition (line 560), which has no row-count check
    and no exception handler: it never gives back a result dictionary, and
    what [train_test_split] raises escapes the call. *)
Theorem train_model_is_the_later_definition (sk : sklearn) (self : t)
  (fs : filesystem) (a b : tval) :
  sget "train_model" class_namespace = Some train_model_L560
  /\ train_model sk self fs a b = train_model_L560 sk self fs a b
  /\ Spec.is_result_dict (snd (train_model sk self fs a b)) = false
  /\ match train_test_split sk a b with
     | Raise e => snd (train_model sk self fs a b) = Raise e
     | Ok _ => True
     end
  /\ snd (train_model Samples.strict_sklearn (init "./models/")
            Samples.no_files (TMarks Samples.one_mark) (TInt 1))
     = Raise (TypeError
                "Singleton array cannot be considered a valid collection.")
  /\ snd (App.train_model Samples.strict_sklearn (init "./models/")
            Samples.no_files (Some 1%Z) Samples.one_mark)
     = ([ ("success", PBool false);
          ("error",
            PStr "Singleton array cannot be considered a valid collection.") ],
        500%Z).
Proof.
  split; [reflexivity|]. split; [reflexivity|]. split; [|split].
  - apply train_model_L560_no_dict.
  - destruct (train_test_split sk a b) eqn:E; [exact Logic.I|].
    unfold train_model. cbn. now rewrite E.
  - split; reflexivity.
Qed.

(** X16: Through the [/train] route the training call never succeeds: the
    response is an error with status 500, or 400 when there is no data. *)
Lemma train_route_never_succeeds (sk : sklearn) (self : t) (fs : filesystem)
  (subject_id : option Z) (training_data : list mark) :
  let response := snd (App.train_model sk self fs subject_id training_data) in
  sget "success" (fst response) = Some (PBool false)
  /\ (snd response = 500%Z \/ (training_data = [] /\ snd response = 400%Z)).
Proof.
  unfold App.train_model.
  destruct training_data as [|mk rest]; [cbn; auto|].
  set (b := match subject_id with Some n => TInt n | None => TNone end).
  pose proof (train_model_L560_no_dict sk self fs (TMarks (mk :: rest)) b)
    as Hd.
  change (train_model sk self fs (TMarks (mk :: rest)) b)
    with (train_model_L560 sk self fs (TMarks (mk :: rest)) b).
  destruct (train_model_L560 sk self fs (TMarks (mk :: rest)) b)
    as [[ps' fs'] [[d | m me] | e]]; cbn in *; [discriminate | auto | auto].
Qed.

(** C8 (defect): no candidate is ever selected and persisted.  The call
    reaches the definition at line 560, which fits a single random forest
    and leaves registry and model directory as they were; and the
    definition at line 121, with the feature schema of [__init__], fails
    on every corpus before any candidate is fitted, as on fifteen students
    with complete marks. *)
Theorem trainer_selects_no_candidate (sk : sklearn) (self : t)
  (fs : filesystem) (path : string) (marks_data : list mark) (a b : tval) :
  fst (train_model sk self fs a b) = (self, fs)
  /\ Spec.is_result_dict (snd (train_model sk self fs a b)) = false
  /\ (exists e,
        train_model_L121 sk (init path) fs (TMarks marks_data) b =
          (init path, fs,
           Ok (RetDict [ ("success", PBool false);
                         ("error", PStr (str_exn e)) ])))
  /\ train_model_L121 sk (init "./models/") fs
       (TMarks Samples.fifteen_students) (TInt 1) =
       (init "./models/", fs,
        Ok (RetDict [ ("success", PBool false);
                      ("error",
                        PStr "['attendance_percentage'] not in index") ])).
Proof.
  split; [reflexivity|]. split; [|split].
  - apply train_model_L560_no_dict.
  - destruct (prepare_training_data_default_schema path marks_data)
      as (e & He & _).
    exists e. unfold train_model_L121. cbn [bind]. now rewrite He.
  - vm_compute. reflexivity.
Qed.

End TrainingFacts.

(** ** The batch route *)

Module BatchFacts.
Import PredictionService PredictorFacts.

(** Saving writes [prediction_id] or [save_error] into a prediction and
    nothing else: the success flags are as [batch_predict] left them. *)
Lemma save_predictions_success (drv : Connection.driver)
  (predictions : list (sdict pyval)) :
  forall db,
    map Spec.success_of (snd (fst (App.save_predictions drv db predictions)))
    = map Spec.success_of predictions.
Proof.
  induction predictions as [|p ps IH]; intro db; [reflexivity|].
  cbn [App.save_predictions].
  destruct (truthy (get_or "success" p PNone)) eqn:T.
  - destruct (App.save_one drv db p) as [db' [pid | e | msg]];
      specialize (IH db');
      destruct (App.save_predictions drv db' ps) as [[db'' ps'] saved];
      cbn [fst snd map] in *; rewrite IH; f_equal;
      unfold Spec.success_of, get_or;
      now rewrite sget_sset_other by discriminate.
  - specialize (IH db).
    destruct (App.save_predictions drv db ps) as [[db' ps'] saved].
    cbn [fst snd map] in *. now rewrite IH.
Qed.

Lemma count_by_flags {A B} (f : A -> bool) (g : B -> bool)
  (l : list A) (l' : list B) :
  map f l = map g l' ->
  List.length (filter f l) = List.length (filter g l').
Proof.
  revert l'. induction l as [|a l IH]; intros [|b l'] H; try discriminate;
    [reflexivity|].
  cbn in *. injection H as Hab Ht. rewrite Hab.
  destruct (g b); cbn; [f_equal|]; now apply IH.
Qed.

Lemma route_with_students (ps : t) (fs : filesystem)
  (drv : Connection.driver) (json_error : sdict pyval -> option exn)
  (db : DatabaseService.t) (subject_id : Z) (students : list pyval) :
  subject_id <> 0%Z -> students <> [] ->
  App.batch_predict ps fs drv json_error db subject_id students =
    match batch_predict ps fs students (Some subject_id) with
    | (ps', Raise e) =>
        (ps', db,
         ([ ("success", PBool false); ("error", PStr (str_exn e)) ], 500%Z))
    | (ps', Ok predictions) =>
        let '(db', predictions', saved_predictions) :=
          App.save_predictions drv db predictions in
        let summary :=
          [ ("success", PBool true);
            ("total_students", pynat (List.length students));
            ("successful_predictions",
              pynat (App.count_successes predictions'));
            ("saved_predictions", pynat (List.length saved_predictions));
            ("predictions", PList (map PDict predictions')) ] in
        (ps', db',
         match json_error summary with
         | None => (summary, 200%Z)
         | Some e =>
             ([ ("success", PBool false); ("error", PStr (str_exn e)) ],
              500%Z)
         end)
    end.
Proof.
  intros Hs Hne. unfold App.batch_predict.
  destruct (Z.eqb_spec subject_id 0) as [E | _]; [contradiction|].
  destruct students; [contradiction | reflexivity].
Qed.

(** C7 (defect in the route): batch prediction over a list of student
    records returns one result per student, in input order; each result
    is that student's own prediction, computed as if the student were
    predicted alone, with the student's ids written into it, and is
    either a success or a [{success: false, error}] item; the call does
    not raise.  The route builds the summary that counts the successes,
    but reports it only if [jsonify] accepts it: when [jsonify] raises,
    as it does for the [numpy.float32] marks of an XGBoost model, the
    response is an error with status 500 and no summary, although every
    student was predicted. *)
Theorem batch_predict_isolates_failures (ps : t) (fs : filesystem)
  (drv : Connection.driver) (json_error : sdict pyval -> option exn)
  (db : DatabaseService.t) (sid : option Z) (ds : list (sdict pyval)) :
  let outcome d :=
    Spec.annotated d (snd (predict_university_marks ps fs (PDict d) sid)) in
  (exists ps',
     batch_predict ps fs (map PDict ds) sid = (ps', Ok (map outcome ds)))
  /\ List.length (map outcome ds) = List.length ds
  /\ (forall d,
        sget "student_id" (outcome d) = Some (get_or "student_id" d PNone)
        /\ sget "subject_id" (outcome d) = Some (get_or "subject_id" d PNone)
        /\ (sget "success" (outcome d) = Some (PBool true)
            \/ exists e,
                 outcome d = Spec.annotated d
                               [ ("success", PBool false);
                                 ("error", PStr (str_exn e)) ]))
  /\ (forall subject_id,
        sid = Some subject_id -> subject_id <> 0%Z -> ds <> [] ->
        exists ps' db' summary,
          sget "success" summary = Some (PBool true)
          /\ sget "total_students" summary = Some (pynat (List.length ds))
          /\ sget "successful_predictions" summary
               = Some (pynat (List.length
                                (filter (fun d => Spec.success_of (outcome d))
                                        ds)))
          /\ App.batch_predict ps fs drv json_error db subject_id
               (map PDict ds)
             = (ps', db',
                match json_error summary with
                | None => (summary, 200%Z)
                | Some e =>
                    ([ ("success", PBool false);
                       ("error", PStr (str_exn e)) ], 500%Z)
                end))
  /\ snd (App.batch_predict Samples.both_registered Samples.no_files
            Samples.float32_driver Samples.float32_response
            Samples.empty_database 1 [PDict Samples.complete_student])
     = ([ ("success", PBool false);
          ("error",
            PStr "Object of type float32 is not JSON serializable") ],
        500%Z).
Proof.
  intro outcome. split; [|split; [|split; [|split]]].
  - eexists. apply batch_predict_dicts.
  - apply length_map.
  - intro d. unfold outcome, Spec.annotated.
    split; [|split].
    + rewrite sget_sset_other by discriminate. apply sget_sset_same.
    + apply sget_sset_same.
    + destruct (predict_outcome ps fs (PDict d) sid) as [H | [e H]].
      * left. now rewrite !sget_sset_other by discriminate.
      * right. exists e. now rewrite H.
  - intros subject_id -> Hs Hne.
    rewrite route_with_students;
      [|exact Hs | destruct ds; [contradiction | discriminate]].
    rewrite batch_predict_dicts. fold outcome.
    pose proof (save_predictions_success drv (map outcome ds) db) as Hflags.
    destruct (App.save_predictions drv db (map outcome ds))
      as [[db' predictions'] saved].
    cbn [fst snd] in Hflags.
    do 3 eexists. split; [|split; [|split; [|reflexivity]]].
    + reflexivity.
    + cbn. now rewrite length_map.
    + cbn. unfold App.count_successes. do 2 f_equal.
      rewrite map_map in Hflags.
      apply (count_by_flags Spec.success_of
               (fun d => Spec.success_of (outcome d))). exact Hflags.
  - vm_compute. reflexivity.
Qed.

(** A batch whose first student has a mark that is not a number: that
    item fails, the other one succeeds, and the summary of a response
    that [jsonify] accepts counts one success out of two. *)
Lemma batch_predict_witness :
  exists ps' db' body,
    App.batch_predict Samples.both_registered Samples.no_files
      Samples.no_driver_error Samples.plain_response
      Samples.empty_database 1
      (map PDict [Samples.unmarked_student; Samples.complete_student])
      = (ps', db', (body, 200%Z))
    /\ sget "total_students" body = Some (pynat 2)
    /\ sget "successful_predictions" body = Some (pynat 1).
Proof.
  destruct (batch_predict_isolates_failures Samples.both_registered
              Samples.no_files Samples.no_driver_error Samples.plain_response
              Samples.empty_database (Some 1%Z)
              [Samples.unmarked_student; Samples.complete_student])
    as (_ & _ & _ & H & _).
  destruct (H 1%Z) as (ps' & db' & body & _ & Ht & Hs & E);
    [reflexivity | discriminate | discriminate |].
  exists ps', db', body. split; [exact E|]. split; [exact Ht|].
  rewrite Hs. reflexivity.
Defined.

End BatchFacts.

(** ** Fallback predictions *)

Module FallbackFacts.
Import PredictionService ErrorHandler PredictorFacts.

(** [min(max(x, lo), hi)] lies in [[lo, hi]]. *)
Lemma clamp_range (lo hi x : Q) :
  lo <= hi -> lo <= py_min (py_max x lo) hi <= hi.
Proof.
  intro H.
  destruct (py_max_cases x lo) as [[H1 ->] | [H1 ->]];
    [destruct (py_min_cases lo hi) as [[H2 ->] | [H2 ->]]
    |destruct (py_min_cases x hi) as [[H2 ->] | [H2 ->]]];
    split; lra.
Qed.

(** The estimate of the [try] block, as a function of the student data. *)
Lemma fallback_unfold (args : list pyval) (kwargs : sdict pyval) :
  exists estimate : res (Q * Q),
    get_fallback_prediction args kwargs =
      match estimate with
      | Ok (marks, confidence) =>
          Spec.fallback_result (py_round marks 1) confidence
            (if truthy (get_or "student_data" kwargs (PDict []))
             then "partial" else "limited")
      | Raise _ => emergency_fallback
      end.
Proof.
  unfold get_fallback_prediction.
  match goal with
  | |- context [bind ?c _] => exists c; destruct c as [[marks conf] | e]
  end; reflexivity.
Qed.

(** C3, as the code has it: [get_fallback_prediction] estimates from the
    student data passed by keyword: with at least one positive internal
    mark, the average scaled from a 0-50 to a 0-100 basis, clamped to
    [35, 85] and rounded to one decimal, at confidence 0.5; with no mark,
    65.0 at confidence 0.3; when the estimate throws, the emergency
    constant 60.0 at confidence 0.2.  Every result carries its tier tag
    and a warning.  [predict_university_marks] does not call it: its
    results never carry a tier tag. *)
Theorem fallback_tiers (args : list pyval) (kwargs : sdict pyval) :
  (forall sd m1 m2 m3,
     sget "student_data" kwargs = Some (PDict sd) ->
     Spec.holds sd "series_test_1_marks" m1 ->
     Spec.holds sd "series_test_2_marks" m2 ->
     Spec.holds sd "lab_internal_marks" m3 ->
     Spec.nonnegative [m1; m2; m3] ->
     let present := Spec.present_values [m1; m2; m3] in
     (present <> [] ->
      let pm := py_round (py_min (py_max (np_mean present / 50 * 100) 35) 85) 1 in
      get_fallback_prediction args kwargs
        = Spec.fallback_result pm (5 # 10) "partial"
      /\ 35 <= pm <= 85)
     /\ (present = [] ->
         exists pm quality,
           get_fallback_prediction args kwargs
             = Spec.fallback_result pm (3 # 10) quality
           /\ pm == 65))
  /\ (sget "student_data" kwargs = None ->
      exists pm,
        get_fallback_prediction args kwargs
          = Spec.fallback_result pm (3 # 10) "limited"
        /\ pm == 65)
  /\ (forall sd v,
      sget "student_data" kwargs = Some (PDict sd) ->
      sget "series_test_1_marks" sd = Some v -> num_of v = None ->
      get_fallback_prediction args kwargs = emergency_fallback)
  /\ (let r := get_fallback_prediction args kwargs in
      (sget "prediction_method" r = Some (PStr "fallback")
       \/ r = emergency_fallback)
      /\ exists w, sget "warning" r = Some (PStr w))
  /\ (forall self fs sd sid,
      sget "prediction_method"
        (snd (predict_university_marks self fs sd sid)) = None).
Proof.
  split; [|split; [|split; [|split]]].
  - intros sd m1 m2 m3 Hs H1 H2 H3 Hnn present.
    pose proof (positive_is_present [m1; m2; m3] Hnn) as Hp. cbn [map] in Hp.
    fold present in Hp.
    split.
    + (* at least one mark *)
      intros Hne pm.
      split; [|apply (py_round_range 35 85), (clamp_range 35 85); lra].
      unfold get_fallback_prediction, get_or. rewrite Hs.
      assert (T : truthy (PDict sd) = true).
      { destruct sd; [|reflexivity]. unfold Spec.holds in *. cbn in *.
        destruct m1, m2, m3; cbn in *; try discriminate. now elim Hne. }
      rewrite T.
      rewrite (py_get_holds _ _ _ H1), (py_get_holds _ _ _ H2),
        (py_get_holds _ _ _ H3). cbn [bind].
      rewrite Hp. cbn [bind].
      destruct present; [congruence | reflexivity].
    + (* a dictionary without positive marks *)
      intro He. unfold get_fallback_prediction, get_or. rewrite Hs.
      exists (py_round 65 1).
      destruct (truthy (PDict sd)) eqn:T.
      * exists "partial".
        rewrite (py_get_holds _ _ _ H1), (py_get_holds _ _ _ H2),
          (py_get_holds _ _ _ H3). cbn [bind].
        rewrite Hp. cbn [bind]. rewrite He.
        split; [reflexivity | apply (py_round_int 65)].
      * exists "limited". split; [reflexivity | apply (py_round_int 65)].
  - (* no student data *)
    intro Hn. exists (py_round 65 1).
    unfold get_fallback_prediction, get_or. rewrite Hn.
    split; [reflexivity | apply (py_round_int 65)].
  - (* the estimate throws *)
    intros sd v Hs Hv Hn. unfold get_fallback_prediction, get_or. rewrite Hs.
    assert (T : truthy (PDict sd) = true)
      by (destruct sd; [discriminate | reflexivity]).
    rewrite T. unfold py_get at 1. unfold get_or. rewrite Hv. cbn [bind].
    destruct (py_get (PDict sd) "series_test_2_marks" (PNum 0)); [|reflexivity].
    cbn [bind].
    destruct (py_get (PDict sd) "lab_internal_marks" (PNum 0)); [|reflexivity].
    cbn [bind positive_marks]. unfold py_gt0. now rewrite Hn.
  - destruct (fallback_unfold args kwargs) as [[[marks conf] | e] ->];
      (split; [|eexists; reflexivity]); [now left | now right].
  - intros self fs sd sid. unfold predict_university_marks.
    destruct (resolve_model self fs sid) as [[[self' key] m] | e];
      [|reflexivity].
    cbn [snd].
    match goal with
    | |- context [try_except ?c _] => destruct c as [r | e] eqn:E
    end; [|reflexivity].
    destruct (_prepare_prediction_features self' sd) as [feats|];
      [|discriminate].
    cbn [bind] in E.
    destruct (predict m feats); [|discriminate]. cbn [bind] in E.
    destruct (_calculate_confidence self' sd feats); [|discriminate].
    cbn [bind] in E.
    destruct (py_get sd "student_id" PNone); [|discriminate].
    cbn [bind] in E. injection E as <-. reflexivity.
Qed.

Lemma fallback_tiers_witness :
  get_fallback_prediction []
    [ ("student_data",
        PDict [ ("series_test_1_marks", PNum 40);
                ("series_test_2_marks", PNum 45) ]) ]
  = Spec.fallback_result
      (py_round (py_min (py_max (np_mean [40; 45] / 50 * 100) 35) 85) 1)
      (5 # 10) "partial".
Proof.
  destruct (fallback_tiers []
              [ ("student_data",
                  PDict [ ("series_test_1_marks", PNum 40);
                          ("series_test_2_marks", PNum 45) ]) ])
    as (H & _).
  destruct (H [ ("series_test_1_marks", PNum 40);
                ("series_test_2_marks", PNum 45) ]
              (Some 40) (Some 45) None) as [H1 _];
    [reflexivity | reflexivity | reflexivity | reflexivity | |
     apply H1; cbn; discriminate].
  intros q [E | [E | [E | []]]]; inversion E; subst; lra.
Defined.

(** C3 as stated fails: with no model registered, a predict call with the
    marks [{series_test_1: 40, series_test_2: 45}] is not answered by a
    fallback estimate; it is reported as failed, without marks, confidence
    or tier tag. *)
Lemma predict_without_model_is_no_fallback :
  let r := snd (predict_university_marks (init "./models/") Samples.no_files
                  (PDict Samples.two_marks_student) None) in
  r = [ ("success", PBool false); ("error", PStr no_model_found) ]
  /\ sget "prediction_method" r <> Some (PStr "fallback")
  /\ sget "confidence_score" r = None
  /\ sget "predicted_marks" r = None.
Proof.
  cbv zeta.
  assert (E : snd (predict_university_marks (init "./models/")
                     Samples.no_files (PDict Samples.two_marks_student) None)
              = [ ("success", PBool false); ("error", PStr no_model_found) ])
    by reflexivity.
  rewrite E. repeat split. discriminate.
Qed.

End FallbackFacts.

(** ** Persistence *)

Module DatabaseFacts.
Import DatabaseService.

Lemma map_update_frame {A B} (f : A -> B) (c : A -> bool) (upd : A -> A)
  (l : list A) :
  (forall a, f (upd a) = f a) ->
  map f (map (fun a => if c a then upd a else a) l) = map f l.
Proof.
  intro H. rewrite map_map. apply map_ext. intro a.
  now destruct (c a).
Qed.

Lemma same_pair_updated (db : t) (s j : Z) (pm cs : Q) (feats : pyval)
  (ver : string) (r : prediction_row) :
  same_pair s j (updated db pm cs feats ver r) = same_pair s j r.
Proof. reflexivity. Qed.

(** C10: a brand-new prediction row is inserted invisible to the student;
    an update of the row of an existing (student, subject) pair writes
    predicted_marks, confidence_score, input_features, model_version and
    created_at and nothing else, so the visibility flag of every row is
    what it was; only [toggle_prediction_visibility] changes it, for the
    rows of its subject. *)
Theorem save_prediction_keeps_visibility (db : t) (s j : Z) (pm cs : Q)
  (feats : pyval) (ver : string) :
  let db' := fst (save_prediction db s j pm cs feats ver) in
  (filter (same_pair s j) (ml_predictions db) = [] ->
   exists row,
     ml_predictions db' = (ml_predictions db ++ [row])%list
     /\ is_visible_to_student row = false
     /\ student_id row = s /\ subject_id row = j
     /\ predicted_marks row = pm /\ confidence_score row = cs
     /\ input_features row = feats /\ model_version row = ver
     /\ snd (save_prediction db s j pm cs feats ver) = Ok (id row))
  /\ (filter (same_pair s j) (ml_predictions db) <> [] ->
      map is_visible_to_student (ml_predictions db')
        = map is_visible_to_student (ml_predictions db)
      /\ map id (ml_predictions db') = map id (ml_predictions db)
      /\ map student_id (ml_predictions db')
           = map student_id (ml_predictions db)
      /\ map subject_id (ml_predictions db')
           = map subject_id (ml_predictions db)
      /\ filter (fun r => negb (same_pair s j r)) (ml_predictions db')
           = filter (fun r => negb (same_pair s j r)) (ml_predictions db)
      /\ Forall (fun r => same_pair s j r = true ->
                          predicted_marks r = pm /\ confidence_score r = cs
                          /\ input_features r = feats
                          /\ model_version r = ver
                          /\ created_at r = current_timestamp db)
                (ml_predictions db'))
  /\ (forall subject v faculty n,
        snd (toggle_prediction_visibility db subject v faculty) = Ok n ->
        ml_predictions (fst (toggle_prediction_visibility db subject v faculty))
          = map (fun r => if Z.eqb (subject_id r) subject
                          then set_visible v r else r)
                (ml_predictions db)).
Proof.
  intro db'. split; [|split].
  - intro He. unfold db', save_prediction. rewrite He. cbn.
    eexists. split; [reflexivity|]. cbn. repeat split.
  - intro Hne. unfold db', save_prediction.
    destruct (filter (same_pair s j) (ml_predictions db)) as [|r0 rs] eqn:E;
      [congruence|].
    cbn [map fst with_rows ml_predictions].
    repeat split; try (apply map_update_frame; reflexivity).
    + clear E Hne. induction (ml_predictions db) as [|r l IH]; [reflexivity|].
      cbn [map filter].
      destruct (same_pair s j r) eqn:P.
      * rewrite same_pair_updated, P. cbn. exact IH.
      * rewrite P. cbn. now rewrite IH.
    + apply Forall_forall. intros r Hin Hr.
      apply in_map_iff in Hin. destruct Hin as (r1 & <- & _).
      destruct (same_pair s j r1) eqn:P; [cbn; repeat split|].
      congruence.
  - intros subject v faculty n. unfold toggle_prediction_visibility.
    match goal with
    | |- context [if ?c then _ else _] => destruct c
    end; [reflexivity | discriminate].
Qed.

Lemma save_prediction_witness :
  map is_visible_to_student
    (ml_predictions
       (fst (save_prediction Samples.visible_database 1 1 75 (9 # 10)
               (PDict []) "2.0.0")))
  = [true]
  /\ exists row,
       ml_predictions
         (fst (save_prediction Samples.empty_database 1 1 70 (8 # 10)
                 (PDict []) "2.0.0")) = [row]
       /\ is_visible_to_student row = false.
Proof.
  split.
  - destruct (save_prediction_keeps_visibility Samples.visible_database 1 1
                75 (9 # 10) (PDict []) "2.0.0") as (_ & H & _).
    destruct H as [H _]; [cbn; discriminate | exact H].
  - destruct (save_prediction_keeps_visibility Samples.empty_database 1 1
                70 (8 # 10) (PDict []) "2.0.0") as (H & _).
    destruct H as (row & E & Hv & _); [reflexivity|].
    exists row. split; [exact E | exact Hv].
Defined.

End DatabaseFacts.

(** * Further properties of the persistence layer *)

Module DatabaseMore.
Import DatabaseService.

Lemma filter_same_pair_updated (db : t) (s j : Z) (pm cs : Q) (feats : pyval)
  (ver : string) (rows : list prediction_row) :
  filter (same_pair s j)
    (map (fun r => if same_pair s j r then updated db pm cs feats ver r else r)
         rows)
  = map (updated db pm cs feats ver) (filter (same_pair s j) rows).
Proof.
  induction rows as [|r rows IH]; [reflexivity|].
  cbn [map filter]. destruct (same_pair s j r) eqn:P.
  - change (same_pair s j (updated db pm cs feats ver r)) with (same_pair s j r).
    rewrite P. cbn [map]. now rewrite IH.
  - now rewrite P.
Qed.

Lemma filter_others_updated (db : t) (s j : Z) (pm cs : Q) (feats : pyval)
  (ver : string) (rows : list prediction_row) :
  filter (fun r => negb (same_pair s j r))
    (map (fun r => if same_pair s j r then updated db pm cs feats ver r else r)
         rows)
  = filter (fun r => negb (same_pair s j r)) rows.
Proof.
  induction rows as [|r rows IH]; [reflexivity|].
  cbn [map filter]. destruct (same_pair s j r) eqn:P.
  - change (same_pair s j (updated db pm cs feats ver r)) with (same_pair s j r).
    rewrite P. exact IH.
  - rewrite P. cbn [negb]. now rewrite IH.
Qed.

(** X1: Saving twice for the same (student, subject) pair leaves exactly one
    row for the pair: the second call finds the row of the first, returns
    the same id and overwrites the values; the rows of other pairs are as
    they were. *)
Theorem save_prediction_twice_one_row (db : t) (s j : Z)
  (pm1 cs1 : Q) (feats1 : pyval) (ver1 : string)
  (pm2 cs2 : Q) (feats2 : pyval) (ver2 : string) :
  filter (same_pair s j) (ml_predictions db) = [] ->
  let first := save_prediction db s j pm1 cs1 feats1 ver1 in
  let second := save_prediction (fst first) s j pm2 cs2 feats2 ver2 in
  exists row,
    filter (same_pair s j) (ml_predictions (fst second)) = [row]
    /\ snd first = Ok (id row) /\ snd second = Ok (id row)
    /\ id row = next_id db
    /\ predicted_marks row = pm2 /\ confidence_score row = cs2
    /\ input_features row = feats2 /\ model_version row = ver2
    /\ is_visible_to_student row = false
    /\ List.length (ml_predictions (fst second))
       = S (List.length (ml_predictions db))
    /\ filter (fun r => negb (same_pair s j r)) (ml_predictions (fst second))
       = filter (fun r => negb (same_pair s j r)) (ml_predictions db).
Proof.
  intros He first second.
  assert (Hself : same_pair s j
            {| id := next_id db; student_id := s; subject_id := j;
               predicted_marks := pm1; confidence_score := cs1;
               input_features := feats1; model_version := ver1;
               is_visible_to_student := false;
               created_at := current_timestamp db |} = true).
  { unfold same_pair. cbn. now rewrite !Z.eqb_refl. }
  assert (H1 : fst first =
            with_rows db
              (ml_predictions db ++
               [ {| id := next_id db; student_id := s; subject_id := j;
                    predicted_marks := pm1; confidence_score := cs1;
                    input_features := feats1; model_version := ver1;
                    is_visible_to_student := false;
                    created_at := current_timestamp db |} ])%list
              (next_id db + 1)%Z
            /\ snd first = Ok (next_id db)).
  { unfold first, save_prediction. now rewrite He. }
  destruct H1 as [H1 R1].
  assert (Hf : filter (same_pair s j) (ml_predictions (fst first))
               = [ {| id := next_id db; student_id := s; subject_id := j;
                      predicted_marks := pm1; confidence_score := cs1;
                      input_features := feats1; model_version := ver1;
                      is_visible_to_student := false;
                      created_at := current_timestamp db |} ]).
  { rewrite H1. cbn [ml_predictions with_rows].
    rewrite filter_app, He. cbn [filter app]. now rewrite Hself. }
  eexists. unfold second, save_prediction. rewrite Hf.
  cbn [map fst snd with_rows ml_predictions].
  rewrite filter_same_pair_updated, Hf. cbn [map id updated].
  repeat split; try reflexivity; try exact R1.
  - rewrite length_map, H1. cbn [ml_predictions with_rows].
    rewrite length_app. cbn. lia.
  - rewrite filter_others_updated, H1. cbn [ml_predictions with_rows].
    rewrite filter_app. cbn [filter]. rewrite Hself. cbn [negb].
    apply app_nil_r.
Qed.

Lemma save_prediction_twice_witness :
  exists row,
    ml_predictions
      (fst (save_prediction
              (fst (save_prediction Samples.empty_database 1 1 70 (8 # 10)
                      (PDict []) "2.0.0"))
              1 1 75 (9 # 10) (PDict []) "2.0.0")) = [row]
    /\ predicted_marks row = 75.
Proof.
  destruct (save_prediction_twice_one_row Samples.empty_database 1 1
              70 (8 # 10) (PDict []) "2.0.0" 75 (9 # 10) (PDict []) "2.0.0")
    as (row & Hf & _ & _ & _ & Hpm & _); [reflexivity|].
  exists row. split; [|exact Hpm].
  cbn in Hf. cbn. exact Hf.
Defined.

(** X2: The id sequence stays ahead of the table and the ids stay distinct,
    whatever is saved or toggled. *)
Theorem ids_stay_unique (db : t) (s j : Z) (pm cs : Q) (feats : pyval)
  (ver : string) (subject : Z) (v : bool) (faculty : option Z) :
  Forall (fun r => (id r < next_id db)%Z) (ml_predictions db) ->
  NoDup (map id (ml_predictions db)) ->
  let saved := fst (save_prediction db s j pm cs feats ver) in
  let toggled := fst (toggle_prediction_visibility db subject v faculty) in
  (Forall (fun r => (id r < next_id saved)%Z) (ml_predictions saved)
   /\ NoDup (map id (ml_predictions saved))
   /\ (next_id db <= next_id saved)%Z)
  /\ (Forall (fun r => (id r < next_id toggled)%Z) (ml_predictions toggled)
      /\ NoDup (map id (ml_predictions toggled))
      /\ next_id toggled = next_id db).
Proof.
  intros Hlt Hnd saved toggled. split.
  - unfold saved, save_prediction.
    destruct (map id (filter (same_pair s j) (ml_predictions db))) as [|i l].
    + cbn [fst with_rows ml_predictions next_id]. split; [|split; [|lia]].
      * apply Forall_app. split.
        -- eapply Forall_impl; [|exact Hlt]. cbn. intros; lia.
        -- constructor; [cbn; lia | constructor].
      * rewrite map_app. cbn [map id].
        apply NoDup_app; [exact Hnd | repeat constructor; intros [] |].
        intros i Hi [<- | []].
        apply in_map_iff in Hi. destruct Hi as (r & E & Hr).
        rewrite Forall_forall in Hlt. specialize (Hlt r Hr). lia.
    + cbn [fst with_rows ml_predictions next_id]. split; [|split; [|lia]].
      * apply Forall_forall. intros r Hr.
        apply in_map_iff in Hr. destruct Hr as (r0 & <- & Hr0).
        rewrite Forall_forall in Hlt. specialize (Hlt r0 Hr0).
        now destruct (same_pair s j r0).
      * now rewrite DatabaseFacts.map_update_frame by reflexivity.
  - unfold toggled, toggle_prediction_visibility.
    match goal with
    | |- context [if ?c then _ else _] => destruct c
    end; cbn [fst]; [|now repeat split].
    cbn [commit with_rows ml_predictions next_id]. split; [|split; [|reflexivity]].
    + apply Forall_forall. intros r Hr.
      apply in_map_iff in Hr. destruct Hr as (r0 & <- & Hr0).
      rewrite Forall_forall in Hlt. specialize (Hlt r0 Hr0).
      now destruct (Z.eqb (subject_id r0) subject).
    + now rewrite DatabaseFacts.map_update_frame by reflexivity.
Qed.

Lemma ids_stay_unique_witness :
  NoDup (map id
           (ml_predictions
              (fst (save_prediction Samples.visible_database 2 1 60 (7 # 10)
                      (PDict []) "2.0.0")))).
Proof.
  destruct (ids_stay_unique Samples.visible_database 2 1 60 (7 # 10)
              (PDict []) "2.0.0" 1 true None) as [(_ & H & _) _].
  - repeat constructor.
  - repeat constructor. intros [].
  - exact H.
Defined.

(** X3: An authorised toggle sets the flag of exactly the predictions of its
    subject, returns their number, commits, and is idempotent; a faculty
    member without an assignment for the subject in the current year is
    refused and nothing changes. *)
Theorem toggle_visibility_effect (db : t) (subject : Z) (v : bool)
  (faculty : option Z) (n : Z) :
  snd (toggle_prediction_visibility db subject v faculty) = Ok n ->
  let db' := fst (toggle_prediction_visibility db subject v faculty) in
  n = Z.of_nat (List.length (filter (fun r => Z.eqb (subject_id r) subject)
                                    (ml_predictions db)))
  /\ Forall (fun r => subject_id r = subject -> is_visible_to_student r = v)
            (ml_predictions db')
  /\ filter (fun r => negb (Z.eqb (subject_id r) subject)) (ml_predictions db')
     = filter (fun r => negb (Z.eqb (subject_id r) subject)) (ml_predictions db)
  /\ map predicted_marks (ml_predictions db')
     = map predicted_marks (ml_predictions db)
  /\ map id (ml_predictions db') = map id (ml_predictions db)
  /\ committed db' = ml_predictions db'
  /\ toggle_prediction_visibility db' subject v faculty = (db', Ok n)
  /\ (forall f subject',
        f <> 0%Z ->
        (forall a, In a (faculty_subjects db) ->
                   a <> (f, subject', current_year db)) ->
        toggle_prediction_visibility db subject' v (Some f)
        = (db, Raise (ValueError
                        "Faculty does not have access to this subject"))).
Proof.
  unfold toggle_prediction_visibility.
  match goal with
  | |- context [if ?c then _ else _] => destruct c eqn:A
  end; [|discriminate].
  cbn [fst snd]. intro E. injection E as <-.
  cbn [commit with_rows ml_predictions committed next_id current_year
       faculty_subjects].
  rewrite A.
  split; [reflexivity|]. split; [|split; [|split; [|split; [|split; [reflexivity|split]]]]].
  - apply Forall_forall. intros r Hr Hs.
    apply in_map_iff in Hr. destruct Hr as (r0 & <- & _).
    destruct (Z.eqb (subject_id r0) subject) eqn:S0; [reflexivity|].
    apply Z.eqb_neq in S0. contradiction.
  - induction (ml_predictions db) as [|r l IH]; [reflexivity|].
    cbn [map filter]. destruct (Z.eqb (subject_id r) subject) eqn:S0.
    + change (subject_id (set_visible v r)) with (subject_id r).
      rewrite S0. exact IH.
    + rewrite S0. cbn [negb]. now rewrite IH.
  - apply DatabaseFacts.map_update_frame. reflexivity.
  - apply DatabaseFacts.map_update_frame. reflexivity.
  - assert (M : map (fun r => if Z.eqb (subject_id r) subject
                              then set_visible v r else r)
                    (map (fun r => if Z.eqb (subject_id r) subject
                                   then set_visible v r else r)
                         (ml_predictions db))
                = map (fun r => if Z.eqb (subject_id r) subject
                                then set_visible v r else r)
                      (ml_predictions db)).
    { rewrite map_map. apply map_ext. intro r.
      destruct (Z.eqb (subject_id r) subject) eqn:S0.
      - change (subject_id (set_visible v r)) with (subject_id r).
        now rewrite S0.
      - now rewrite S0. }
    assert (C : filter (fun r => Z.eqb (subject_id r) subject)
                  (map (fun r => if Z.eqb (subject_id r) subject
                                 then set_visible v r else r)
                       (ml_predictions db))
                = map (set_visible v)
                      (filter (fun r => Z.eqb (subject_id r) subject)
                              (ml_predictions db))).
    { clear M. induction (ml_predictions db) as [|r l IH]; [reflexivity|].
      cbn [map filter]. destruct (Z.eqb (subject_id r) subject) eqn:S0.
      - change (subject_id (set_visible v r)) with (subject_id r).
        rewrite S0. cbn [map]. now rewrite IH.
      - now rewrite S0. }
    rewrite M, C, length_map. reflexivity.
  - intros f subject' Hf Hno. destruct (Z.eqb_spec f 0) as [|_]; [contradiction|].
    assert (F : filter (fun a => let '(fac, sub, year) := a in
                          Z.eqb fac f && Z.eqb sub subject'
                          && Z.eqb year (current_year db))
                       (faculty_subjects db) = []).
    { destruct (filter _ (faculty_subjects db)) as [|a l] eqn:E; [reflexivity|].
      exfalso.
      assert (Hin : In a (a :: l)) by now left.
      rewrite <- E in Hin. apply filter_In in Hin. destruct Hin as [Hin Hp].
      destruct a as [[fac sub] year].
      apply andb_true_iff in Hp. destruct Hp as [Hp Hy].
      apply andb_true_iff in Hp. destruct Hp as [Hfa Hsu].
      apply Z.eqb_eq in Hfa, Hsu, Hy. subst.
      now apply (Hno _ Hin). }
    rewrite F. reflexivity.
Qed.

Lemma toggle_visibility_witness :
  map is_visible_to_student (ml_predictions Samples.visible_database) = [true]
  /\ committed Samples.visible_database
     = ml_predictions Samples.visible_database.
Proof.
  destruct (toggle_visibility_effect
              (fst (save_prediction Samples.empty_database 1 1 70 (8 # 10)
                      (PDict []) "2.0.0")) 1 true None 1)
    as (_ & _ & _ & _ & _ & Hc & _); [reflexivity|].
  split; [reflexivity | exact Hc].
Defined.

(** X4: A saved prediction is written inside the open transaction only: the
    committed table is what it was, until a toggle commits it together
    with its own update. *)
Theorem saved_prediction_pending_until_toggle (db : t) (s j : Z) (pm cs : Q)
  (feats : pyval) (ver : string) (subject : Z) (v : bool)
  (faculty : option Z) (n : Z) :
  let saved := fst (save_prediction db s j pm cs feats ver) in
  snd (toggle_prediction_visibility saved subject v faculty) = Ok n ->
  let toggled := fst (toggle_prediction_visibility saved subject v faculty) in
  committed saved = committed db
  /\ exists row,
       In row (committed toggled)
       /\ student_id row = s /\ subject_id row = j
       /\ predicted_marks row = pm /\ confidence_score row = cs
       /\ input_features row = feats /\ model_version row = ver.
Proof.
  intros saved Ht toggled.
  assert (Hs : committed saved = committed db
               /\ exists row, In row (ml_predictions saved)
                    /\ student_id row = s /\ subject_id row = j
                    /\ predicted_marks row = pm /\ confidence_score row = cs
                    /\ input_features row = feats /\ model_version row = ver).
  { unfold saved, save_prediction.
    destruct (filter (same_pair s j) (ml_predictions db)) as [|r0 l] eqn:F.
    - cbn [map fst with_rows committed ml_predictions]. split; [reflexivity|].
      eexists. split; [apply in_or_app; right; now left|]. now cbn.
    - cbn [map fst with_rows committed ml_predictions]. split; [reflexivity|].
      assert (Hin : In r0 (filter (same_pair s j) (ml_predictions db)))
        by (rewrite F; now left).
      apply filter_In in Hin. destruct Hin as [Hin P].
      exists (updated db pm cs feats ver r0). split.
      + apply in_map_iff. exists r0. now rewrite P.
      + unfold same_pair in P. apply andb_true_iff in P.
        destruct P as [P1 P2]. apply Z.eqb_eq in P1, P2. now cbn. }
  destruct Hs as [Hc (row & Hin & H1 & H2 & H3 & H4 & H5 & H6)].
  split; [exact Hc|].
  unfold toggled. revert Ht. unfold toggle_prediction_visibility.
  match goal with
  | |- context [if ?c then _ else _] => destruct c
  end; [|discriminate]. intros _.
  cbn [fst commit with_rows committed ml_predictions].
  exists (if Z.eqb (subject_id row) subject then set_visible v row else row).
  split.
  - apply in_map_iff. now exists row.
  - now destruct (Z.eqb (subject_id row) subject).
Qed.

Lemma saved_prediction_pending_witness :
  committed (fst (save_prediction Samples.empty_database 1 1 70 (8 # 10)
                    (PDict []) "2.0.0")) = []
  /\ exists row, In row (committed Samples.visible_database)
                 /\ predicted_marks row = 70.
Proof.
  destruct (saved_prediction_pending_until_toggle Samples.empty_database 1 1
              70 (8 # 10) (PDict []) "2.0.0" 1 true None 1)
    as (Hc & row & Hin & _ & _ & Hpm & _); [reflexivity|].
  split; [exact Hc|]. exists row. split; [exact Hin | exact Hpm].
Defined.

End DatabaseMore.

(** * Further properties of the predictor *)

Module PredictorMore.
Import PredictionService PredictorFacts.

Lemma Qsum_bounds (a b : Q) (l : list Q) :
  (forall x, In x l -> a <= x <= b) ->
  Qlen l * a <= Qsum l <= Qlen l * b.
Proof.
  induction l as [|x l IH]; intro H.
  - change (Qlen (@nil Q)) with 0. change (Qsum []) with 0. lra.
  - assert (Hx : a <= x <= b) by (apply H; now left).
    assert (Hl : Qlen l * a <= Qsum l <= Qlen l * b)
      by (apply IH; intros; apply H; now right).
    change (Qsum (x :: l)) with (x + Qsum l).
    assert (E : Qlen (x :: l) == 1 + Qlen l).
    { unfold Qlen. cbn [List.length]. rewrite Nat2Z.inj_succ.
      unfold Z.succ. rewrite inject_Z_plus.
      change (inject_Z 1) with 1. lra. }
    rewrite E. nra.
Qed.

(** The mean of a non-empty list lies between any bounds of its elements. *)
Lemma np_mean_bounds (a b : Q) (l : list Q) :
  l <> [] -> (forall x, In x l -> a <= x <= b) -> a <= np_mean l <= b.
Proof.
  intros Hne H. pose proof (Qsum_bounds a b l H) as [Hlo Hhi].
  pose proof (Qlen_pos l Hne) as Hn. unfold np_mean. split.
  - apply Qle_shift_div_l; [exact Hn | lra].
  - apply Qle_shift_div_r; [exact Hn | lra].
Qed.

Lemma present_values_in (ms : list (option Q)) (q : Q) :
  In q (Spec.present_values ms) -> In (Some q) ms.
Proof.
  unfold Spec.present_values. intro H. apply in_flat_map in H.
  destruct H as ([x|] & Hin & Hx); [|contradiction].
  destruct (Qeq_bool x 0); [contradiction|].
  destruct Hx as [<- | []]. exact Hin.
Qed.

Lemma got_zero_when_absent (ms : list (option Q)) (m : option Q) :
  Spec.present_values ms = [] -> In m ms -> Spec.got m == 0.
Proof.
  induction ms as [|x ms IH]; [contradiction|].
  cbn. intros He [-> | Hin].
  - destruct m as [q|]; cbn in *; [|reflexivity].
    destruct (Qeq_bool q 0) eqn:E; [now apply Qeq_bool_iff | discriminate].
  - apply IH; [|exact Hin]. now apply app_eq_nil in He.
Qed.

(** The three internal features and their average, for marks that are
    numbers or absent. *)
Lemma features_value (self : t) (d marks : sdict pyval) (m1 m2 m3 : option Q) :
  get_or "marks" d (PDict []) = PDict marks ->
  Spec.holds marks "series_test_1" m1 ->
  Spec.holds marks "series_test_2" m2 ->
  Spec.holds marks "lab_internal" m3 ->
  Spec.nonnegative [m1; m2; m3] ->
  let mu := Spec.mean_or_zero (Spec.present_values [m1; m2; m3]) in
  let fill m := match Spec.present_values [m1; m2; m3] with
                | [] => Spec.got m
                | _ => Spec.filled m mu
                end in
  exists tail,
    _prepare_prediction_features self (PDict d) =
      Ok (PNum (fill m1) :: PNum (fill m2) :: PNum (fill m3)
            :: PNum (np_mean [fill m1; fill m2; fill m3]) :: tail)
    /\ List.length tail =
       (if existsb (String.eqb "attendance_percentage") (feature_columns self)
        then 3%nat else 2%nat).
Proof.
  intros Hm H1 H2 H3 Hnn mu fill.
  unfold _prepare_prediction_features. unfold py_get at 1.
  unfold get_or in Hm. rewrite Hm. cbn [bind].
  rewrite (py_get_holds _ _ _ H1), (py_get_holds _ _ _ H2),
    (py_get_holds _ _ _ H3). cbn [bind].
  pose proof (positive_is_present [m1; m2; m3] Hnn) as Hp. cbn [map] in Hp.
  rewrite Hp. cbn [bind].
  unfold fill, mu, Spec.mean_or_zero.
  destruct (Spec.present_values [m1; m2; m3]) as [|p ps] eqn:E.
  - unfold fill_missing. change (Qltb 0 0) with false. rewrite !andb_false_r.
    cbn [nums_of num_of bind]. unfold py_get, get_or. cbn [bind].
    destruct (existsb _ (feature_columns self)); eexists; split; reflexivity.
  - assert (Hmu : 0 < np_mean (p :: ps)).
    { rewrite <- E. apply np_mean_pos; [congruence|].
      now apply present_values_pos. }
    rewrite !fill_missing_filled by exact Hmu.
    cbn [nums_of num_of bind]. unfold py_get, get_or. cbn [bind].
    destruct (existsb _ (feature_columns self)); eexists; split; reflexivity.
Qed.

(** The bounds of the leading features. *)
Lemma features_bounds (self : t) (d marks : sdict pyval)
  (m1 m2 m3 : option Q) :
  get_or "marks" d (PDict []) = PDict marks ->
  Spec.holds marks "series_test_1" m1 ->
  Spec.holds marks "series_test_2" m2 ->
  Spec.holds marks "lab_internal" m3 ->
  (forall q, In (Some q) [m1; m2; m3] -> 0 <= q <= 100) ->
  exists f1 f2 f3 avg tail,
    _prepare_prediction_features self (PDict d) =
      Ok (PNum f1 :: PNum f2 :: PNum f3 :: PNum avg :: tail)
    /\ 0 <= f1 <= 100 /\ 0 <= f2 <= 100 /\ 0 <= f3 <= 100
    /\ 0 <= avg <= 100
    /\ (Spec.present_values [m1; m2; m3] = [] ->
        f1 == 0 /\ f2 == 0 /\ f3 == 0 /\ avg == 0)
    /\ List.length (PNum f1 :: PNum f2 :: PNum f3 :: PNum avg :: tail) =
       (if existsb (String.eqb "attendance_percentage") (feature_columns self)
        then 7%nat else 6%nat).
Proof.
  intros Hm H1 H2 H3 Hr.
  assert (Hnn : Spec.nonnegative [m1; m2; m3])
    by (intros q Hq; apply (Hr q Hq)).
  destruct (features_value self d marks m1 m2 m3 Hm H1 H2 H3 Hnn)
    as (tail & E & Hlen). cbv zeta in E.
  set (mu := Spec.mean_or_zero (Spec.present_values [m1; m2; m3])) in *.
  set (fill := fun m => match Spec.present_values [m1; m2; m3] with
                        | [] => Spec.got m
                        | _ => Spec.filled m mu
                        end) in *.
  assert (Hmu : Spec.present_values [m1; m2; m3] <> [] -> 0 <= mu <= 100).
  { intro Hne. unfold mu, Spec.mean_or_zero.
    destruct (Spec.present_values [m1; m2; m3]) as [|p ps] eqn:Ep;
      [congruence|].
    rewrite <- Ep. apply np_mean_bounds; [congruence|].
    intros x Hx. apply Hr. now apply present_values_in. }
  assert (Hfill : forall m, In m [m1; m2; m3] -> 0 <= fill m <= 100).
  { intros m Hin. unfold fill.
    destruct (Spec.present_values [m1; m2; m3]) as [|p ps] eqn:Ep.
    - rewrite (got_zero_when_absent _ _ Ep Hin). lra.
    - specialize (Hmu ltac:(discriminate)).
      destruct m as [q|]; cbn; [|exact Hmu].
      destruct (Qeq_bool q 0); [exact Hmu | now apply Hr]. }
  assert (F1 := Hfill m1 (or_introl eq_refl)).
  assert (F2 := Hfill m2 (or_intror (or_introl eq_refl))).
  assert (F3 := Hfill m3 (or_intror (or_intror (or_introl eq_refl)))).
  exists (fill m1), (fill m2), (fill m3),
    (np_mean [fill m1; fill m2; fill m3]), tail.
  split; [exact E|]. split; [exact F1|]. split; [exact F2|].
  split; [exact F3|]. split; [|split].
  - apply np_mean_bounds; [discriminate|].
    intros x [<- | [<- | [<- | []]]]; assumption.
  - intro Ep.
    assert (Z1 : fill m1 == 0)
      by (unfold fill; rewrite Ep;
          apply (got_zero_when_absent _ _ Ep); now left).
    assert (Z2 : fill m2 == 0)
      by (unfold fill; rewrite Ep;
          apply (got_zero_when_absent _ _ Ep); right; now left).
    assert (Z3 : fill m3 == 0)
      by (unfold fill; rewrite Ep;
          apply (got_zero_when_absent _ _ Ep); right; right; now left).
    repeat split; try assumption.
    rewrite np_mean_3, Z1, Z2, Z3. reflexivity.
  - cbn [List.length]. rewrite Hlen.
    now destruct (existsb _ (feature_columns self)).
Qed.

(** X5: Percentages in, percentages out: when the marks of a record are
    numbers between 0 and 100 (or absent), the feature builder does not
    fail and the three internal features and their average lie between 0
    and 100; with no mark present all four are 0.  The vector has six
    entries, seven when the schema has the attendance. *)
Theorem features_stay_percentages (self : t) (d marks : sdict pyval)
  (m1 m2 m3 : option Q) :
  get_or "marks" d (PDict []) = PDict marks ->
  Spec.holds marks "series_test_1" m1 ->
  Spec.holds marks "series_test_2" m2 ->
  Spec.holds marks "lab_internal" m3 ->
  (forall q, In (Some q) [m1; m2; m3] -> 0 <= q <= 100) ->
  exists f1 f2 f3 avg tail,
    _prepare_prediction_features self (PDict d) =
      Ok (PNum f1 :: PNum f2 :: PNum f3 :: PNum avg :: tail)
    /\ 0 <= f1 <= 100 /\ 0 <= f2 <= 100 /\ 0 <= f3 <= 100
    /\ 0 <= avg <= 100
    /\ (Spec.present_values [m1; m2; m3] = [] ->
        f1 == 0 /\ f2 == 0 /\ f3 == 0 /\ avg == 0)
    /\ List.length (PNum f1 :: PNum f2 :: PNum f3 :: PNum avg :: tail) =
       (if existsb (String.eqb "attendance_percentage") (feature_columns self)
        then 7%nat else 6%nat).
Proof. exact (features_bounds self d marks m1 m2 m3). Qed.

Lemma features_stay_percentages_witness :
  exists f1 f2 f3 avg tail,
    _prepare_prediction_features (init "./models/")
      (PDict Samples.complete_student)
    = Ok (PNum f1 :: PNum f2 :: PNum f3 :: PNum avg :: tail)
    /\ 0 <= avg <= 100.
Proof.
  destruct (features_stay_percentages (init "./models/")
              Samples.complete_student
              [ ("series_test_1", PNum 80); ("series_test_2", PNum 82);
                ("lab_internal", PNum 81) ]
              (Some 80) (Some 82) (Some 81))
    as (f1 & f2 & f3 & avg & tail & E & _ & _ & _ & Ha & _);
    try reflexivity.
  - intros q [E | [E | [E | []]]]; inversion E; subst; lra.
  - exists f1, f2, f3, avg, tail. split; [exact E | exact Ha].
Defined.

(** *** Confidence by number of marks *)

Lemma np_var_nonneg (l : list Q) : l <> [] -> 0 <= np_var l.
Proof.
  intro Hne. unfold np_var.
  assert (H : forall x, In x (map (fun x => (x - np_mean l) * (x - np_mean l)) l)
                        -> 0 <= x).
  { intros x Hx. apply in_map_iff in Hx. destruct Hx as (y & <- & _).
    cbv beta. generalize (y - np_mean l). intro z. nra. }
  assert (Hm : map (fun x => (x - np_mean l) * (x - np_mean l)) l <> [])
    by (destruct l; [congruence | discriminate]).
  pose proof (Qlen_pos _ Hm) as Hn.
  unfold np_mean at 1. apply Qle_shift_div_l; [exact Hn|].
  rewrite Qmult_0_l.
  clear Hn Hm. revert H.
  generalize (map (fun x => (x - np_mean l) * (x - np_mean l)) l).
  intros sq H. induction sq as [|x sq IH]; [cbn; lra|].
  change (Qsum (x :: sq)) with (x + Qsum sq).
  assert (0 <= x) by (apply H; now left).
  assert (0 <= Qsum sq) by (apply IH; intros; apply H; now right).
  lra.
Qed.

(** X6: The confidence depends on the number of positive internal marks and on
    their spread only: 0.5 with none, 0.6 with one, between 0.7 and 0.9
    with two, between 0.8 and 1 with three.  Two marks that agree score
    0.9; that is more than three marks of variance 100 or more, which
    score 0.8. *)
Theorem confidence_by_number_of_marks (self : t) (d marks : sdict pyval)
  (m1 m2 m3 : option Q) (feats : list pyval) :
  get_or "marks" d (PDict []) = PDict marks ->
  Spec.holds marks "series_test_1" m1 ->
  Spec.holds marks "series_test_2" m2 ->
  Spec.holds marks "lab_internal" m3 ->
  Spec.nonnegative [m1; m2; m3] ->
  let present := Spec.present_values [m1; m2; m3] in
  exists c,
    _calculate_confidence self (PDict d) feats = Ok c
    /\ (List.length present = 0%nat -> c == 5 # 10)
    /\ (List.length present = 1%nat -> c == 6 # 10)
    /\ (List.length present = 2%nat ->
        7 # 10 <= c <= 9 # 10 /\ (np_var present == 0 -> c == 9 # 10))
    /\ (List.length present = 3%nat ->
        8 # 10 <= c <= 1 /\ (100 <= np_var present -> c == 8 # 10)).
Proof.
  intros Hm H1 H2 H3 Hnn present.
  pose proof (confidence_value self d marks m1 m2 m3 feats Hm H1 H2 H3 Hnn)
    as Hc. cbv zeta in Hc. fold present in Hc.
  eexists. split; [exact Hc|].
  assert (Hb : present <> [] ->
            0 <= py_max 0 ((100 - np_var present) / 100) * (2 # 10) <= 2 # 10
            /\ (np_var present == 0 ->
                py_max 0 ((100 - np_var present) / 100) * (2 # 10) == 2 # 10)
            /\ (100 <= np_var present ->
                py_max 0 ((100 - np_var present) / 100) * (2 # 10) == 0)).
  { intro Hne. pose proof (np_var_nonneg present Hne) as Hv.
    assert (Hd : (100 - np_var present) / 100 <= 1)
      by (apply Qle_shift_div_r; lra).
    assert (Hd0 : np_var present == 0 -> (100 - np_var present) / 100 == 1).
    { intro E. rewrite E. reflexivity. }
    assert (Hd1 : 100 <= np_var present -> (100 - np_var present) / 100 <= 0).
    { intro G. apply Qle_shift_div_r; lra. }
    destruct (py_max_cases 0 ((100 - np_var present) / 100))
      as [[Hlt ->] | [Hge ->]];
      (split; [lra | split; intro G;
                     [specialize (Hd0 G) | specialize (Hd1 G)]; lra]). }
  unfold Qlen.
  split; [|split; [|split]]; intro L; rewrite L;
    cbn [Nat.leb Z.of_nat Pos.of_succ_nat Pos.succ].
  - assert (E : (5 # 10) + inject_Z 0 / 3 * (3 # 10) + 0 == 5 # 10)
      by reflexivity.
    rewrite (clip_inside 0 1) by (rewrite E; lra). exact E.
  - assert (E : (5 # 10) + inject_Z 1 / 3 * (3 # 10) + 0 == 6 # 10)
      by reflexivity.
    rewrite (clip_inside 0 1) by (rewrite E; lra). exact E.
  - destruct Hb as (Hr & H0 & _); [destruct present; discriminate|].
    revert Hr H0.
    generalize (py_max 0 ((100 - np_var present) / 100) * (2 # 10)).
    intros b Hr H0.
    assert (K : inject_Z 2 / 3 * (3 # 10) == 2 # 10) by reflexivity.
    assert (E : (5 # 10) + inject_Z 2 / 3 * (3 # 10) + b == (7 # 10) + b)
      by (rewrite K; lra).
    rewrite (clip_inside 0 1) by (rewrite E; lra). rewrite E.
    split; [lra|]. intro V. rewrite (H0 V). reflexivity.
  - destruct Hb as (Hr & _ & H100); [destruct present; discriminate|].
    revert Hr H100.
    generalize (py_max 0 ((100 - np_var present) / 100) * (2 # 10)).
    intros b Hr H100.
    assert (K : inject_Z 3 / 3 * (3 # 10) == 3 # 10) by reflexivity.
    assert (E : (5 # 10) + inject_Z 3 / 3 * (3 # 10) + b == (8 # 10) + b)
      by (rewrite K; lra).
    rewrite (clip_inside 0 1) by (rewrite E; lra). rewrite E.
    split; [lra|]. intro V. rewrite (H100 V). reflexivity.
Qed.

Lemma confidence_by_number_witness :
  exists c,
    _calculate_confidence (init "./models/") (PDict Samples.series_1_only) []
      = Ok c
    /\ c == 6 # 10.
Proof.
  destruct (confidence_by_number_of_marks (init "./models/")
              Samples.series_1_only [ ("series_test_1", PNum 80) ]
              (Some 80) None None [])
    as (c & H & _ & H1 & _); try reflexivity.
  - intros q [E | [E | [E | []]]]; inversion E; subst; lra.
  - exists c. split; [exact H | apply H1; reflexivity].
Defined.

(** *** The registry as a cache *)

(** Once a request has been resolved, the same request resolves to the
    same model whatever is on disk. *)
Lemma resolve_cached (self self' : t) (fs fs' : filesystem) (sid : option Z)
  (key : string) (m : model) :
  resolve_model self fs sid = Ok (self', key, m) ->
  resolve_model self' fs' sid = Ok (self', key, m).
Proof.
  unfold resolve_model.
  destruct (sget "production_best" (models self)) as [mb|] eqn:Hb.
  { intro E. injection E as <- <- <-. now rewrite Hb. }
  destruct (filter (startswith "production_") (dict_keys (models self)))
    as [|k ks] eqn:Hk.
  2:{ destruct (sget k (models self)) as [mk|] eqn:Hm; [|discriminate].
      intro E. injection E as <- <- <-. now rewrite Hb, Hk, Hm. }
  destruct (sget (subject_key_of sid) (models self)) as [ms|] eqn:Hs.
  { intro E. injection E as <- <- <-. now rewrite Hb, Hk, Hs. }
  destruct (fs _) as [[ml | e] |] eqn:Hf; cbn [bind]; try discriminate.
  intro E. injection E as <- <- <-. cbn [models set_models model_version
    model_path feature_columns].
  destruct (subject_key_not_production sid) as [Hne Hp].
  rewrite sget_sset_other by (intro E; now symmetry in E).
  now rewrite Hb, (filter_keys_sset _ _ _ _ Hp), Hk, sget_sset_same.
Qed.

(** X7: A model that served a request stays in the registry: later requests
    for the same subject are answered as by the first registry, without
    the model directory being read, and do not change the registry. *)
Theorem resolved_model_is_cached (self self' : t) (fs : filesystem)
  (sid : option Z) (key : string) (m : model) :
  resolve_model self fs sid = Ok (self', key, m) ->
  forall (fs' : filesystem) (sd : pyval),
    predict_university_marks self' fs' sd sid
    = (self', snd (predict_university_marks self fs sd sid))
    /\ sget key (models self') = Some m.
Proof.
  intros Hr fs' sd. split.
  - unfold predict_university_marks.
    rewrite (resolve_cached _ _ _ fs' _ _ _ Hr), Hr.
    destruct (resolve_stable _ _ _ _ _ _ Hr) as (_ & Hc & Hv).
    reflexivity.
  - revert Hr. unfold resolve_model.
    destruct (sget "production_best" (models self)) as [mb|] eqn:Hb.
    { intro E. injection E as <- <- <-. exact Hb. }
    destruct (filter (startswith "production_") (dict_keys (models self)))
      as [|k ks] eqn:Hk.
    2:{ destruct (sget k (models self)) as [mk|] eqn:Hm; [|discriminate].
        intro E. injection E as <- <- <-. exact Hm. }
    destruct (sget (subject_key_of sid) (models self)) as [ms|] eqn:Hs.
    { intro E. injection E as <- <- <-. exact Hs. }
    destruct (fs _) as [[ml | e] |]; cbn [bind]; try discriminate.
    intro E. injection E as <- <- <-. cbn [models set_models].
    apply sget_sset_same.
Qed.

Lemma resolved_model_is_cached_witness :
  let stored : filesystem :=
    fun path => if String.eqb path "./models/general_model_2.0.0.joblib"
                then Some (Ok Samples.general_model) else None in
  let after := fst (predict_university_marks (init "./models/") stored
                      (PDict Samples.complete_student) None) in
  sget "model_used"
    (snd (predict_university_marks after Samples.no_files
            (PDict Samples.complete_student) None))
  = Some (PStr "general").
Proof.
  intros stored after.
  assert (Hr : resolve_model (init "./models/") stored None
               = Ok (after, "general", Samples.general_model))
    by reflexivity.
  destruct (resolved_model_is_cached (init "./models/") after stored None
              "general" Samples.general_model Hr Samples.no_files
              (PDict Samples.complete_student)) as [H _].
  rewrite H. reflexivity.
Defined.

(** *** Malformed input *)

Lemma positive_marks_raises (l : list pyval) :
  (exists v, In v l /\ num_of v = None) ->
  exists e, positive_marks l = Raise e.
Proof.
  induction l as [|x l IH]; intros (v & Hin & Hv); [contradiction|].
  cbn [positive_marks]. unfold py_gt0.
  destruct (num_of x) as [q|] eqn:Hx; [|eexists; reflexivity].
  cbn [bind]. destruct Hin as [-> | Hin]; [congruence|].
  destruct (IH (ex_intro _ v (conj Hin Hv))) as [e He].
  exists e. now rewrite He.
Qed.

(** X8: A mark that is not a number (None, a string, a list) makes the
    prediction fail, with or without a model: the result is a failure
    dictionary with an error message and no marks. *)
Theorem non_numeric_mark_fails (self : t) (fs : filesystem)
  (d marks : sdict pyval) (sid : option Z) (exam : string) (v : pyval) :
  sget "marks" d = Some (PDict marks) ->
  In exam internal_exams ->
  sget exam marks = Some v ->
  num_of v = None ->
  let r := snd (predict_university_marks self fs (PDict d) sid) in
  sget "success" r = Some (PBool false)
  /\ (exists msg, sget "error" r = Some (PStr msg))
  /\ sget "predicted_marks" r = None.
Proof.
  intros Hm Hin Hv Hn r.
  assert (Hf : forall self', exists e,
             _prepare_prediction_features self' (PDict d) = Raise e).
  { intro self'. unfold _prepare_prediction_features.
    unfold py_get at 1. rewrite Hm. cbn [bind].
    unfold py_get. cbn [bind].
    destruct (positive_marks_raises
                [ match sget "series_test_1" marks with
                  | Some v0 => v0 | None => PNum 0 end;
                  match sget "series_test_2" marks with
                  | Some v0 => v0 | None => PNum 0 end;
                  match sget "lab_internal" marks with
                  | Some v0 => v0 | None => PNum 0 end ]) as [e He].
    { exists v. split; [|exact Hn].
      destruct Hin as [<- | [<- | [<- | []]]]; rewrite Hv; cbn; auto. }
    exists e. now rewrite He. }
  unfold r, predict_university_marks.
  destruct (resolve_model self fs sid) as [[[self' key] m] | e].
  - destruct (Hf self') as [e He]. rewrite He. cbn.
    repeat split; eauto.
  - cbn. repeat split; eauto.
Qed.

Lemma non_numeric_mark_witness :
  sget "success"
    (snd (predict_university_marks Samples.both_registered Samples.no_files
            (PDict [ ("student_id", PNum 1);
                     ("marks", PDict [ ("series_test_2", PNone) ]) ])
            (Some 1%Z)))
  = Some (PBool false).
Proof.
  apply (non_numeric_mark_fails Samples.both_registered Samples.no_files
           [ ("student_id", PNum 1);
             ("marks", PDict [ ("series_test_2", PNone) ]) ]
           [ ("series_test_2", PNone) ] (Some 1%Z) "series_test_2" PNone);
    [reflexivity | right; now left | reflexivity | reflexivity].
Defined.

(** X9: One entry that is not a dictionary aborts the whole batch: the call
    raises, whatever the entries before and after it, and the results
    already computed are lost. *)
Theorem batch_predict_aborts_on_non_dict (self : t) (fs : filesystem)
  (sid : option Z) (before : list (sdict pyval)) (v : pyval)
  (after : list pyval) :
  (forall d, v <> PDict d) ->
  exists self' e,
    batch_predict self fs (map PDict before ++ v :: after)%list sid
    = (self', Raise e).
Proof.
  intro Hv. revert self.
  induction before as [|d ds IH]; intro self.
  - cbn [map app batch_predict]. unfold batch_predict_item.
    destruct (predict_university_marks self fs v sid) as [self' p].
    assert (G : forall k, exists e, py_get v k PNone = Raise e).
    { intro k. destruct v; try (eexists; reflexivity).
      exfalso. now apply (Hv d). }
    destruct (G "student_id") as [e He]. rewrite He. cbn [bind].
    eexists. eexists. reflexivity.
  - cbn [map app batch_predict]. rewrite batch_item_dict.
    destruct (IH (Spec.registry_after self fs sid)) as (self' & e & He).
    rewrite He. eexists. eexists. reflexivity.
Qed.

Lemma batch_predict_aborts_witness :
  exists self' e,
    batch_predict Samples.both_registered Samples.no_files
      [PDict Samples.complete_student; PNone] (Some 1%Z)
    = (self', Raise e).
Proof.
  apply (batch_predict_aborts_on_non_dict Samples.both_registered
           Samples.no_files (Some 1%Z) [Samples.complete_student] PNone []).
  discriminate.
Defined.

End PredictorMore.

(** * Further properties of the training table *)

Module TrainingMore.
Import PredictionService TrainingFacts Notions.

Lemma key_eqb_eq (a b : Z * Z) : key_eqb a b = true <-> a = b.
Proof.
  destruct a as [a1 a2], b as [b1 b2]. unfold key_eqb. cbn [fst snd].
  rewrite andb_true_iff, !Z.eqb_eq. split.
  - intros [-> ->]. reflexivity.
  - intro E. injection E as -> ->. auto.
Qed.

Lemma key_eqb_refl (a : Z * Z) : key_eqb a a = true.
Proof. now apply key_eqb_eq. Qed.

Lemma group_get_set_same (k : Z * Z) (g : group)
  (d : dict (K:=Z * Z) (V:=group)) :
  dict_get key_eqb k (dict_set key_eqb k g d) = Some g.
Proof.
  induction d as [|[k' g'] d IH]; cbn.
  - now rewrite key_eqb_refl.
  - destruct (key_eqb k k') eqn:E; cbn.
    + now rewrite key_eqb_refl.
    + now rewrite E.
Qed.

Lemma group_get_set_other (k k' : Z * Z) (g : group)
  (d : dict (K:=Z * Z) (V:=group)) :
  k' <> k ->
  dict_get key_eqb k' (dict_set key_eqb k g d) = dict_get key_eqb k' d.
Proof.
  intro Hne.
  assert (F : key_eqb k' k = false).
  { destruct (key_eqb k' k) eqn:E; [|reflexivity].
    apply key_eqb_eq in E. contradiction. }
  induction d as [|[k0 g0] d IH]; cbn.
  - now rewrite F.
  - destruct (key_eqb k k0) eqn:E; cbn.
    + apply key_eqb_eq in E. subst k0. now rewrite F.
    + destruct (key_eqb k' k0); [reflexivity | exact IH].
Qed.

(** One step of the grouping loop, seen through [group_percentage]. *)
Lemma group_step (mk : mark) (p : Q)
  (acc : dict (K:=Z * Z) (V:=group)) (data0 : group) (s j : Z)
  (exam : string) :
  g_marks data0 = [] ->
  let key := (m_student_id mk, m_subject_id mk) in
  let data := match dict_get key_eqb key acc with
              | Some g => g
              | None => data0
              end in
  group_percentage
    (dict_set key_eqb key
       (with_marks data (sset (m_exam_type mk) p (g_marks data))) acc)
    s j exam
  = if same_exam s j exam mk then Some p else group_percentage acc s j exam.
Proof.
  intros H0 key data. unfold group_percentage, same_exam.
  destruct (Z.eqb_spec (m_student_id mk) s) as [Es | Ns];
    [destruct (Z.eqb_spec (m_subject_id mk) j) as [Ej | Nj]|]; cbn [andb].
  - assert (Ek : (s, j) = key) by (unfold key; congruence).
    rewrite Ek, group_get_set_same. cbn [with_marks g_marks].
    destruct (String.eqb_spec (m_exam_type mk) exam) as [-> | Ne].
    + apply sget_sset_same.
    + rewrite sget_sset_other by congruence.
      unfold data. destruct (dict_get key_eqb key acc); [reflexivity|].
      now rewrite H0.
  - rewrite group_get_set_other; [reflexivity|].
    unfold key. intro E. injection E as E1 E2. congruence.
  - rewrite group_get_set_other; [reflexivity|].
    unfold key. intro E. injection E as E1 E2. congruence.
Qed.

Lemma group_marks_total (marks_data : list mark) :
  (forall mk, In mk marks_data -> ~ m_max_marks mk == 0) ->
  forall acc, exists groups, group_marks marks_data acc = Ok groups.
Proof.
  induction marks_data as [|mk rest IH]; intros Hnz acc.
  - now exists acc.
  - cbn [group_marks]. unfold percentage_of.
    destruct (Qeq_bool (m_max_marks mk) 0) eqn:E.
    + apply Qeq_bool_iff in E. exfalso. apply (Hnz mk); [now left | exact E].
    + cbn [bind]. apply IH. intros m Hm. apply Hnz. now right.
Qed.

Lemma group_marks_app (l1 l2 : list mark) :
  forall acc,
    group_marks (l1 ++ l2) acc
    = (groups <- group_marks l1 acc ;; group_marks l2 groups).
Proof.
  induction l1 as [|mk rest IH]; intro acc; [reflexivity|].
  cbn [app group_marks].
  destruct (percentage_of mk) as [p|e]; cbn [bind]; [apply IH | reflexivity].
Qed.

(** Marks of other exams leave the percentage of an exam as it was. *)
Lemma group_marks_frame (l : list mark) (s j : Z) (exam : string) :
  (forall mk, In mk l -> same_exam s j exam mk = false) ->
  forall acc groups,
    group_marks l acc = Ok groups ->
    group_percentage groups s j exam = group_percentage acc s j exam.
Proof.
  induction l as [|mk rest IH]; intros Hno acc groups H.
  - cbn in H. congruence.
  - cbn [group_marks] in H.
    destruct (percentage_of mk) as [p|e]; cbn [bind] in H; [|discriminate].
    rewrite (IH (fun m Hm => Hno m (or_intror Hm)) _ _ H).
    rewrite group_step by reflexivity.
    now rewrite (Hno mk (or_introl eq_refl)).
Qed.

(** X10: Grouping (lines 60-74): for each student, subject and exam the table
    keeps the percentage of the last mark in the list; an exam with no
    mark has no entry.  Earlier marks of the same exam are overwritten
    without notice. *)
Theorem grouping_last_mark_wins (marks_data : list mark) (s j : Z)
  (exam : string) :
  (forall mk, In mk marks_data -> ~ m_max_marks mk == 0) ->
  exists groups,
    group_marks marks_data [] = Ok groups
    /\ (forall before mk after,
          marks_data = (before ++ mk :: after)%list ->
          same_exam s j exam mk = true ->
          (forall m, In m after -> same_exam s j exam m = false) ->
          group_percentage groups s j exam
          = Some (m_marks_obtained mk / m_max_marks mk * 100))
    /\ ((forall m, In m marks_data -> same_exam s j exam m = false) ->
        group_percentage groups s j exam = None).
Proof.
  intro Hnz.
  destruct (group_marks_total marks_data Hnz []) as [groups Hg].
  exists groups. split; [exact Hg|]. split.
  - intros before mk after E Hmk Hafter. subst marks_data.
    rewrite group_marks_app in Hg.
    destruct (group_marks before []) as [g1|e] eqn:H1; cbn [bind] in Hg;
      [|discriminate].
    cbn [group_marks] in Hg. unfold percentage_of in Hg.
    destruct (Qeq_bool (m_max_marks mk) 0); cbn [bind] in Hg; [discriminate|].
    rewrite (group_marks_frame after s j exam Hafter _ _ Hg).
    rewrite group_step by reflexivity. now rewrite Hmk.
  - intro Hno. now rewrite (group_marks_frame marks_data s j exam Hno _ _ Hg).
Qed.

Lemma grouping_last_mark_wins_witness :
  let mk obtained :=
    {| m_student_id := 1; m_subject_id := 1;
       m_exam_type := "series_test_1";
       m_marks_obtained := obtained; m_max_marks := 50;
       m_subject_type := Some "theory"; m_semester := Some 3%Z |} in
  exists groups,
    group_marks [mk 20; mk 40] [] = Ok groups
    /\ group_percentage groups 1 1 "series_test_1" = Some (40 / 50 * 100).
Proof.
  intro mk.
  destruct (grouping_last_mark_wins [mk 20; mk 40] 1 1 "series_test_1")
    as (groups & Hg & Hlast & _).
  - intros m [<- | [<- | []]]; cbn; intro E; discriminate E.
  - exists groups. split; [exact Hg|].
    apply (Hlast [mk 20] (mk 40) []); [reflexivity | reflexivity|].
    intros m [].
Defined.

(** *** Marks out of zero *)

Lemma group_marks_needs_max (l : list mark) :
  forall acc groups,
    group_marks l acc = Ok groups ->
    forall mk, In mk l -> ~ m_max_marks mk == 0.
Proof.
  induction l as [|m rest IH]; intros acc groups H mk Hin; [contradiction|].
  cbn [group_marks] in H. unfold percentage_of in H.
  destruct (Qeq_bool (m_max_marks m) 0) eqn:E; cbn [bind] in H;
    [discriminate|].
  destruct Hin as [<- | Hin].
  - now apply Qeq_bool_neq.
  - exact (IH _ _ H mk Hin).
Qed.

(** X11: A single mark recorded out of zero, of any student and any exam,
    stops the construction of the whole training table with a division
    error; the trainer defined at line 121 reports it as a failed training
    and registers nothing. *)
Theorem zero_max_marks_aborts_training (sk : sklearn) (self : t)
  (fs : filesystem) (marks_data : list mark) (subject_id : tval) :
  (exists mk, In mk marks_data /\ m_max_marks mk == 0) ->
  exists msg,
    prepare_training_data self marks_data = Raise (ZeroDivisionError msg)
    /\ train_model_L121 sk self fs (TMarks marks_data) subject_id
       = (self, fs,
          Ok (RetDict [ ("success", PBool false); ("error", PStr msg) ])).
Proof.
  intros (mk & Hin & Hz).
  destruct (group_marks marks_data []) as [groups|e] eqn:Hg.
  { exfalso. exact (group_marks_needs_max _ _ _ Hg mk Hin Hz). }
  pose proof (group_marks_error _ _ _ Hg) as ->.
  exists "division by zero".
  assert (Hp : prepare_training_data self marks_data
               = Raise (ZeroDivisionError "division by zero")).
  { unfold prepare_training_data. now rewrite Hg. }
  split; [exact Hp|].
  unfold train_model_L121. cbn [bind]. now rewrite Hp.
Qed.

Lemma zero_max_marks_witness :
  let broken :=
    {| m_student_id := 99; m_subject_id := 7;
       m_exam_type := "assignment";
       m_marks_obtained := 0; m_max_marks := 0;
       m_subject_type := None; m_semester := None |} in
  exists msg,
    prepare_training_data (init "./models/")
      (Samples.fifteen_students ++ [broken])
    = Raise (ZeroDivisionError msg).
Proof.
  intro broken.
  destruct (zero_max_marks_aborts_training Samples.strict_sklearn
              (init "./models/") Samples.no_files
              (Samples.fifteen_students ++ [broken]) (TInt 1))
    as (msg & H & _).
  - exists broken. split; [apply in_or_app; right; now left | reflexivity].
  - exists msg. exact H.
Defined.

(** *** The shape of the training table *)

Lemma training_record_qualifies (g : group) :
  match training_record g with
  | Some r =>
      qualifies g = true
      /\ dict_keys r = record_keys
      /\ get_or "university_percentage" r 0 = get_or "university" (g_marks g) 0
  | None => qualifies g = false
  end.
Proof.
  unfold training_record, qualifies.
  destruct (sin "university" (g_marks g)); [|reflexivity].
  destruct (2 <=? _)%nat; [|reflexivity].
  repeat split.
Qed.

Lemma training_records_rows (gs : list group) :
  Forall2 (fun g r => training_record g = Some r)
    (filter qualifies gs) (training_records gs).
Proof.
  induction gs as [|g gs IH]; [constructor|].
  cbn [filter training_records].
  pose proof (training_record_qualifies g) as H.
  destruct (training_record g) as [r|] eqn:E.
  - destruct H as [-> _]. now constructor.
  - now rewrite H.
Qed.

Lemma select_columns_present (columns : list string)
  (records : list (sdict Q)) :
  (forall c, In c columns -> In c (frame_columns records)) ->
  select_columns columns records
  = Ok (map (fun r => map (fun c => get_or c r 0) columns) records).
Proof.
  intro Hin. unfold select_columns.
  assert (F : filter
                (fun c => negb (existsb (String.eqb c) (frame_columns records)))
                columns = []).
  { induction columns as [|c cs IH]; [reflexivity|]. cbn [filter].
    assert (E : existsb (String.eqb c) (frame_columns records) = true).
    { apply existsb_exists. exists c. split; [apply Hin; now left|].
      apply String.eqb_refl. }
    rewrite E. cbn [negb]. apply IH. intros c' Hc. apply Hin. now right. }
  now rewrite F.
Qed.

Lemma Forall2_map_eq {A B C} (R : A -> B -> Prop) (f : A -> C) (g : B -> C)
  (l1 : list A) (l2 : list B) :
  Forall2 R l1 l2 -> (forall a b, R a b -> f a = g b) ->
  map f l1 = map g l2.
Proof.
  intros H Hfg. induction H as [|a b l1 l2 Hab _ IH]; [reflexivity|].
  cbn. now rewrite (Hfg a b Hab), IH.
Qed.

(** X12: The training table has one row for each (student, subject) pair with
    a university mark and at least two internal exams, in the order of
    the grouped marks; each row has one value per feature column and the
    target is the pair's university percentage.  With no
    such pair the call raises [ValueError].  The feature columns must be
    among the columns of the records. *)
Theorem training_table_shape (self : t) (marks_data : list mark)
  (groups : dict (K:=Z * Z) (V:=group)) :
  group_marks marks_data [] = Ok groups ->
  (forall c, In c (feature_columns self) -> In c record_keys) ->
  let chosen := filter qualifies (dict_values groups) in
  (chosen = [] ->
   prepare_training_data self marks_data
   = Raise (ValueError
       "No valid training data found. Need students with university marks and internal assessments."))
  /\ (chosen <> [] ->
      exists X,
        prepare_training_data self marks_data
        = Ok (X, map (fun g => get_or "university" (g_marks g) 0) chosen)
        /\ List.length X = List.length chosen
        /\ Forall (fun row =>
                     List.length row = List.length (feature_columns self)) X).
Proof.
  intros Hg Hcols chosen.
  pose proof (training_records_rows (dict_values groups)) as F2.
  fold chosen in F2.
  unfold prepare_training_data. rewrite Hg. cbn [bind].
  destruct (training_records (dict_values groups)) as [|r rs] eqn:Hr.
  - split; [reflexivity|]. intro Hne. inversion F2. congruence.
  - split; [intro E; rewrite E in F2; inversion F2|]. intros _.
    assert (Hk : frame_columns (r :: rs) = record_keys).
    { inversion F2 as [|g r' gs' rs' Hgr _ E1 E2]; subst.
      pose proof (training_record_qualifies g) as H. rewrite Hgr in H.
      apply H. }
    rewrite (select_columns_present (feature_columns self) (r :: rs))
      by (intros c Hc; rewrite Hk; now apply Hcols).
    cbn [bind].
    rewrite (select_columns_present ["university_percentage"] (r :: rs))
      by (intros c [<- | []]; rewrite Hk; cbn; tauto).
    cbn [bind].
    assert (Hy : map (fun row => hd 0 row)
                   (map (fun r0 => map (fun c => get_or c r0 0)
                                       ["university_percentage"]) (r :: rs))
                 = map (fun g => get_or "university" (g_marks g) 0) chosen).
    { rewrite map_map. symmetry.
      apply (Forall2_map_eq _ _ _ _ _ F2).
      intros g r0 Hgr. pose proof (training_record_qualifies g) as H.
      rewrite Hgr in H. cbn [map hd]. symmetry. apply H. }
    rewrite Hy.
    eexists. split; [reflexivity|]. split.
    + rewrite length_map. symmetry. exact (Forall2_length F2).
    + apply Forall_forall. intros row Hrow. apply in_map_iff in Hrow.
      destruct Hrow as (r0 & <- & _). apply length_map.
Qed.

Lemma training_table_shape_witness :
  exists X y,
    prepare_training_data (six_features (init "./models/"))
      Samples.fifteen_students = Ok (X, y)
    /\ List.length X = 15%nat.
Proof.
  pose (groups := match group_marks Samples.fifteen_students [] with
                  | Ok g => g
                  | Raise _ => []
                  end).
  destruct (training_table_shape (six_features (init "./models/"))
              Samples.fifteen_students groups) as [_ H].
  - vm_compute. reflexivity.
  - intros c Hc. cbn in Hc. unfold record_keys. cbn. tauto.
  - destruct H as (X & HX & Hlen & _).
    + vm_compute. discriminate.
    + eexists. eexists. split; [exact HX|]. rewrite Hlen. vm_compute.
      reflexivity.
Defined.

(** *** Selection and persistence (the definition at line 121) *)

Lemma try_models_all_evaluated (sk : sklearn)
  (X_train y_train X_test y_test : tval) (cands : sdict estimator) :
  forall st0 st,
    try_models sk cands X_train y_train X_test y_test st0 = Ok st ->
    forall c, In c cands ->
      exists m mae e,
        evaluate sk (snd c) X_train y_train X_test y_test = Ok (m, mae, e).
Proof.
  induction cands as [|[n0 e0] rest IH]; intros st0 st H c Hin;
    [contradiction|].
  cbn [try_models] in H.
  destruct (evaluate sk e0 X_train y_train X_test y_test)
    as [[[m0 mae0] en0] | ex] eqn:E; cbn [bind] in H; [|discriminate].
  destruct Hin as [<- | Hin].
  - cbn [snd]. rewrite E. now exists m0, mae0, en0.
  - exact (IH _ _ H c Hin).
Qed.

(** What a scored candidate holds: the fitted estimator, its errors on the
    held-out split and the entry made of them. *)
Lemma evaluate_inv (sk : sklearn) (unfitted : estimator)
  (X_train y_train X_test y_test : tval) (m : model) (mae : Q) (e : pyval) :
  evaluate sk unfitted X_train y_train X_test y_test = Ok (m, mae, e) ->
  exists y_true y_pred mse r2,
    fit sk unfitted X_train y_train = Ok m
    /\ model_predict m X_test = Ok y_pred
    /\ series_of y_test = Ok y_true
    /\ mean_absolute_error y_true y_pred = Ok mae
    /\ mean_squared_error y_true y_pred = Ok mse
    /\ r2_score sk y_true y_pred = Ok r2
    /\ e = metrics_entry mae mse (np_sqrt sk mse) r2.
Proof.
  unfold evaluate. intro H.
  destruct (fit sk unfitted X_train y_train) as [m0|] eqn:E1;
    cbn [bind] in H; [|discriminate].
  destruct (model_predict m0 X_test) as [y_pred|] eqn:E2;
    cbn [bind] in H; [|discriminate].
  destruct (series_of y_test) as [y_true|] eqn:E3;
    cbn [bind] in H; [|discriminate].
  destruct (mean_absolute_error y_true y_pred) as [mae0|] eqn:E4;
    cbn [bind] in H; [|discriminate].
  destruct (mean_squared_error y_true y_pred) as [mse|] eqn:E5;
    cbn [bind] in H; [|discriminate].
  destruct (r2_score sk y_true y_pred) as [r2|] eqn:E6;
    cbn [bind] in H; [|discriminate].
  injection H as <- <- <-.
  exists y_true, y_pred, mse, r2. rewrite E2. auto 10.
Qed.

Lemma update_selection_results (st : selection) (model_name : string)
  (m : model) (mae : Q) (e : pyval) :
  model_results (update_selection st model_name (m, mae, e))
  = sset model_name e (model_results st).
Proof.
  unfold update_selection. destruct (improves mae (best_score st));
    reflexivity.
Qed.

(** The loop leaves the entries of other names alone, and stores under
    each name the entry of its candidate. *)
Lemma try_models_stored (sk : sklearn)
  (X_train y_train X_test y_test : tval) (cands : sdict estimator) :
  forall st0 st,
    try_models sk cands X_train y_train X_test y_test st0 = Ok st ->
    (forall k, ~ In k (map fst cands) ->
       sget k (model_results st) = sget k (model_results st0))
    /\ (NoDup (map fst cands) ->
        forall c m mae e, In c cands ->
          evaluate sk (snd c) X_train y_train X_test y_test = Ok (m, mae, e) ->
          sget (fst c) (model_results st) = Some e).
Proof.
  induction cands as [|[n0 e0] rest IH]; intros st0 st H.
  { cbn in H. injection H as <-. split; [reflexivity | intros _ c ? ? ? []]. }
  cbn [try_models] in H.
  destruct (evaluate sk e0 X_train y_train X_test y_test)
    as [[[m0 mae0] en0] | ex] eqn:E; cbn [bind] in H; [|discriminate].
  destruct (IH _ _ H) as [Hother Hstored].
  rewrite update_selection_results in Hother.
  split.
  - intros k Hk. cbn [map fst In] in Hk.
    rewrite Hother by tauto.
    apply sget_sset_other. intro Ek. apply Hk. left. now symmetry.
  - intros Hnd c m mae e Hin Hev. cbn [map fst] in Hnd.
    inversion Hnd as [|x l Hnotin Hnd']; subst.
    destruct Hin as [<- | Hin].
    + cbn [fst snd] in *. rewrite E in Hev. injection Hev as _ _ <-.
      rewrite (Hother n0 Hnotin). apply sget_sset_same.
    + exact (Hstored Hnd' c m mae e Hin Hev).
Qed.

(** X13: The selection loop (lines 163-189) succeeds only if every candidate
    is fitted and scored; it then keeps the first candidate of lowest
    mean absolute error (a later candidate replaces the kept one only by
    a strictly lower error) and records the metrics of every candidate:
    the names of the candidates being distinct, as the keys of
    [models_to_try] are, the results hold under the name of each
    candidate the entry [{mae, mse, rmse, r2}] made of the errors of its
    fitted estimator on the held-out split, [rmse] being the square root
    of [mse]. *)
Theorem selection_keeps_first_lowest_mae (sk : sklearn)
  (X_train y_train X_test y_test : tval) (cands : sdict estimator)
  (st : selection) :
  cands <> [] ->
  try_models sk cands X_train y_train X_test y_test selection0 = Ok st ->
  (forall c, In c cands ->
     exists m mae e,
       evaluate sk (snd c) X_train y_train X_test y_test = Ok (m, mae, e))
  /\ (exists before name est after m mae e,
       cands = (before ++ (name, est) :: after)%list
       /\ evaluate sk est X_train y_train X_test y_test = Ok (m, mae, e)
       /\ best_model st = Some m /\ best_score st = Some mae
       /\ best_model_name st = Some name
       /\ (forall c m' mae' e', In c before ->
             evaluate sk (snd c) X_train y_train X_test y_test
             = Ok (m', mae', e') -> mae < mae')
       /\ (forall c m' mae' e', In c after ->
             evaluate sk (snd c) X_train y_train X_test y_test
             = Ok (m', mae', e') -> mae <= mae')
       /\ (forall c, In c cands -> sin (fst c) (model_results st) = true))
  /\ (forall k, ~ In k (map fst cands) -> sget k (model_results st) = None)
  /\ (NoDup (map fst cands) ->
      forall c m mae e, In c cands ->
        evaluate sk (snd c) X_train y_train X_test y_test = Ok (m, mae, e) ->
        sget (fst c) (model_results st) = Some e
        /\ exists y_true y_pred mse r2,
             fit sk (snd c) X_train y_train = Ok m
             /\ model_predict m X_test = Ok y_pred
             /\ series_of y_test = Ok y_true
             /\ mean_absolute_error y_true y_pred = Ok mae
             /\ mean_squared_error y_true y_pred = Ok mse
             /\ r2_score sk y_true y_pred = Ok r2
             /\ e = metrics_entry mae mse (np_sqrt sk mse) r2).
Proof.
  intros Hne H.
  destruct (try_models_stored _ _ _ _ _ _ _ _ H) as [Hother Hstored].
  split; [|split; [|split]].
  - exact (try_models_all_evaluated _ _ _ _ _ _ _ _ H).
  - exact (try_models_first_minimum sk X_train y_train X_test y_test
             cands st Hne H).
  - intros k Hk. rewrite (Hother k Hk). reflexivity.
  - intros Hnd c m mae e Hin Hev. split.
    + exact (Hstored Hnd c m mae e Hin Hev).
    + exact (evaluate_inv _ _ _ _ _ _ _ _ _ Hev).
Qed.

Lemma selection_keeps_first_witness :
  let run :=
    try_models Samples.strict_sklearn models_to_try
      (TFrame [[1]]) (TSeries [70]) (TFrame [[1]]) (TSeries [64])
      selection0 in
  exists st,
    run = Ok st
    /\ best_model_name st = Some "random_forest"
    /\ sget "xgboost" (model_results st) = Some (metrics_entry 6 36 36 0).
Proof.
  intro run.
  pose (st := match run with Ok st => st | Raise _ => selection0 end).
  assert (Hrun : run = Ok st) by (vm_compute; reflexivity).
  destruct (selection_keeps_first_lowest_mae Samples.strict_sklearn
              (TFrame [[1]]) (TSeries [70]) (TFrame [[1]]) (TSeries [64])
              models_to_try st) as (_ & _ & _ & H);
    [discriminate | exact Hrun |].
  destruct (H ltac:(repeat constructor; cbn; intuition discriminate)
              ("xgboost", XGB_100_depth6) (Samples.constant_model 70) 6
              (metrics_entry 6 36 36 0)) as [Hs _].
  - right. left. reflexivity.
  - vm_compute. reflexivity.
  - exists st. split; [exact Hrun|]. split; [vm_compute; reflexivity|].
    exact Hs.
Defined.

Lemma train_model_L121_success_inv (sk : sklearn) (self self' : t)
  (fs fs' : filesystem) (a subject_id : tval) (d : sdict pyval) :
  train_model_L121 sk self fs a subject_id = (self', fs', Ok (RetDict d)) ->
  sget "success" d = Some (PBool true) ->
  let model_key :=
    subject_key_of (match subject_id with TInt n => Some n | _ => None end) in
  let model_filepath :=
    os_path_join (model_path self)
      (model_key ++ "_model_" ++ model_version self ++ ".joblib") in
  exists best,
    self' = set_models self (sset model_key best (models self))
    /\ fs' = fs_write model_filepath best fs
    /\ sget "model_path" d = Some (PStr model_filepath).
Proof.
  intros H Hs model_key model_filepath. unfold train_model_L121 in H.
  match type of H with
  | context [match ?body with Ok _ => _ | Raise _ => _ end] =>
      destruct body as [[[X_train X_test] st] | e]
  end.
  2:{ injection H as <- <- <-. discriminate Hs. }
  destruct (best_model st) as [best|];
    [destruct (best_model_name st) as [best_name|]|].
  2,3: injection H as <- <- <-; discriminate Hs.
  fold model_key in H. fold model_filepath in H.
  injection H as <- <- <-. exists best. split; [reflexivity|].
  split; [reflexivity|].
  destruct (tval_len X_train) as [n1|]; cbn [bind try_except] in *;
    [|discriminate Hs].
  destruct (tval_len X_test) as [n2|]; cbn [bind try_except] in *;
    [|discriminate Hs].
  destruct (sget best_name (model_results st)); cbn [bind try_except] in *;
    [reflexivity | discriminate Hs].
Qed.

(** X14: A model trained by the method defined at line 121 serves no
    prediction while a production model is loaded.  That training
    succeeds only with a feature schema other than the default one, which
    the service takes from the production package whose model it
    registers as [production_best]; in such a service a successful
    training registers the trained model under the key of the subject and
    writes it to the file whose path the result reports, but every
    request, of the trained subject or any other, is still resolved to
    the production model. *)
Theorem trained_model_shadowed_by_production_model (sk : sklearn)
  (self self' : t) (fs fs' : filesystem) (a subject_id : tval)
  (d : sdict pyval) (production : model) :
  train_model_L121 sk self fs a subject_id = (self', fs', Ok (RetDict d)) ->
  sget "success" d = Some (PBool true) ->
  sget "production_best" (models self) = Some production ->
  let sid := match subject_id with TInt n => Some n | _ => None end in
  feature_columns self <> default_feature_columns
  /\ exists best,
       sget (subject_key_of sid) (models self') = Some best
       /\ (exists path, sget "model_path" d = Some (PStr path)
                        /\ fs' path = Some (Ok best))
       /\ (forall fs0 requested,
             resolve_model self' fs0 requested
             = Ok (self', "production_best", production)).
Proof.
  intros H Hs Hb sid. split.
  - intro Hdef. unfold train_model_L121 in H.
    assert (Hprep : forall marks,
              prepare_training_data self marks
              = prepare_training_data (init (model_path self)) marks).
    { intro marks. unfold prepare_training_data. now rewrite Hdef. }
    destruct a as [marks| | | |];
      try (cbn [bind] in H; injection H as <- <- <-; discriminate Hs).
    cbn [bind] in H. rewrite Hprep in H.
    destruct (TrainingFacts.prepare_training_data_default_schema
                (model_path self) marks) as (e & He & _).
    rewrite He in H. cbn [bind] in H. injection H as <- <- <-.
    discriminate Hs.
  - destruct (train_model_L121_success_inv _ _ _ _ _ _ _ _ H Hs)
      as (best & -> & -> & Hpath).
    fold sid in Hpath.
    destruct (PredictorFacts.subject_key_not_production sid) as [Hne _].
    exists best. split; [|split].
    + cbn [models set_models]. apply sget_sset_same.
    + eexists. split; [exact Hpath|]. unfold fs_write.
      now rewrite String.eqb_refl.
    + intros fs0 requested. unfold resolve_model. cbn [models set_models].
      rewrite sget_sset_other by (intro E; now symmetry in E).
      now rewrite Hb.
Qed.

Lemma trained_model_shadowed_witness :
  let self := six_features Samples.both_registered in
  let trained :=
    train_model_L121 Samples.strict_sklearn self Samples.no_files
      (TMarks Samples.fifteen_students) (TInt 1) in
  exists best,
    sget "subject_1" (models (fst (fst trained))) = Some best
    /\ resolve_model (fst (fst trained)) Samples.no_files (Some 1%Z)
       = Ok (fst (fst trained), "production_best", Samples.production_model).
Proof.
  intros self trained.
  pose (d := match snd trained with
             | Ok (RetDict d) => d
             | _ => []
             end).
  destruct (trained_model_shadowed_by_production_model Samples.strict_sklearn
              self (fst (fst trained)) Samples.no_files (snd (fst trained))
              (TMarks Samples.fifteen_students) (TInt 1) d
              Samples.production_model)
    as (_ & best & Hreg & _ & H).
  - vm_compute. reflexivity.
  - vm_compute. reflexivity.
  - reflexivity.
  - exists best. split; [exact Hreg | exact (H Samples.no_files (Some 1%Z))].
Defined.

(** *** Accuracy within a threshold (the definition at line 593) *)

(** X15: The share of predictions within [threshold_percent] of the true value
    lies between 0 and 1.  A sample whose true value is 0 never counts as
    accurate, not even when it is predicted exactly, so a target column
    of zeros scores 0; predictions that are all within the threshold of
    non-zero true values score 1. *)
Theorem accuracy_within_threshold_range (y_true y_pred : list Q)
  (threshold_percent : Q) :
  y_true <> [] -> List.length y_true = List.length y_pred ->
  let accuracy :=
    _calculate_accuracy_within_threshold y_true y_pred threshold_percent in
  0 <= accuracy <= 1
  /\ ((forall t, In t y_true -> t == 0) -> accuracy == 0)
  /\ ((forall t p, In (t, p) (combine y_true y_pred) ->
         ~ t == 0 /\ Qabs ((p - t) / t) * 100 <= threshold_percent) ->
      accuracy == 1).
Proof.
  intros Hne Hlen accuracy.
  set (hit := fun p : Q * Q =>
                if Qeq_bool (fst p) 0 then 0
                else if Qle_bool (Qabs ((snd p - fst p) / fst p) * 100)
                                 threshold_percent
                     then 1 else 0).
  assert (Hc : map hit (combine y_true y_pred) <> []).
  { destruct y_true as [|t ts]; [congruence|].
    destruct y_pred as [|p ps]; [discriminate|]. discriminate. }
  assert (Hacc : accuracy = np_mean (map hit (combine y_true y_pred)))
    by reflexivity.
  rewrite Hacc. split; [|split].
  - apply PredictorMore.np_mean_bounds; [exact Hc|].
    intros x Hx. apply in_map_iff in Hx. destruct Hx as (p & <- & _).
    unfold hit. destruct (Qeq_bool (fst p) 0); [lra|].
    destruct (Qle_bool _ _); lra.
  - intro Hz.
    assert (B : 0 <= np_mean (map hit (combine y_true y_pred)) <= 0).
    { apply PredictorMore.np_mean_bounds; [exact Hc|].
      intros x Hx. apply in_map_iff in Hx. destruct Hx as ([t p] & <- & Hin).
      unfold hit. cbn [fst snd].
      assert (Ht : t == 0) by (apply Hz; exact (in_combine_l _ _ _ _ Hin)).
      apply Qeq_bool_iff in Ht. rewrite Ht. lra. }
    lra.
  - intro Hall.
    assert (B : 1 <= np_mean (map hit (combine y_true y_pred)) <= 1).
    { apply PredictorMore.np_mean_bounds; [exact Hc|].
      intros x Hx. apply in_map_iff in Hx. destruct Hx as ([t p] & <- & Hin).
      unfold hit. cbn [fst snd]. destruct (Hall t p Hin) as [Hnz Hle].
      destruct (Qeq_bool t 0) eqn:E;
        [apply Qeq_bool_iff in E; contradiction|].
      apply Qle_bool_iff in Hle. rewrite Hle. lra. }
    lra.
Qed.

Lemma accuracy_within_threshold_witness :
  _calculate_accuracy_within_threshold [0; 0] [0; 0] 10 == 0.
Proof.
  destruct (accuracy_within_threshold_range [0; 0] [0; 0] 10)
    as (_ & H & _); [discriminate | reflexivity |].
  apply H. intros t [<- | [<- | []]]; reflexivity.
Defined.

End TrainingMore.

(** * Properties of the decorators *)

Module DecoratorFacts.
Import Errors Notions.


(** X18: [handle_prediction_errors] raises nothing but the [PredictionError]
    or [ModelError] that the function itself raised.  Every other
    failure, a [DataError], a [DatabaseError] or a plain [MLServiceError]
    as much as a [ValueError], is answered by returning the fallback
    prediction computed from the arguments of the call.  Putting
    [handle_ml_errors] on top of it changes nothing. *)
Theorem prediction_errors_answered_by_fallback {S A} (rt : runtime)
  (name : string) (func : callable S A) (args : list pyval)
  (kwargs : sdict pyval) (s : S) :
  let r := handle_prediction_errors rt name func args kwargs s in
  fst r = fst (func args kwargs s)
  /\ match snd (func args kwargs s) with
     | Returns a => snd r = Returns (inl a)
     | Raises (Service se) =>
         match class_of se with
         | cPredictionError | cModelError => snd r = Raises (Service se)
         | _ =>
             snd r
             = Returns (inr (ErrorHandler.get_fallback_prediction args kwargs))
         end
     | Raises (Builtin _) =>
         snd r
         = Returns (inr (ErrorHandler.get_fallback_prediction args kwargs))
     end
  /\ (forall e, snd r = Raises e ->
        snd (func args kwargs s) = Raises e
        /\ exists se, e = Service se
                      /\ (class_of se = cPredictionError
                          \/ class_of se = cModelError))
  /\ handle_ml_errors rt name (handle_prediction_errors rt name func)
       args kwargs s = r.
Proof.
  intro r. unfold r, handle_ml_errors, handle_prediction_errors.
  destruct (func args kwargs s) as [s' [a | [se | x]]]; cbn.
  - split; [reflexivity|]. split; [reflexivity|]. split; [|reflexivity].
    intros e H. discriminate H.
  - destruct se as [c m code d ts]. cbn.
    destruct c; cbn;
      (split; [reflexivity|]; split; [reflexivity|];
       split; [|reflexivity]; intros e H;
       [discriminate H || (injection H as H; subst e; split; [reflexivity|];
          eexists; split; [reflexivity|]; cbn; auto)]).
  - split; [reflexivity|]. split; [reflexivity|]. split; [|reflexivity].
    intros e H. discriminate H.
Qed.

Lemma prediction_errors_answered_witness :
  let rt := {| utcnow := "2025-01-01T00:00:00";
               str_args := fun _ => "()";
               str_kwargs := fun _ => "{}";
               format_exc := fun _ => "" |} in
  let failing : callable unit unit :=
    fun _ _ s =>
      (s, Raises (Service (DataError (utcnow rt) "Request body is required"
                             []))) in
  snd (handle_prediction_errors rt "predict_marks" failing [] [] tt)
  = Returns (inr (ErrorHandler.get_fallback_prediction [] [])).
Proof.
  intros rt failing.
  destruct (prediction_errors_answered_by_fallback rt "predict_marks"
              failing [] [] tt) as (_ & H & _).
  exact H.
Defined.

(** *** Retrying *)

Lemma delay_not_negative (base_delay backoff_factor : Q) (k : nat) :
  0 <= base_delay -> 0 <= backoff_factor ->
  Qltb (base_delay * backoff_factor ^ Z.of_nat k) 0 = false.
Proof.
  intros Hb Hf. apply Qltb_ge.
  apply Qmult_le_0_compat; [exact Hb | now apply Qpower_0_le].
Qed.

Lemma retry_until_success {S A} (sleep : Q -> S -> S)
  (func : S -> S * outcome A) (max_retries : Z) (base_delay backoff_factor : Q)
  (s0 : S) (n : nat) (s' : S) (a : A) :
  0 <= base_delay -> 0 <= backoff_factor ->
  (Z.of_nat n <= max_retries)%Z ->
  (forall k, (k < n)%nat ->
     fails (snd (func (attempt_state sleep func base_delay backoff_factor
                         k s0))) = true) ->
  func (attempt_state sleep func base_delay backoff_factor n s0)
  = (s', Returns a) ->
  forall m i last,
    (i <= n < i + m)%nat ->
    retry_attempts sleep func max_retries base_delay backoff_factor
      (map Z.of_nat (seq i m))
      (attempt_state sleep func base_delay backoff_factor i s0) last
    = (s', inl (Returns a)).
Proof.
  intros Hb Hf Hmax Hfail Hok.
  induction m as [|m IH]; intros i last Hin; [lia|].
  cbn [seq map retry_attempts].
  destruct (Nat.eq_dec i n) as [-> | Hne].
  - now rewrite Hok.
  - assert (Hi : (i < n)%nat) by lia.
    pose proof (Hfail i Hi) as Hf'.
    destruct (func (attempt_state sleep func base_delay backoff_factor i s0))
      as [s1 [a1 | e]] eqn:E; [discriminate Hf'|].
    assert (Hz : Z.eqb (Z.of_nat i) max_retries = false)
      by (apply Z.eqb_neq; lia).
    rewrite Hz, (delay_not_negative _ _ _ Hb Hf).
    specialize (IH (Datatypes.S i) (Some e)).
    cbn [attempt_state] in IH. rewrite E in IH. cbn [fst] in IH.
    apply IH. lia.
Qed.

Lemma retry_until_exhausted {S A} (sleep : Q -> S -> S)
  (func : S -> S * outcome A) (max_retries : Z) (base_delay backoff_factor : Q)
  (s0 : S) :
  0 <= base_delay -> 0 <= backoff_factor -> (0 <= max_retries)%Z ->
  (forall k, (Z.of_nat k <= max_retries)%Z ->
     fails (snd (func (attempt_state sleep func base_delay backoff_factor
                         k s0))) = true) ->
  forall m i last,
    (Z.of_nat i + Z.of_nat m = max_retries + 1)%Z -> (0 < m)%nat ->
    exists e,
      snd (func (attempt_state sleep func base_delay backoff_factor
                   (Z.to_nat max_retries) s0)) = Raises e
      /\ retry_attempts sleep func max_retries base_delay backoff_factor
           (map Z.of_nat (seq i m))
           (attempt_state sleep func base_delay backoff_factor i s0) last
         = (fst (func (attempt_state sleep func base_delay backoff_factor
                         (Z.to_nat max_retries) s0)),
            inr (Some e)).
Proof.
  intros Hb Hf Hmax Hfail.
  induction m as [|m IH]; intros i last Hsum Hm; [lia|].
  cbn [seq map retry_attempts].
  assert (Hi : (Z.of_nat i <= max_retries)%Z) by lia.
  pose proof (Hfail i Hi) as Hf'.
  destruct (func (attempt_state sleep func base_delay backoff_factor i s0))
    as [s1 [a1 | e]] eqn:E; [discriminate Hf'|].
  destruct (Z.eqb_spec (Z.of_nat i) max_retries) as [Heq | Hne].
  - assert (Hn : Z.to_nat max_retries = i) by lia.
    rewrite Hn, E. exists e. split; reflexivity.
  - rewrite (delay_not_negative _ _ _ Hb Hf).
    specialize (IH (Datatypes.S i) (Some e)).
    cbn [attempt_state] in IH. rewrite E in IH. cbn [fst] in IH.
    apply IH; lia.
Qed.

(** X19: [retry_with_backoff] gives back the first success: if the first [n]
    attempts fail and attempt [n] succeeds, with [n] at most
    [max_retries], the wrapper returns that result in the state the
    successful call left.  Between the attempts it sleeps
    [base_delay * backoff_factor ^ k] after failed attempt [k]; the
    delays must not be negative. *)
Theorem retry_returns_first_success {S A} (rt : runtime)
  (sleep : Q -> S -> S) (name : string) (func : callable S A)
  (max_retries : Z) (base_delay backoff_factor : Q)
  (args : list pyval) (kwargs : sdict pyval) (s0 : S) (n : nat) (s' : S)
  (a : A) :
  0 <= base_delay -> 0 <= backoff_factor ->
  (Z.of_nat n <= max_retries)%Z ->
  (forall k, (k < n)%nat ->
     fails (snd (func args kwargs
                   (attempt_state sleep (func args kwargs) base_delay
                      backoff_factor k s0))) = true) ->
  func args kwargs
    (attempt_state sleep (func args kwargs) base_delay backoff_factor n s0)
  = (s', Returns a) ->
  retry_with_backoff rt sleep name func max_retries base_delay backoff_factor
    args kwargs s0
  = (s', Returns a).
Proof.
  intros Hb Hf Hmax Hfail Hok. unfold retry_with_backoff, range.
  pose proof (retry_until_success sleep (func args kwargs) max_retries
                base_delay backoff_factor s0 n s' a Hb Hf Hmax Hfail Hok
                (Z.to_nat (max_retries + 1)) 0%nat None) as H.
  cbn [attempt_state] in H. rewrite H by lia. reflexivity.
Qed.

Lemma retry_returns_first_success_witness :
  let rt := {| utcnow := "2025-01-01T00:00:00";
               str_args := fun _ => "()";
               str_kwargs := fun _ => "{}";
               format_exc := fun _ => "" |} in
  let flaky_function : callable nat string :=
    fun _ _ call_count =>
      (Datatypes.S call_count,
       if (Datatypes.S call_count <? 3)%nat
       then Raises (Builtin (ValueError "Temporary failure"))
       else Returns "success") in
  retry_with_backoff rt (fun _ s => s) "flaky_function" flaky_function
    3 1 2 [] [] 0%nat
  = (3%nat, Returns "success").
Proof.
  intros rt flaky_function.
  apply (retry_returns_first_success rt (fun _ s => s) "flaky_function"
           flaky_function 3 1 2 [] [] 0%nat 2%nat 3%nat "success").
  - lra.
  - lra.
  - lia.
  - intros k Hk. destruct k as [|[|k]]; [reflexivity | reflexivity | lia].
  - reflexivity.
Defined.

(** X20: When all [max_retries + 1] attempts fail, the wrapper raises an
    [MLServiceError] with code [RETRY_EXHAUSTED] that names the number of
    attempts and the text of the last error; no exception of the function
    itself comes out, and there is no sleep after the last attempt.  With
    a negative [max_retries] the function is not called at all. *)
Theorem retry_exhausted {S A} (rt : runtime)
  (sleep : Q -> S -> S) (name : string) (func : callable S A)
  (max_retries : Z) (base_delay backoff_factor : Q)
  (args : list pyval) (kwargs : sdict pyval) (s0 : S) :
  0 <= base_delay -> 0 <= backoff_factor ->
  let wrapper :=
    retry_with_backoff rt sleep name func max_retries base_delay
      backoff_factor in
  let exhausted last_error :=
    MLServiceError (utcnow rt)
      ("Function " ++ name ++ " failed after "
       ++ str_int (max_retries + 1) ++ " attempts")
      "RETRY_EXHAUSTED"
      [ ("max_retries", PNum (inject_Z max_retries));
        ("last_error", PStr last_error) ] in
  ((0 <= max_retries)%Z ->
   (forall k, (Z.of_nat k <= max_retries)%Z ->
      fails (snd (func args kwargs
                    (attempt_state sleep (func args kwargs) base_delay
                       backoff_factor k s0))) = true) ->
   let last :=
     func args kwargs
       (attempt_state sleep (func args kwargs) base_delay backoff_factor
          (Z.to_nat max_retries) s0) in
   exists e,
     snd last = Raises e
     /\ wrapper args kwargs s0
        = (fst last, Raises (Service (exhausted (str_raised e)))))
  /\ ((max_retries < 0)%Z ->
      wrapper args kwargs s0 = (s0, Raises (Service (exhausted "None")))).
Proof.
  intros Hb Hf wrapper exhausted. split.
  - intros Hmax Hfail last.
    destruct (retry_until_exhausted sleep (func args kwargs) max_retries
                base_delay backoff_factor s0 Hb Hf Hmax Hfail
                (Z.to_nat (max_retries + 1)) 0%nat None) as (e & He & Hrun);
      [lia | lia |].
    exists e. split; [exact He|].
    unfold wrapper, retry_with_backoff, range.
    cbn [attempt_state] in Hrun. rewrite Hrun. reflexivity.
  - intro Hneg. unfold wrapper, retry_with_backoff, range.
    assert (E : Z.to_nat (max_retries + 1) = 0%nat) by lia.
    rewrite E. reflexivity.
Qed.

Lemma retry_exhausted_witness :
  let rt := {| utcnow := "2025-01-01T00:00:00";
               str_args := fun _ => "()";
               str_kwargs := fun _ => "{}";
               format_exc := fun _ => "" |} in
  let always_failing_function : callable nat unit :=
    fun _ _ call_count =>
      (Datatypes.S call_count, Raises (Builtin (ValueError "Always fails"))) in
  exists se,
    retry_with_backoff rt (fun _ s => s) "always_failing_function"
      always_failing_function 3 1 2 [] [] 0%nat
    = (4%nat, Raises (Service se))
    /\ error_code se = "RETRY_EXHAUSTED".
Proof.
  intros rt always_failing_function.
  destruct (retry_exhausted rt (fun _ s => s) "always_failing_function"
              always_failing_function 3 1 2 [] [] 0%nat) as [H _];
    [lra | lra |].
  destruct H as (e & _ & H); [lia | intros k _; reflexivity |].
  eexists. split; [exact H | reflexivity].
Defined.

(** X21: A negative delay is not slept: [time.sleep] raises [ValueError]
    inside the handler, and that error leaves the wrapper after the first
    failed attempt, without a retry. *)
Theorem retry_negative_delay_escapes {S A} (rt : runtime)
  (sleep : Q -> S -> S) (name : string) (func : callable S A)
  (max_retries : Z) (base_delay backoff_factor : Q)
  (args : list pyval) (kwargs : sdict pyval) (s0 s1 : S) (e : raised) :
  base_delay < 0 -> (1 <= max_retries)%Z ->
  func args kwargs s0 = (s1, Raises e) ->
  retry_with_backoff rt sleep name func max_retries base_delay backoff_factor
    args kwargs s0
  = (s1, Raises (Builtin (ValueError "sleep length must be non-negative"))).
Proof.
  intros Hb Hmax Hfail. unfold retry_with_backoff, range.
  assert (E : Z.to_nat (max_retries + 1)
              = Datatypes.S (Z.to_nat max_retries)) by lia.
  rewrite E. cbn [seq map retry_attempts]. rewrite Hfail.
  assert (Hz : Z.eqb (Z.of_nat 0) max_retries = false)
    by (apply Z.eqb_neq; lia).
  rewrite Hz.
  assert (Hd : Qltb (base_delay * backoff_factor ^ Z.of_nat 0) 0 = true).
  { apply Qltb_lt. change (backoff_factor ^ Z.of_nat 0) with 1. lra. }
  now rewrite Hd.
Qed.

Lemma retry_negative_delay_witness :
  let rt := {| utcnow := "2025-01-01T00:00:00";
               str_args := fun _ => "()";
               str_kwargs := fun _ => "{}";
               format_exc := fun _ => "" |} in
  let always_failing_function : callable nat unit :=
    fun _ _ call_count =>
      (Datatypes.S call_count, Raises (Builtin (ValueError "Always fails"))) in
  retry_with_backoff rt (fun _ s => s) "always_failing_function"
    always_failing_function 3 (-1) 2 [] [] 0%nat
  = (1%nat, Raises (Builtin (ValueError "sleep length must be non-negative"))).
Proof.
  intros rt always_failing_function.
  apply (retry_negative_delay_escapes rt (fun _ s => s)
           "always_failing_function" always_failing_function 3 (-1) 2 [] []
           0%nat 1%nat (Builtin (ValueError "Always fails")));
    [lra | lia | reflexivity].
Defined.

(** *** Database errors *)

Lemma prefix_app (a b s : string) :
  String.prefix (a ++ b) s = true -> String.prefix a s = true.
Proof.
  revert s. induction a as [|c a IH]; intros s H; [now destruct s|].
  destruct s as [|c' s]; [discriminate H|].
  cbn in *. destruct (Ascii.ascii_dec c c'); [now apply IH | discriminate H].
Qed.

Lemma contains_app (a b s : string) :
  contains (a ++ b) s = true -> contains a s = true.
Proof.
  induction s as [|c s IH]; cbn [contains]; intro H.
  - apply orb_true_iff in H. destruct H as [H | H]; [|discriminate H].
    now rewrite (prefix_app _ _ _ H).
  - apply orb_true_iff in H. destruct H as [H | H].
    + now rewrite (prefix_app _ _ _ H).
    + rewrite (IH H). apply orb_true_r.
Qed.

(** X22: Whatever a function decorated with [handle_database_errors] raises
    comes out as a [DatabaseError] that keeps the original text in its
    details; results pass unchanged.  The category is decided on the
    lower-cased text, in the order connection, timeout, query, unknown;
    the test for "connection" adds nothing to the test for "connect". *)
Theorem database_errors_are_categorised {S A} (rt : runtime)
  (func : callable S A) (args : list pyval) (kwargs : sdict pyval) (s : S) :
  let r := handle_database_errors rt func args kwargs s in
  fst r = fst (func args kwargs s)
  /\ match snd (func args kwargs s) with
     | Returns a => snd r = Returns a
     | Raises e =>
         let text := lower (str_raised e) in
         exists se,
           snd r = Raises (Service se)
           /\ class_of se = cDatabaseError
           /\ error_code se = "DATABASE_ERROR"
           /\ sget "original_error" (details se) = Some (PStr (str_raised e))
           /\ sget "category" (details se)
              = Some (PStr (if contains "connect" text then "connection"
                            else if contains "timeout" text then "timeout"
                            else if contains "syntax" text
                                    || contains "sql" text then "query"
                            else "unknown"))
     end.
Proof.
  intro r. unfold r, handle_database_errors.
  destruct (func args kwargs s) as [s' [a | e]]; cbn [fst snd].
  - split; reflexivity.
  - split; [reflexivity|]. set (text := lower (str_raised e)).
    assert (Hc : contains "connection" text || contains "connect" text
                 = contains "connect" text).
    { destruct (contains "connect" text) eqn:E; [apply orb_true_r|].
      destruct (contains "connection" text) eqn:E'; [|reflexivity].
      apply (contains_app "connect" "ion") in E'. congruence. }
    rewrite Hc.
    destruct (contains "connect" text);
      [eexists; split; [reflexivity|]; cbn; auto|].
    destruct (contains "timeout" text);
      [eexists; split; [reflexivity|]; cbn; auto|].
    destruct (contains "syntax" text || contains "sql" text);
      eexists; (split; [reflexivity|]); cbn; auto.
Qed.

End DecoratorFacts.

(** * Properties of the marks read for prediction *)

Module QueryFacts.
Import PredictionService DatabaseQueries Notions.

Lemma percentage_range (obtained max : Q) :
  0 <= obtained <= max -> 0 < max -> 0 <= obtained / max * 100 <= 100.
Proof.
  intros [Hlo Hhi] Hmax.
  assert (H : 0 <= obtained / max <= 1).
  { split; [apply Qle_shift_div_l | apply Qle_shift_div_r]; lra. }
  revert H. generalize (obtained / max). intros z H. lra.
Qed.

Lemma sset_percentages (k : string) (v : pyval) (d : sdict pyval) :
  is_percentage (k, v) -> Forall is_percentage d ->
  Forall is_percentage (sset k v d).
Proof.
  intros Hv Hd. induction Hd as [|[k' v'] d Hkv Hd IH]; cbn.
  - now constructor.
  - destruct (String.eqb k k'); constructor; auto.
Qed.

Lemma sget_percentage (k : string) (d : sdict pyval) (v : pyval) :
  Forall is_percentage d -> sget k d = Some v ->
  exists q, v = PNum q /\ 0 <= q <= 100.
Proof.
  intros Hd. induction Hd as [|[k' v'] d Hkv Hd IH]; cbn; [discriminate|].
  destruct (String.eqb k k'); [|exact IH].
  intro E. injection E as <-. exact Hkv.
Qed.

Lemma marks_of_percentages (results : list marks_row) :
  (forall r, In r results ->
     0 <= marks_obtained r <= max_marks r /\ 0 < max_marks r) ->
  forall acc, Forall is_percentage acc ->
    exists marks,
      marks_of results acc = Ok marks /\ Forall is_percentage marks.
Proof.
  induction results as [|r rest IH]; intros Hr acc Hacc.
  - now exists acc.
  - cbn [marks_of]. destruct (Hr r (or_introl eq_refl)) as [Hb Hmax].
    destruct (Qeq_bool (max_marks r) 0) eqn:E.
    + apply Qeq_bool_iff in E. lra.
    + apply IH; [intros r' Hr'; apply Hr; now right|].
      apply sset_percentages; [|exact Hacc].
      eexists. split; [reflexivity|]. now apply percentage_range.
Qed.

Lemma holds_percentage (marks : sdict pyval) (exam : string) :
  Forall is_percentage marks ->
  exists m, Spec.holds marks exam m
            /\ forall q, m = Some q -> 0 <= q <= 100.
Proof.
  intro H. unfold Spec.holds.
  destruct (sget exam marks) as [v|] eqn:E.
  - destruct (sget_percentage _ _ _ H E) as (q & -> & Hq).
    exists (Some q). split; [reflexivity|].
    intros q' E'. injection E' as <-. exact Hq.
  - exists None. split; [reflexivity | discriminate].
Qed.

(** X23: From the database to the model: the rows of a student's internal
    marks, each between 0 and a positive maximum, always give a student
    record from which the feature vector is built without error, with the
    three internal features and their average between 0 and 100.  Without
    rows there is no record. *)
Theorem database_marks_give_percentage_features (self : t)
  (student_id subject_id : Z) (results : list marks_row) :
  (forall r, In r results ->
     0 <= marks_obtained r <= max_marks r /\ 0 < max_marks r) ->
  match results with
  | [] =>
      get_student_marks_for_prediction student_id subject_id results = Ok None
  | _ =>
      exists student_data f1 f2 f3 avg tail,
        get_student_marks_for_prediction student_id subject_id results
        = Ok (Some student_data)
        /\ sget "student_id" student_data = Some (PNum (inject_Z student_id))
        /\ sget "subject_id" student_data = Some (PNum (inject_Z subject_id))
        /\ _prepare_prediction_features self (PDict student_data)
           = Ok (PNum f1 :: PNum f2 :: PNum f3 :: PNum avg :: tail)
        /\ 0 <= f1 <= 100 /\ 0 <= f2 <= 100 /\ 0 <= f3 <= 100
        /\ 0 <= avg <= 100
  end.
Proof.
  intro Hr. destruct results as [|first rest]; [reflexivity|].
  destruct (marks_of_percentages (first :: rest) Hr [] (Forall_nil _))
    as (marks & Hm & Hp).
  destruct (holds_percentage marks "series_test_1" Hp) as (m1 & H1 & B1).
  destruct (holds_percentage marks "series_test_2" Hp) as (m2 & H2 & B2).
  destruct (holds_percentage marks "lab_internal" Hp) as (m3 & H3 & B3).
  unfold get_student_marks_for_prediction. rewrite Hm. cbn [bind].
  match goal with
  | |- context [Ok (Some ?d)] => set (student_data := d)
  end.
  destruct (PredictorMore.features_bounds self student_data marks m1 m2 m3)
    as (f1 & f2 & f3 & avg & tail & Hf & Hb1 & Hb2 & Hb3 & Hb4 & _);
    [reflexivity | exact H1 | exact H2 | exact H3 | |].
  - intros q [E | [E | [E | []]]]; [apply B1 | apply B2 | apply B3];
      now symmetry.
  - exists student_data, f1, f2, f3, avg, tail.
    split; [reflexivity|]. split; [reflexivity|]. split; [reflexivity|].
    split; [exact Hf|]. auto.
Qed.

Lemma database_marks_witness :
  let row exam obtained :=
    {| exam_type := exam; marks_obtained := obtained; max_marks := 50;
       subject_type := PStr "theory"; semester := PNum 3;
       subject_name := PStr "Algebra"; subject_code := PStr "MA101";
       student_name := PStr "A. Student" |} in
  exists student_data features,
    get_student_marks_for_prediction 3 1
      [row "lab_internal" 41; row "series_test_1" 40] = Ok (Some student_data)
    /\ _prepare_prediction_features (init "./models/") (PDict student_data)
       = Ok features.
Proof.
  intro row.
  pose proof (database_marks_give_percentage_features (init "./models/") 3 1
                [row "lab_internal" 41; row "series_test_1" 40]) as H.
  cbv beta iota in H.
  destruct H as (sd & f1 & f2 & f3 & avg & tail & Hg & _ & _ & Hf & _).
  - intros r [<- | [<- | []]]; cbn; lra.
  - exists sd. eexists. split; [exact Hg | exact Hf].
Defined.

(** *** The students of a batch *)

Lemma marks_of_total (results : list marks_row) :
  (forall r, In r results -> ~ max_marks r == 0) ->
  forall acc, exists marks, marks_of results acc = Ok marks.
Proof.
  induction results as [|r rest IH]; intros Hr acc; [now exists acc|].
  cbn [marks_of]. destruct (Qeq_bool (max_marks r) 0) eqn:E.
  - apply Qeq_bool_iff in E. now elim (Hr r (or_introl eq_refl)).
  - apply IH. intros r' Hr'. apply Hr. now right.
Qed.

Lemma students_for_prediction_list (subject_id : Z)
  (students : list (Z * list marks_row)) :
  (forall p r, In p students -> In r (snd p) -> ~ max_marks r == 0) ->
  exists l,
    get_students_for_prediction subject_id students = Ok l
    /\ map (fun d => sget "student_id" d) l
       = map (fun p => Some (PNum (inject_Z (fst p))))
           (filter (fun p => match snd p with [] => false | _ => true end)
                   students).
Proof.
  induction students as [|[sid results] rest IH]; intro Hr.
  - exists []. split; reflexivity.
  - destruct IH as (l & Hl & Hids);
      [intros p r Hp; apply Hr; now right|].
    cbn [get_students_for_prediction filter snd fst].
    destruct results as [|first more].
    + cbn [get_student_marks_for_prediction bind]. rewrite Hl. cbn [bind].
      exists l. split; [reflexivity | exact Hids].
    + destruct (marks_of_total (first :: more)
                  (fun r Hin => Hr (sid, first :: more) r
                                  (or_introl eq_refl) Hin) [])
        as [marks Hm].
      unfold get_student_marks_for_prediction. rewrite Hm. cbn [bind].
      rewrite Hl. cbn [bind]. eexists. split; [reflexivity|].
      cbn [map fst]. now rewrite Hids.
Qed.

(** X24: The batch route works on the students that have at least one internal
    mark: enrolled students without marks are left out before prediction,
    the others keep their order, and when no enrolled student has a mark
    the route answers 404.  Otherwise the summary counts only the
    students with marks in [total_students]; the route answers it with
    status 200 if [jsonify] accepts it, and with an error and status 500
    if [jsonify] raises. *)
Theorem batch_route_counts_students_with_marks (ps : t) (fs : filesystem)
  (drv : Connection.driver) (json_error : sdict pyval -> option exn)
  (db : DatabaseService.t) (subject_id : Z)
  (students : list (Z * list marks_row)) :
  subject_id <> 0%Z ->
  (forall p r, In p students -> In r (snd p) -> ~ max_marks r == 0) ->
  let marked :=
    filter (fun p => match snd p with [] => false | _ => true end) students in
  exists l,
    get_students_for_prediction subject_id students = Ok l
    /\ map (fun d => sget "student_id" d) l
       = map (fun p => Some (PNum (inject_Z (fst p)))) marked
    /\ let response :=
         snd (App.batch_predict ps fs drv json_error db subject_id
                (map PDict l)) in
       match marked with
       | [] =>
           response
           = ([ ("success", PBool false);
                ("error", PStr "No students found for the subject") ], 404%Z)
       | _ =>
           exists summary,
             sget "success" summary = Some (PBool true)
             /\ sget "total_students" summary
                = Some (pynat (List.length marked))
             /\ response
                = match json_error summary with
                  | None => (summary, 200%Z)
                  | Some e =>
                      ([ ("success", PBool false);
                         ("error", PStr (str_exn e)) ], 500%Z)
                  end
       end.
Proof.
  intros Hj Hr marked.
  destruct (students_for_prediction_list subject_id students Hr)
    as (l & Hl & Hids).
  fold marked in Hids. exists l. split; [exact Hl|]. split; [exact Hids|].
  assert (Hlen : List.length l = List.length marked).
  { apply (f_equal (@List.length _)) in Hids. now rewrite !length_map in Hids. }
  destruct marked as [|p marked'].
  - destruct l; [|discriminate Hlen]. unfold App.batch_predict.
    destruct (Z.eqb_spec subject_id 0); [contradiction | reflexivity].
  - destruct l as [|d l']; [discriminate Hlen|].
    assert (Hlen' : List.length (map PDict (d :: l'))
                    = List.length (p :: marked'))
      by (rewrite length_map; exact Hlen).
    rewrite BatchFacts.route_with_students by (exact Hj || discriminate).
    rewrite PredictorFacts.batch_predict_dicts, Hlen'.
    destruct (App.save_predictions drv db _) as [[db' predictions'] saved].
    cbn [snd]. eexists. split; [|split; [|reflexivity]]; reflexivity.
Qed.

Lemma batch_route_counts_witness :
  let row :=
    {| exam_type := "series_test_1"; marks_obtained := 40; max_marks := 50;
       subject_type := PStr "theory"; semester := PNum 3;
       subject_name := PStr "Algebra"; subject_code := PStr "MA101";
       student_name := PStr "A. Student" |} in
  exists l,
    get_students_for_prediction 1 [ (7%Z, []); (8%Z, [row]) ] = Ok l
    /\ map (fun d => sget "student_id" d) l = [ Some (PNum 8) ].
Proof.
  intro row.
  destruct (batch_route_counts_students_with_marks Samples.both_registered
              Samples.no_files Samples.no_driver_error Samples.plain_response
              Samples.empty_database 1
              [ (7%Z, []); (8%Z, [row]) ]) as (l & Hl & Hids & _).
  - discriminate.
  - intros p r [<- | [<- | []]]; cbn; [intros [] | intros [<- | []]].
    cbn. intro E. discriminate E.
  - exists l. split; [exact Hl | exact Hids].
Defined.

End QueryFacts.

(** * Properties of the routes *)

Module RouteFacts.
Import Errors Routes Notions.

(** The fallback that a call without arguments gets. *)
Lemma fallback_without_arguments :
  ErrorHandler.get_fallback_prediction [] []
  = Spec.fallback_result (py_round 65 1) (3 # 10) "limited".
Proof. reflexivity. Qed.

(** *** Saving *)

Lemma save_prediction_row (db : DatabaseService.t) (s j : Z) (pm cs : Q)
  (feats : pyval) (ver : string) :
  exists row,
    snd (DatabaseService.save_prediction db s j pm cs feats ver)
    = Ok (DatabaseService.id row)
    /\ In row (DatabaseService.ml_predictions
                 (fst (DatabaseService.save_prediction db s j pm cs feats ver)))
    /\ DatabaseService.student_id row = s
    /\ DatabaseService.subject_id row = j
    /\ DatabaseService.predicted_marks row = pm
    /\ DatabaseService.confidence_score row = cs
    /\ DatabaseService.committed
         (fst (DatabaseService.save_prediction db s j pm cs feats ver))
       = DatabaseService.committed db.
Proof.
  unfold DatabaseService.save_prediction.
  destruct (filter (DatabaseService.same_pair s j)
              (DatabaseService.ml_predictions db)) as [|r0 rs] eqn:F.
  - cbn [map fst snd DatabaseService.with_rows
         DatabaseService.ml_predictions DatabaseService.committed].
    exists {| DatabaseService.id := DatabaseService.next_id db;
              DatabaseService.student_id := s;
              DatabaseService.subject_id := j;
              DatabaseService.predicted_marks := pm;
              DatabaseService.confidence_score := cs;
              DatabaseService.input_features := feats;
              DatabaseService.model_version := ver;
              DatabaseService.is_visible_to_student := false;
              DatabaseService.created_at :=
                DatabaseService.current_timestamp db |}.
    split; [reflexivity|]. split.
    + apply in_or_app. right. left. reflexivity.
    + cbn. auto.
  - cbn [map]. rewrite DatabaseMore.filter_same_pair_updated, F.
    cbn [map fst snd DatabaseService.with_rows
         DatabaseService.ml_predictions DatabaseService.committed].
    assert (Hin : In r0 (filter (DatabaseService.same_pair s j)
                           (DatabaseService.ml_predictions db)))
      by (rewrite F; now left).
    apply filter_In in Hin. destruct Hin as [Hin Hp].
    exists (DatabaseService.updated db pm cs feats ver r0).
    split; [reflexivity|]. split.
    + apply in_map_iff. exists r0. split; [now rewrite Hp | exact Hin].
    + unfold DatabaseService.same_pair in Hp.
      apply andb_true_iff in Hp. destruct Hp as [Hs Hj].
      apply Z.eqb_eq in Hs, Hj. cbn. auto.
Qed.

Lemma connection_save_committed (drv : Connection.driver)
  (db : DatabaseService.t) (s j : Z) (pm cs : Q) (feats : pyval)
  (ver : string) :
  DatabaseService.committed
    (fst (Connection.save_prediction drv db s j pm cs feats ver))
  = DatabaseService.committed db.
Proof.
  unfold Connection.save_prediction, Connection.guarded.
  destruct (Connection.first_error drv _ db); [reflexivity|]. cbn [fst].
  destruct (save_prediction_row db s j pm cs feats ver)
    as (row & _ & _ & _ & _ & _ & _ & H). exact H.
Qed.

Lemma save_result_committed (env : environment) (db : DatabaseService.t)
  (s j : Z) (r : sdict pyval) :
  DatabaseService.committed (fst (save_result env db s j r))
  = DatabaseService.committed db.
Proof.
  unfold save_result.
  destruct (truthy (get_or "success" r PNone)); [|reflexivity].
  match goal with
  | |- context [match ?c with Ok _ => _ | Raise _ => _ end] =>
      destruct c as [[[[pm cs] feats] ver] | e]
  end; [|reflexivity].
  pose proof (connection_save_committed (driver env) db s j pm cs feats ver)
    as H.
  destruct (Connection.save_prediction (driver env) db s j pm cs feats ver)
    as [db' [pid | e | msg]]; exact H.
Qed.

(** *** The view function *)

(** What the body of the view does in every case: it never commits; an
    exception that leaves it is no [PredictionError] and no [ModelError];
    a response has status 200 for a success and 400 otherwise. *)
Lemma predict_marks_body_outcome (rt : runtime) (env : environment)
  (st st1 : state) (o : outcome (sdict pyval * Z)) :
  predict_marks_body rt env st = (st1, o) ->
  DatabaseService.committed (snd st1) = DatabaseService.committed (snd st)
  /\ match o with
     | Raises e => isinstance e [cPredictionError; cModelError] = false
     | Returns (result, status) =>
         status = if truthy (get_or "success" result PNone)
                  then 200%Z else 400%Z
     end.
Proof.
  unfold predict_marks_body. destruct st as [ps db].
  destruct (get_json env) as [data | e'].
  2:{ intro H. injection H as <- <-. split; reflexivity. }
  destruct (negb (truthy data)).
  { intro H. injection H as <- <-. split; reflexivity. }
  destruct (student_id <- py_get data "student_id" PNone ;;
            subject_id <- py_get data "subject_id" PNone ;;
            Ok (student_id, subject_id))
    as [[student_id subject_id] | e0].
  2:{ intro H. injection H as <- <-. split; reflexivity. }
  destruct (negb (truthy student_id) || negb (truthy subject_id)).
  { intro H. injection H as <- <-. split; reflexivity. }
  destruct (s <- py_int env student_id ;;
            j <- py_int env subject_id ;;
            Ok (s, j)) as [[s j] | e1].
  2:{ intro H. injection H as <- <-. split; reflexivity. }
  cbv zeta.
  destruct (driver env _ db) as [message|].
  { intro H. injection H as <- <-. split; reflexivity. }
  destruct (DatabaseQueries.get_student_marks_for_prediction s j _)
    as [[student_data|] | e2].
  - destruct (PredictionService.predict_university_marks ps _ _ _)
      as [ps' prediction_result].
    pose proof (save_result_committed env db s j prediction_result) as Hc.
    destruct (save_result env db s j prediction_result) as [db' result].
    cbn [fst] in Hc.
    destruct (json_error env result) as [e|];
      intro H; injection H as <- <-; (split; [exact Hc | reflexivity]).
  - intro H. injection H as <- <-. split; reflexivity.
  - intro H. injection H as <- <-. split; reflexivity.
Qed.

Lemma predict_marks_outcome (rt : runtime) (env : environment)
  (args : list pyval) (kwargs : sdict pyval) (st st1 : state)
  (o : outcome (sdict pyval * Z)) :
  predict_marks rt env args kwargs st = (st1, o) ->
  DatabaseService.committed (snd st1) = DatabaseService.committed (snd st)
  /\ match o with
     | Raises e => isinstance e [cPredictionError; cModelError] = false
     | Returns (result, status) =>
         status = if truthy (get_or "success" result PNone)
                  then 200%Z else 400%Z
     end.
Proof.
  unfold predict_marks.
  destruct (negb (services_available env)).
  { intro H. injection H as <- <-. split; reflexivity. }
  destruct (predict_marks_body rt env st) as [st2 [r | e0]] eqn:B;
    destruct (predict_marks_body_outcome _ _ _ _ _ B) as [Hc Ho].
  - intro H. injection H as <- <-. split; [exact Hc | exact Ho].
  - destruct (isinstance e0 [cMLServiceError]);
      intro H; injection H as <- <-; (split; [exact Hc|]);
      [exact Ho | reflexivity].
Qed.

Lemma truthy_id (n : Z) : n <> 0%Z -> truthy (PNum (inject_Z n)) = true.
Proof.
  intro Hn. unfold truthy.
  destruct (Qeq_bool (inject_Z n) 0) eqn:E; [|reflexivity].
  apply Qeq_bool_iff in E. exfalso. apply Hn.
  apply (proj1 (inject_Z_injective n 0)). exact E.
Qed.

Lemma trunc_inject_Z (n : Z) : trunc (inject_Z n) = n.
Proof.
  unfold trunc. destruct (Qle_bool 0 (inject_Z n));
    [apply Qfloor_Z | apply Qceiling_Z].
Qed.

(** A request with integer ids reaches the marks query; when the driver
    raises there, [execute_query] rolls the transaction back and the
    route answers the fallback. *)
Lemma predict_route_failing_marks_query (rt : runtime) (env : environment)
  (ps : PredictionService.t) (db : DatabaseService.t) (d : sdict pyval)
  (s j : Z) (message : string) :
  services_available env = true ->
  get_json env = Ok (PDict d) ->
  sget "student_id" d = Some (PNum (inject_Z s)) -> s <> 0%Z ->
  sget "subject_id" d = Some (PNum (inject_Z j)) -> j <> 0%Z ->
  driver env
    (Connection.MarksStatement s j (get_or "academic_year" d PNone)) db
  = Some message ->
  predict_route rt env (ps, db)
  = ((ps, Connection.rollback db),
     Returns (inr (Spec.fallback_result (py_round 65 1) (3 # 10) "limited"))).
Proof.
  intros Ha Hd Hs Hs0 Hj Hj0 Hq.
  assert (T : truthy (PDict d) = true)
    by (destruct d; [discriminate Hs | reflexivity]).
  unfold predict_route, handle_prediction_errors, predict_marks.
  rewrite Ha. cbn [negb]. unfold predict_marks_body.
  rewrite Hd, T. cbn [negb py_get bind]. rewrite Hs, Hj.
  rewrite (truthy_id s Hs0), (truthy_id j Hj0). cbn [negb orb py_int bind].
  rewrite !trunc_inject_Z. cbv zeta. cbn [get_or_none].
  rewrite Hq. reflexivity.
Qed.

(** X25: The route [/predict] never raises and never answers with an error of
    its own: its view returns either the prediction result, with status
    200 when the prediction succeeded and 400 when it failed, or, whenever
    the view function raises (a body that is not JSON, no body, no ids,
    ids that are no integers, a failing marks query, no marks, a response
    that [jsonify] rejects, services not available), the fallback
    prediction of 65.0 at confidence 0.3.  The route never commits: the
    committed predictions are those of before the request, whatever a
    rollback or the save did to the pending ones.  When the driver raises
    on the marks query, the transaction is rolled back, so that the
    predictions saved before and not committed are lost, and the fallback
    is answered. *)
Theorem predict_route_never_raises (rt : runtime) (env : environment)
  (st : state) :
  exists st' v,
    predict_route rt env st = (st', Returns v)
    /\ DatabaseService.committed (snd st')
       = DatabaseService.committed (snd st)
    /\ match v with
       | inl (result, status) =>
           predict_marks rt env [] [] st = (st', Returns (result, status))
           /\ status = (if truthy (get_or "success" result PNone)
                        then 200%Z else 400%Z)
       | inr fallback =>
           fails (snd (predict_marks rt env [] [] st)) = true
           /\ fallback
              = Spec.fallback_result (py_round 65 1) (3 # 10) "limited"
           /\ py_round 65 1 == 65
       end
    /\ (forall d s j message,
          services_available env = true ->
          get_json env = Ok (PDict d) ->
          sget "student_id" d = Some (PNum (inject_Z s)) -> s <> 0%Z ->
          sget "subject_id" d = Some (PNum (inject_Z j)) -> j <> 0%Z ->
          driver env
            (Connection.MarksStatement s j (get_or "academic_year" d PNone))
            (snd st)
          = Some message ->
          st' = (fst st, Connection.rollback (snd st))
          /\ v = inr (Spec.fallback_result (py_round 65 1) (3 # 10)
                        "limited")).
Proof.
  assert (Hmain : exists st' v,
            predict_route rt env st = (st', Returns v)
            /\ DatabaseService.committed (snd st')
               = DatabaseService.committed (snd st)
            /\ match v with
               | inl (result, status) =>
                   predict_marks rt env [] [] st
                   = (st', Returns (result, status))
                   /\ status = (if truthy (get_or "success" result PNone)
                                then 200%Z else 400%Z)
               | inr fallback =>
                   fails (snd (predict_marks rt env [] [] st)) = true
                   /\ fallback
                      = Spec.fallback_result (py_round 65 1) (3 # 10)
                          "limited"
                   /\ py_round 65 1 == 65
               end).
  { unfold predict_route, handle_prediction_errors.
    destruct (predict_marks rt env [] [] st)
      as [st1 [[result status] | e]] eqn:P;
      destruct (predict_marks_outcome _ _ _ _ _ _ _ P) as [Hc Ho].
    - exists st1, (inl (result, status)). split; [reflexivity|].
      split; [exact Hc|]. split; [reflexivity | exact Ho].
    - rewrite Ho.
      exists st1, (inr (ErrorHandler.get_fallback_prediction [] [])).
      split; [reflexivity|]. split; [exact Hc|]. split; [reflexivity|].
      split; [apply fallback_without_arguments | apply (py_round_int 65)]. }
  destruct Hmain as (st' & v & Hr & Hc & Hv).
  exists st', v. split; [exact Hr|]. split; [exact Hc|]. split; [exact Hv|].
  intros d s j message Ha Hd Hs Hs0 Hj Hj0 Hq.
  destruct st as [ps db]. cbn [fst snd] in *.
  rewrite (predict_route_failing_marks_query rt env ps db d s j message
             Ha Hd Hs Hs0 Hj Hj0 Hq) in Hr.
  injection Hr as <- <-. split; reflexivity.
Qed.

(** A request that arrives when the connection is lost: the prediction
    that was saved before and not committed is gone after it. *)
Lemma predict_route_rollback_witness :
  let rt := {| utcnow := "2025-01-01T00:00:00";
               str_args := fun _ => "()";
               str_kwargs := fun _ => "{}";
               format_exc := fun _ => "" |} in
  let env := {| services_available := true;
                get_json :=
                  Ok (PDict [ ("student_id", PNum 3);
                              ("subject_id", PNum 1) ]);
                model_files := Samples.no_files;
                driver := Samples.lost_connection;
                marks_rows := fun _ _ _ => [];
                json_error := Samples.plain_response;
                parse_int := fun _ => None;
                request_id := "pred_20250101_000000_00000000" |} in
  let st := (Samples.both_registered, Samples.pending_database) in
  List.length (DatabaseService.ml_predictions (snd st)) = 1%nat
  /\ exists st',
       predict_route rt env st
       = (st', Returns (inr (Spec.fallback_result (py_round 65 1) (3 # 10)
                               "limited")))
       /\ DatabaseService.ml_predictions (snd st') = [].
Proof.
  intros rt env st. split; [reflexivity|].
  destruct (predict_route_never_raises rt env st)
    as (st' & v & Hr & _ & _ & H).
  destruct (H [ ("student_id", PNum 3); ("subject_id", PNum 1) ] 3%Z 1%Z
              "server closed the connection unexpectedly")
    as [Hst Hv];
    [reflexivity | reflexivity | reflexivity | discriminate
     | reflexivity | discriminate | reflexivity |].
  exists st'. split.
  - rewrite <- Hv. exact Hr.
  - rewrite Hst. reflexivity.
Defined.

(** X26: A request whose body is not JSON, is missing or empty, or lacks the
    student or subject id, and any request while the services are not
    available, is answered with the fallback prediction 65.0 and not with
    an error. *)
Theorem predict_route_bad_request_gets_fallback (rt : runtime)
  (env : environment) (st : state) :
  services_available env = false
  \/ (exists e, get_json env = Raise e)
  \/ (exists data, get_json env = Ok data /\ truthy data = false)
  \/ (exists d, get_json env = Ok (PDict d)
                /\ (truthy (get_or "student_id" d PNone) = false
                    \/ truthy (get_or "subject_id" d PNone) = false)) ->
  predict_route rt env st
  = (st, Returns (inr (Spec.fallback_result (py_round 65 1) (3 # 10)
                         "limited"))).
Proof.
  intro H.
  assert (R : exists e, predict_marks rt env [] [] st = (st, Raises e)
                        /\ isinstance e [cPredictionError; cModelError]
                           = false).
  { unfold predict_marks. destruct H as [H | H].
    { rewrite H. eexists. split; reflexivity. }
    destruct (services_available env); [|eexists; split; reflexivity].
    cbn [negb].
    destruct H as [(e & He) | H].
    { unfold predict_marks_body. destruct st as [ps db]. rewrite He.
      eexists. split; reflexivity. }
    assert (B : exists se,
              predict_marks_body rt env st = (st, Raises (Service se))
              /\ class_of se = cDataError).
    { unfold predict_marks_body. destruct st as [ps db].
      destruct H as [(data & Hd & H) | (d & Hd & H)].
      - rewrite Hd, H. eexists. split; reflexivity.
      - rewrite Hd. destruct d as [|kv d'] eqn:Ed.
        + eexists. split; reflexivity.
        + rewrite <- Ed in *. assert (T : truthy (PDict d) = true)
            by (now rewrite Ed). rewrite T. cbn [negb py_get bind].
          fold (get_or "student_id" d PNone).
          fold (get_or "subject_id" d PNone).
          assert (O : negb (truthy (get_or "student_id" d PNone))
                      || negb (truthy (get_or "subject_id" d PNone)) = true).
          { destruct H as [-> | ->]; [reflexivity | apply orb_true_r]. }
          rewrite O. eexists. split; reflexivity. }
    destruct B as (se & -> & Hc). destruct se as [c m code dt ts].
    cbn in Hc. subst c. eexists. split; reflexivity. }
  destruct R as (e & P & Hc).
  unfold predict_route, handle_prediction_errors. rewrite P, Hc.
  reflexivity.
Qed.

Lemma predict_route_bad_request_witness :
  let rt := {| utcnow := "2025-01-01T00:00:00";
               str_args := fun _ => "()";
               str_kwargs := fun _ => "{}";
               format_exc := fun _ => "" |} in
  let env := {| services_available := true;
                get_json := Ok (PDict [ ("student_id", PNum 3) ]);
                model_files := Samples.no_files;
                driver := Samples.no_driver_error;
                marks_rows := fun _ _ _ => [];
                json_error := Samples.plain_response;
                parse_int := fun _ => None;
                request_id := "pred_20250101_000000_00000000" |} in
  snd (predict_route rt env (Samples.both_registered, Samples.empty_database))
  = Returns (inr (Spec.fallback_result (py_round 65 1) (3 # 10) "limited")).
Proof.
  intros rt env.
  rewrite (predict_route_bad_request_gets_fallback rt env
             (Samples.both_registered, Samples.empty_database)).
  - reflexivity.
  - right. right. right. exists [ ("student_id", PNum 3) ].
    split; [reflexivity | right; reflexivity].
Defined.

(** *** A successful prediction *)

(** X27: A well-formed request whose marks are read and whose prediction
    succeeds.  If the driver accepts the save, the prediction table then
    has a row of the student and subject with the predicted marks, whose
    id the result carries as [prediction_id] next to the request id; if
    the driver raises, the transaction is rolled back, nothing is stored
    and the result carries [save_warning] instead.  If [jsonify] accepts
    the result it is answered with status 200; if [jsonify] raises, the
    fallback prediction is answered instead, the save staying as it is.
    The route does not commit in either case. *)
Theorem predict_route_stores_successful_prediction (rt : runtime)
  (env : environment) (ps : PredictionService.t) (db : DatabaseService.t)
  (d : sdict pyval) (s j : Z) (student_data : sdict pyval) :
  services_available env = true ->
  get_json env = Ok (PDict d) ->
  sget "student_id" d = Some (PNum (inject_Z s)) -> s <> 0%Z ->
  sget "subject_id" d = Some (PNum (inject_Z j)) -> j <> 0%Z ->
  let academic_year := get_or "academic_year" d PNone in
  driver env (Connection.MarksStatement s j academic_year) db = None ->
  DatabaseQueries.get_student_marks_for_prediction s j
    (marks_rows env s j academic_year)
  = Ok (Some student_data) ->
  sget "success"
    (snd (PredictionService.predict_university_marks ps (model_files env)
            (PDict student_data) (Some j)))
  = Some (PBool true) ->
  exists ps' db' result pm cs feats ver,
    predict_route rt env (ps, db)
    = ((ps', db'),
       Returns
         match json_error env result with
         | None => inl (result, 200%Z)
         | Some _ =>
             inr (Spec.fallback_result (py_round 65 1) (3 # 10) "limited")
         end)
    /\ sget "success" result = Some (PBool true)
    /\ sget "predicted_marks" result = Some (PNum pm)
    /\ sget "predicted_marks"
         (snd (PredictionService.predict_university_marks ps (model_files env)
                 (PDict student_data) (Some j)))
       = Some (PNum pm)
    /\ DatabaseService.committed db' = DatabaseService.committed db
    /\ match Connection.first_error (driver env)
               (Connection.save_statements db s j pm cs feats ver) db with
       | None =>
           exists row,
             In row (DatabaseService.ml_predictions db')
             /\ DatabaseService.student_id row = s
             /\ DatabaseService.subject_id row = j
             /\ DatabaseService.predicted_marks row = pm
             /\ sget "prediction_id" result
                = Some (PNum (inject_Z (DatabaseService.id row)))
             /\ sget "request_id" result = Some (PStr (request_id env))
             /\ sget "save_warning" result = None
       | Some _ =>
           db' = Connection.rollback db
           /\ sget "save_warning" result
              = Some (PStr "Prediction not saved to database")
           /\ sget "prediction_id" result = None
       end.
Proof.
  intros Ha Hd Hs Hs0 Hj Hj0 academic_year Hq Hg Hp.
  destruct (PredictorFacts.predict_success_inv _ _ _ _ Hp)
    as (ps' & key & m & feats & raw & conf & _ & _ & _ & _ & Hpred).
  set (pm := py_round (py_max 0 (py_min 100 raw)) 2) in Hpred.
  set (cs := py_round conf 2) in Hpred.
  set (features :=
         PDict (PredictionService.dict_zip
                  (PredictionService.feature_columns ps') feats)) in Hpred.
  assert (T : truthy (PDict d) = true)
    by (destruct d; [discriminate Hs | reflexivity]).
  assert (Hroute : forall db' result,
            save_result env db s j
              (snd (PredictionService.predict_university_marks ps
                      (model_files env) (PDict student_data) (Some j)))
            = (db', result) ->
            sget "success" result = Some (PBool true) ->
            predict_route rt env (ps, db)
            = ((ps', db'),
               Returns
                 match json_error env result with
                 | None => inl (result, 200%Z)
                 | Some _ =>
                     inr (Spec.fallback_result (py_round 65 1) (3 # 10)
                            "limited")
                 end)).
  { intros db' result Hsave Hsucc.
    unfold predict_route, handle_prediction_errors, predict_marks.
    rewrite Ha. cbn [negb]. unfold predict_marks_body.
    rewrite Hd, T. cbn [negb py_get bind]. rewrite Hs, Hj.
    rewrite (truthy_id s Hs0), (truthy_id j Hj0). cbn [negb orb py_int bind].
    rewrite !trunc_inject_Z. cbv zeta. cbn [get_or_none].
    fold academic_year. rewrite Hq, Hg.
    rewrite Hpred in Hsave |- *. cbn [snd] in Hsave. rewrite Hsave.
    destruct (json_error env result) as [e|].
    - reflexivity.
    - unfold get_or. rewrite Hsucc. reflexivity. }
  rewrite Hpred in Hroute |- *. cbn [snd] in Hroute |- *.
  unfold save_result in Hroute.
  cbn [get_or sget dict_get String.eqb Ascii.eqb Bool.eqb truthy
       App.item App.number_of App.string_of num_of bind] in Hroute.
  pose proof (connection_save_committed (driver env) db s j pm cs features
                (PredictionService.model_version ps')) as Hcom.
  unfold Connection.save_prediction, Connection.guarded in Hroute, Hcom.
  destruct (Connection.first_error (driver env)
              (Connection.save_statements db s j pm cs features
                 (PredictionService.model_version ps')) db)
    as [message|] eqn:Hdrv.
  - (* the save fails *)
    eexists ps', (Connection.rollback db), _, pm, cs, features,
      (PredictionService.model_version ps').
    split; [apply Hroute; reflexivity|].
    rewrite Hdrv.
    split; [reflexivity|]. split; [reflexivity|]. split; [reflexivity|].
    split; [reflexivity|]. split; [reflexivity|]. split; reflexivity.
  - (* the save succeeds *)
    destruct (save_prediction_row db s j pm cs features
                (PredictionService.model_version ps'))
      as (row & Hid & Hin & Hrs & Hrj & Hrp & _ & _).
    cbn [fst snd] in Hroute, Hcom. rewrite Hid in Hroute.
    eexists ps', _, _, pm, cs, features,
      (PredictionService.model_version ps').
    split; [apply Hroute; reflexivity|].
    rewrite Hdrv.
    split; [reflexivity|]. split; [reflexivity|]. split; [reflexivity|].
    split; [exact Hcom|].
    exists row. split; [exact Hin|]. split; [exact Hrs|].
    split; [exact Hrj|]. split; [exact Hrp|].
    split; [reflexivity|]. split; reflexivity.
Qed.

(** Two requests for a student with marks.  With a working driver and a
    response that [jsonify] accepts, the answer is the result with status
    200 and the request id.  With a production model whose predictions
    are [numpy.float32] values, the save fails and is rolled back, which
    also discards the prediction that was pending, and the answer is the
    fallback. *)
Lemma predict_route_stores_witness :
  let rt := {| utcnow := "2025-01-01T00:00:00";
               str_args := fun _ => "()";
               str_kwargs := fun _ => "{}";
               format_exc := fun _ => "" |} in
  let row exam obtained :=
    {| DatabaseQueries.exam_type := exam;
       DatabaseQueries.marks_obtained := obtained;
       DatabaseQueries.max_marks := 50;
       DatabaseQueries.subject_type := PStr "theory";
       DatabaseQueries.semester := PNum 3;
       DatabaseQueries.subject_name := PStr "Algebra";
       DatabaseQueries.subject_code := PStr "MA101";
       DatabaseQueries.student_name := PStr "A. Student" |} in
  let env drv json :=
    {| services_available := true;
       get_json :=
         Ok (PDict [ ("student_id", PNum 3); ("subject_id", PNum 1) ]);
       model_files := Samples.no_files;
       driver := drv;
       marks_rows := fun _ _ _ =>
         [row "lab_internal" 41; row "series_test_1" 40];
       json_error := json;
       parse_int := fun _ => None;
       request_id := "pred_20250101_000000_00000000" |} in
  (exists st' result,
     predict_route rt (env Samples.no_driver_error Samples.plain_response)
       (Samples.both_registered, Samples.empty_database)
     = (st', Returns (inl (result, 200%Z)))
     /\ sget "request_id" result
        = Some (PStr "pred_20250101_000000_00000000"))
  /\ (exists st',
        predict_route rt (env Samples.float32_driver Samples.float32_response)
          (Samples.both_registered, Samples.pending_database)
        = (st', Returns (inr (Spec.fallback_result (py_round 65 1) (3 # 10)
                                "limited")))
        /\ DatabaseService.ml_predictions (snd st') = []).
Proof.
  intros rt row env.
  pose (student_data :=
          match DatabaseQueries.get_student_marks_for_prediction 3 1
                  [row "lab_internal" 41; row "series_test_1" 40] with
          | Ok (Some sd) => sd
          | _ => []
          end).
  split.
  - destruct (predict_route_stores_successful_prediction rt
                (env Samples.no_driver_error Samples.plain_response)
                Samples.both_registered Samples.empty_database
                [ ("student_id", PNum 3); ("subject_id", PNum 1) ] 3 1
                student_data)
      as (ps' & db' & result & pm & cs & feats & ver & H & _ & _ & _ & _
          & Hrow).
    + reflexivity.
    + reflexivity.
    + reflexivity.
    + discriminate.
    + reflexivity.
    + discriminate.
    + reflexivity.
    + vm_compute. reflexivity.
    + vm_compute. reflexivity.
    + destruct Hrow as (r & _ & _ & _ & _ & _ & Hreq & _).
      exists (ps', db'), result. split; [exact H | exact Hreq].
  - destruct (predict_route_stores_successful_prediction rt
                (env Samples.float32_driver Samples.float32_response)
                Samples.both_registered Samples.pending_database
                [ ("student_id", PNum 3); ("subject_id", PNum 1) ] 3 1
                student_data)
      as (ps' & db' & result & pm & cs & feats & ver & H & _ & Hpm & _ & _
          & Hsave).
    + reflexivity.
    + reflexivity.
    + reflexivity.
    + discriminate.
    + reflexivity.
    + discriminate.
    + reflexivity.
    + vm_compute. reflexivity.
    + vm_compute. reflexivity.
    + cbn in Hsave. destruct Hsave as (Hdb & _).
      assert (Hjson : json_error
                        (env Samples.float32_driver Samples.float32_response)
                        result
                      = Some (TypeError
                                "Object of type float32 is not JSON serializable")).
      { cbn [json_error env].
        unfold Samples.float32_response, Samples.holds_predicted_marks,
          sin, dict_in.
        unfold sget in Hpm. now rewrite Hpm. }
      rewrite Hjson in H.
      exists (ps', db'). split; [exact H|]. cbn [snd]. rewrite Hdb.
      reflexivity.
Defined.

(** *** Toggling visibility *)



End RouteFacts.
